(** * AzureDevOps-MCP: configuration resolution, connection factory,
      pull-request validation and response normalisation.

    A shallow embedding of [src/config.ts] and of the service code
    ([AzureDevOpsService], [GitService], [validatePullRequestRepository],
    [Logger.logConnectionFailure]) together with the properties the
    specification states about them. *)

From Stdlib Require Import ZArith Ascii String List Lia.
From stdpp Require Import base option list strings gmap pretty.

#[local] Set Warnings "-register-all".
Local Open Scope string_scope.

(** ** JavaScript values as the code uses them *)

Module Js.

(** A thrown [Error]: the constructor name, the message and the optional
    [code] property that [logConnectionFailure] reads. *)
Record JsError := mkError {
  err_name : string;
  err_message : string;
  err_code : option string
}.

(** [new Error(message)] *)
Definition Error (message : string) : JsError :=
  {| err_name := "Error"; err_message := message; err_code := None |}.

(** Completion of a call: a value, or a thrown error. *)
Inductive result (A : Type) : Type :=
| Ok (a : A)
| Throw (e : JsError).
Arguments Ok {A} a.
Arguments Throw {A} e.

(** Truthiness of a [string | undefined]: [undefined] and [''] are falsy. *)
Definition truthy (v : option string) : bool :=
  match v with
  | Some s => negb (String.eqb s "")
  | None => false
  end.

(** [v || d] on [string | undefined]. *)
Definition or_default (v : option string) (d : string) : string :=
  match v with
  | Some s => if String.eqb s "" then d else s
  | None => d
  end.

(** [`${n}`] for a number holding an integer: the decimal numeral
    (the ECMAScript rendering of every integer of magnitude below 2^53). *)
Definition number_to_string (n : Z) : string := pretty n.

(** [`${v}`] for a [string | undefined]. *)
Definition template_opt (v : option string) : string :=
  match v with
  | Some s => s
  | None => "undefined"
  end.

(** The double-quote character, as a one-character string. *)
Definition dquote : string := String (ascii_of_nat 34) EmptyString.

(** [parts.join(sep)] *)
Definition join (sep : string) (parts : list string) : string :=
  String.concat sep parts.

(** [s.split(sep)] for a one-character separator: one piece more than
    there are separators, empty pieces kept. *)
Fixpoint split (sep : ascii) (s : string) : list string :=
  match s with
  | EmptyString => [EmptyString]
  | String c rest =>
      if Ascii.eqb c sep then EmptyString :: split sep rest
      else match split sep rest with
           | piece :: pieces => String c piece :: pieces
           | [] => [String c EmptyString]
           end
  end.

(** The values placed in logging contexts. *)
Inductive Json : Type :=
| JUndefined
| JBool (b : bool)
| JNum (n : Z)
| JStr (s : string)
| JObj (fields : list (string * Json)).

Definition JOptStr (v : option string) : Json :=
  match v with
  | Some s => JStr s
  | None => JUndefined
  end.

End Js.
Export Js.

(** ** [src/config.ts] *)

Module Config.

(** [process.env] *)
Abbreviation Env := (gmap string string).

(** [AzureDevOpsConfig['auth']['type']] *)
Inductive AuthType : Type := pat | ntlm | basic | entra.

#[global] Instance AuthType_eq_dec : EqDecision AuthType.
Proof. solve_decision. Defined.

Definition AuthType_name (t : AuthType) : string :=
  match t with
  | pat => "pat"
  | ntlm => "ntlm"
  | basic => "basic"
  | entra => "entra"
  end.

Record AuthConfig := mkAuth {
  auth_type : AuthType;
  username : option string;
  password : option string;
  domain : option string
}.

(** [AzureDevOpsConfig]; [H] is the type of the externally supplied
    Entra credential handler. *)
Record AzureDevOpsConfig (H : Type) := mkConfig {
  orgUrl : string;
  project : string;
  personalAccessToken : string;
  isOnPremises : bool;
  collection : option string;
  apiVersion : option string;
  auth : option AuthConfig;
  entraAuthHandler : option H
}.
Arguments mkConfig {H}.
Arguments orgUrl {H}.
Arguments project {H}.
Arguments personalAccessToken {H}.
Arguments isOnPremises {H}.
Arguments collection {H}.
Arguments apiVersion {H}.
Arguments auth {H}.
Arguments entraAuthHandler {H}.

(** The first [if] of [getAzureDevOpsConfig]: the names pushed on
    [missingVars]. *)
Definition missingVars (env : Env) : list string :=
  (if truthy (env !! "AZURE_DEVOPS_ORG_URL") then [] else ["AZURE_DEVOPS_ORG_URL"])
  ++ (if truthy (env !! "AZURE_DEVOPS_PROJECT") then [] else ["AZURE_DEVOPS_PROJECT"]).

Definition set_or_not (v : option string) : string :=
  if truthy v then "SET" else "NOT SET".

Definition missing_message (missing : list string) : string :=
  "Missing required Azure DevOps configuration: " +:+ join ", " missing
  +:+ ". Please check .env file or environment variables.".

(** [authTypeInput] narrowed to the four literals, anything else is
    ['pat']. *)
Definition normalizeAuthType (authTypeInput : string) : AuthType :=
  if String.eqb authTypeInput "ntlm" then ntlm
  else if String.eqb authTypeInput "basic" then basic
  else if String.eqb authTypeInput "pat" then pat
  else if String.eqb authTypeInput "entra" then entra
  else pat.

Definition entra_onprem_message : string :=
  "Azure Identity (DefaultAzureCredential) authentication is not supported for on-premises Azure DevOps.".

Definition cloud_unsupported_message (t : AuthType) : string :=
  "Unsupported auth type " +:+ dquote +:+ AuthType_name t +:+ dquote
  +:+ " for Azure DevOps cloud. Must be 'pat' or 'entra'.".

(** The decision table of [getAzureDevOpsConfig] (from [let auth] to the
    last [throw]). *)
Definition resolveAuth (env : Env) (authType : AuthType)
    (isOnPremises : bool) (personalAccessToken : string) : result AuthConfig :=
  if bool_decide (authType = entra) then
    if isOnPremises then Throw (Error entra_onprem_message)
    else Ok (mkAuth entra None None None)
  else if isOnPremises then
    match authType with
    | ntlm =>
        if negb (truthy (env !! "AZURE_DEVOPS_USERNAME"))
           || negb (truthy (env !! "AZURE_DEVOPS_PASSWORD"))
        then Throw (Error "NTLM authentication requires username and password.")
        else Ok (mkAuth ntlm (env !! "AZURE_DEVOPS_USERNAME")
                   (env !! "AZURE_DEVOPS_PASSWORD")
                   (env !! "AZURE_DEVOPS_DOMAIN"))
    | basic =>
        if negb (truthy (env !! "AZURE_DEVOPS_USERNAME"))
           || negb (truthy (env !! "AZURE_DEVOPS_PASSWORD"))
        then Throw (Error "Basic authentication requires username and password.")
        else Ok (mkAuth basic (env !! "AZURE_DEVOPS_USERNAME")
                   (env !! "AZURE_DEVOPS_PASSWORD") None)
    | _ =>
        if negb (truthy (Some personalAccessToken))
        then Throw (Error "PAT authentication requires a personal access token.")
        else Ok (mkAuth pat None None None)
    end
  else
    if bool_decide (authType = pat) then
      if negb (truthy (Some personalAccessToken))
      then Throw (Error "PAT authentication requires a personal access token for Azure DevOps cloud unless AZURE_DEVOPS_AUTH_TYPE is set to entra.")
      else Ok (mkAuth pat None None None)
    else Throw (Error (cloud_unsupported_message authType)).

(** [getAzureDevOpsConfig]: the lines written with [console.error] and
    the configuration or the thrown error. *)
Definition getAzureDevOpsConfig {H : Type} (env : Env)
    : list string * result (AzureDevOpsConfig H) :=
  let orgUrl := env !! "AZURE_DEVOPS_ORG_URL" in
  let project := env !! "AZURE_DEVOPS_PROJECT" in
  let personalAccessToken :=
    or_default (env !! "AZURE_DEVOPS_PERSONAL_ACCESS_TOKEN") "" in
  let isOnPremises :=
    bool_decide (env !! "AZURE_DEVOPS_IS_ON_PREMISES" = Some "true") in
  let collection := env !! "AZURE_DEVOPS_COLLECTION" in
  let apiVersion := env !! "AZURE_DEVOPS_API_VERSION" in
  if negb (truthy orgUrl) || negb (truthy project) then
    let missing := missingVars env in
    ([ "Environment variables check:";
       "AZURE_DEVOPS_ORG_URL: " +:+ set_or_not orgUrl;
       "AZURE_DEVOPS_PROJECT: " +:+ set_or_not project;
       "Missing variables: " +:+ join ", " missing ],
     Throw (Error (missing_message missing)))
  else
    let authTypeInput := or_default (env !! "AZURE_DEVOPS_AUTH_TYPE") "pat" in
    let authType := normalizeAuthType authTypeInput in
    match resolveAuth env authType isOnPremises personalAccessToken with
    | Throw e => ([], Throw e)
    | Ok auth =>
        ([], Ok {| orgUrl := default "" orgUrl;
                   project := default "" project;
                   personalAccessToken := personalAccessToken;
                   isOnPremises := isOnPremises;
                   collection := collection;
                   apiVersion := apiVersion;
                   auth := Some auth;
                   entraAuthHandler := None |})
    end.

(** The eight tool-name tables imported from [./Tools/*], and
    [ALL_ALLOWED_TOOLS], their concatenation in the order of the source. *)
Record ToolGroups := mkToolGroups {
  AIAssistedDevelopmentToolMethods : list string;
  ArtifactManagementToolMethods : list string;
  BoardsSprintsToolMethods : list string;
  DevSecOpsToolMethods : list string;
  GitToolMethods : list string;
  ProjectToolMethods : list string;
  TestingCapabilitiesToolMethods : list string;
  WorkItemToolMethods : list string
}.

Definition ALL_ALLOWED_TOOLS (g : ToolGroups) : list string :=
  AIAssistedDevelopmentToolMethods g
  ++ ArtifactManagementToolMethods g
  ++ BoardsSprintsToolMethods g
  ++ DevSecOpsToolMethods g
  ++ GitToolMethods g
  ++ ProjectToolMethods g
  ++ TestingCapabilitiesToolMethods g
  ++ WorkItemToolMethods g.

(** [getAllowedTools] *)
Definition getAllowedTools (g : ToolGroups) (env : Env) : gset string :=
  let ALLOWED_TOOLS := env !! "ALLOWED_TOOLS" in
  if negb (truthy ALLOWED_TOOLS) then list_to_set (ALL_ALLOWED_TOOLS g)
  else list_to_set (split "," (default "" ALLOWED_TOOLS)).

End Config.
Export Config.

(** ** [src/utils/logger.ts] *)

Module Logger.

Inductive LogLevel : Type := ERROR | WARN | INFO | DEBUG.

(** [LogEntry] without its wall-clock [timestamp]. *)
Record LogEntry := mkLogEntry {
  level : LogLevel;
  component : string;
  message : string;
  context : option Json;
  error : option JsError
}.

(** [logger.error(component, message, error, context)] *)
Definition log_error (component message : string) (error : option JsError)
    (context : option Json) : LogEntry :=
  mkLogEntry ERROR component message context error.

(** [logger.info(component, message, context)] *)
Definition log_info (component message : string) (context : option Json)
    : LogEntry :=
  mkLogEntry INFO component message context None.

Definition is_slash (c : ascii) : bool := Ascii.eqb c "/"%char.

(** The longest prefix matched by [[^\/]*] is dropped. *)
Fixpoint skipNonSlash (s : string) : string :=
  match s with
  | EmptyString => EmptyString
  | String c rest => if is_slash c then s else skipNonSlash rest
  end.

(** [s.replace(/\/\/[^\/]+/, '//***')]: the leftmost place where two
    slashes are followed by a character that is not a slash; the match
    extends over every following character that is not a slash; only
    this first match is replaced. *)
Fixpoint maskHost (s : string) : string :=
  match s with
  | EmptyString => EmptyString
  | String c rest =>
      match rest with
      | String c1 (String c2 rest2) =>
          if is_slash c && is_slash c1 && negb (is_slash c2)
          then "//***" +:+ skipNonSlash rest2
          else String c (maskHost rest)
      | _ => String c (maskHost rest)
      end
  end.

(** The [sanitizedConfig] object literal of [logConnectionFailure]. *)
Definition sanitizedConfig {H : Type} (config : AzureDevOpsConfig H) : Json :=
  JObj [
    ("orgUrl", JStr (if truthy (Some (orgUrl config))
                     then maskHost (orgUrl config) else "not provided"));
    ("authType", JStr (match auth config with
                       | Some a => AuthType_name (auth_type a)
                       | None => "not specified"
                       end));
    ("isOnPremises", JBool (isOnPremises config));
    ("hasToken", JBool (truthy (Some (personalAccessToken config))));
    ("hasUsername", JBool (truthy (auth config ≫= username)));
    ("collection", JStr (or_default (collection config) "not specified"));
    ("apiVersion", JStr (or_default (apiVersion config) "not specified"));
    ("project", JStr (or_default (Some (project config)) "not specified"))
  ].

(** The context object that [logConnectionFailure] hands to [this.error]. *)
Definition connectionFailureContext {H : Type} (error : JsError)
    (config : AzureDevOpsConfig H) : Json :=
  JObj [
    ("config", sanitizedConfig config);
    ("errorCode", JOptStr (err_code error));
    ("errorType", JStr (err_name error))
  ].

(** [logConnectionFailure] *)
Definition logConnectionFailure {H : Type} (component : string)
    (error : JsError) (config : AzureDevOpsConfig H) : LogEntry :=
  log_error component "Connection failed" (Some error)
    (Some (connectionFailureContext error config)).

End Logger.
Export Logger.

(** ** [AzureDevOpsService]: the connection factory *)

Module Service.

(** The credential handlers of [azure-devops-node-api/WebApi]; [H] is the
    externally supplied Entra handler, reused as it is. *)
Inductive RequestHandler (H : Type) : Type :=
| PersonalAccessTokenHandler (token : string)
| NtlmHandler (user pass : string) (workstationDomain : option string)
| BasicHandler (user pass : string)
| EntraHandler (handler : H).
Arguments PersonalAccessTokenHandler {H} token.
Arguments NtlmHandler {H} user pass workstationDomain.
Arguments BasicHandler {H} user pass.
Arguments EntraHandler {H} handler.

(** [IRequestOptions], of which the constructor sets [headers] only. *)
Record RequestOptions := mkRequestOptions {
  headers : option (list (string * string))
}.

Section Constructor.
Context {H W : Type}.

(** [new azdev.WebApi(baseUrl, authHandler, requestOptions)], which may
    throw. *)
Variable newWebApi :
  string -> RequestHandler H -> RequestOptions -> result W.

Record AzureDevOpsService := mkService {
  connection : W;
  config : AzureDevOpsConfig H;
  authHandler : RequestHandler H
}.

Definition svc : string := "AzureDevOpsService".

Definition entra_handler_message : string :=
  "Entra authentication requires an instance of EntraAuthHandler.".

Definition service_cloud_unsupported_message (t : option AuthType) : string :=
  "Unsupported authentication type " +:+ dquote
  +:+ template_opt (AuthType_name <$> t) +:+ dquote
  +:+ " for Azure DevOps cloud.".

(** The first part of the constructor: the authentication handler, or
    the error thrown, with the entries logged on the way. *)
Definition selectAuthHandler (config : AzureDevOpsConfig H)
    : list LogEntry * result (RequestHandler H) :=
  if bool_decide (auth_type <$> auth config = Some entra) then
    if isOnPremises config then
      let error := Error entra_onprem_message in
      ([log_error svc "Invalid authentication configuration" (Some error) None],
       Throw error)
    else
      match entraAuthHandler config with
      | None =>
          let error := Error entra_handler_message in
          ([log_error svc "Missing Entra auth handler" (Some error) None],
           Throw error)
      | Some handler =>
          ([log_info svc "Using Entra authentication" None],
           Ok (EntraHandler handler))
      end
  else
    match (if isOnPremises config then auth config else None) with
    | Some a =>
        match auth_type a with
        | ntlm =>
            if negb (truthy (username a)) || negb (truthy (password a)) then
              let error := Error "NTLM authentication requires username and password" in
              ([log_error svc "Missing NTLM credentials" (Some error) None],
               Throw error)
            else
              ([log_info svc "Using NTLM authentication"
                  (Some (JObj [("username", JOptStr (username a));
                               ("domain", JStr (or_default (domain a) "default"))]))],
               Ok (NtlmHandler (default EmptyString (username a))
                     (default EmptyString (password a)) (domain a)))
        | basic =>
            if negb (truthy (username a)) || negb (truthy (password a)) then
              let error := Error "Basic authentication requires username and password" in
              ([log_error svc "Missing Basic auth credentials" (Some error) None],
               Throw error)
            else
              ([log_info svc "Using Basic authentication"
                  (Some (JObj [("username", JOptStr (username a))]))],
               Ok (BasicHandler (default EmptyString (username a))
                     (default EmptyString (password a))))
        | _ =>
            if negb (truthy (Some (personalAccessToken config))) then
              let error := Error "PAT authentication requires a personal access token for on-premises if specified or as fallback." in
              ([log_error svc "Missing PAT token" (Some error) None],
               Throw error)
            else
              ([log_info svc "Using PAT authentication" None],
               Ok (PersonalAccessTokenHandler (personalAccessToken config)))
        end
    | None =>
        if bool_decide (auth_type <$> auth config = Some pat)
           || bool_decide (auth config = None) then
          if negb (truthy (Some (personalAccessToken config))) then
            let error := Error "Personal Access Token is required for cloud authentication when auth type is PAT or not specified." in
            ([log_error svc "Missing PAT token for cloud" (Some error) None],
             Throw error)
          else
            ([log_info svc "Using PAT authentication for cloud" None],
             Ok (PersonalAccessTokenHandler (personalAccessToken config)))
        else
          let error :=
            Error (service_cloud_unsupported_message (auth_type <$> auth config)) in
          ([log_error svc "Unsupported auth type" (Some error)
              (Some (JObj [("authType",
                            JOptStr (AuthType_name <$> (auth_type <$> auth config)))]))],
           Throw error)
    end.

(** [baseUrl] as the constructor computes it. *)
Definition computeBaseUrl (config : AzureDevOpsConfig H) : string :=
  if isOnPremises config && truthy (collection config)
  then orgUrl config +:+ "/" +:+ default EmptyString (collection config)
  else orgUrl config.

(** [requestOptions] as the constructor builds it. *)
Definition buildRequestOptions (config : AzureDevOpsConfig H) : RequestOptions :=
  if isOnPremises config && truthy (apiVersion config)
  then mkRequestOptions
         (Some [("Accept", "application/json;api-version="
                           +:+ default EmptyString (apiVersion config))])
  else mkRequestOptions None.

(** [new AzureDevOpsService(config)]: the log entries written, and the
    service or the error thrown. *)
Definition constructor (config : AzureDevOpsConfig H)
    : list LogEntry * result AzureDevOpsService :=
  let init :=
    log_info svc "Initializing service"
      (Some (JObj [("authType", JOptStr (AuthType_name <$> (auth_type <$> auth config)));
                   ("isOnPremises", JBool (isOnPremises config));
                   ("orgUrl", JStr (maskHost (orgUrl config)))])) in
  match selectAuthHandler config with
  | (logs, Throw e) => (init :: logs, Throw e)
  | (logs, Ok handler) =>
      let baseUrl := computeBaseUrl config in
      let connecting :=
        log_info svc "Connecting to Azure DevOps"
          (Some (JObj [("baseUrl", JStr (maskHost baseUrl));
                       ("isOnPremises", JBool (isOnPremises config));
                       ("collection", JOptStr (collection config))])) in
      let requestOptions := buildRequestOptions config in
      match newWebApi baseUrl handler requestOptions with
      | Ok conn =>
          (init :: logs ++ [connecting;
             log_info svc "Successfully created Azure DevOps connection" None],
           Ok (mkService conn config handler))
      | Throw e =>
          (init :: logs ++ [connecting; logConnectionFailure svc e config],
           Throw e)
      end
  end.

End Constructor.

End Service.
Export Service.

(** ** [validatePullRequestRepository] and [GitService] *)

Module Git.

(** [GitRepository]: the identifier the validation reads, and the other
    properties. *)
Record GitRepository := mkRepository {
  id : option string;
  repository_others : gmap string Json
}.

(** [GitPullRequest]: the properties the code reads, and the others.
    [St] is the type of the two status properties: numbers in the SDK's
    answer, text in what [getPullRequest] returns. *)
Record GitPullRequest (St : Type) := mkPullRequest {
  status : option St;
  mergeStatus : option St;
  repository : option GitRepository;
  others : gmap string Json
}.
Arguments mkPullRequest {St}.
Arguments status {St}.
Arguments mergeStatus {St}.
Arguments repository {St}.
Arguments others {St}.

(** Arguments of the mutating SDK calls. *)
Record CompletionOptions := mkCompletionOptions {
  mergeStrategy : Z;
  deleteSourceBranch : option bool
}.

Record PullRequestUpdate := mkUpdate {
  update_status : Z;
  completionOptions : CompletionOptions
}.

Record Comment := mkComment {
  content : string;
  parentCommentId : Z;
  commentType : Z
}.

Record Thread := mkThread {
  comments : list Comment;
  thread_status : Z;
  threadContext : option Json
}.

(** One entry per SDK call made, with the arguments passed. *)
Inductive SdkCall : Type :=
| GetGitApi
| GetPullRequest (repositoryId : string) (pullRequestId : Z) (project : string)
| GetPullRequestById (pullRequestId : Z)
| CreatePullRequestReviewer (vote : Z) (repositoryId : string)
    (pullRequestId : Z) (reviewerId : string) (project : string)
| UpdatePullRequest (update : PullRequestUpdate) (repositoryId : string)
    (pullRequestId : Z) (project : option string)
| CreateComment (comment : Comment) (repositoryId : string)
    (pullRequestId threadId : Z) (project : string)
| CreateThread (thread : Thread) (repositoryId : string)
    (pullRequestId : Z) (project : string).

(** The calls that change the pull request on the server. *)
Definition is_mutating (c : SdkCall) : bool :=
  match c with
  | CreatePullRequestReviewer _ _ _ _ _
  | UpdatePullRequest _ _ _ _
  | CreateComment _ _ _ _ _
  | CreateThread _ _ _ _ => true
  | _ => false
  end.

Section Remote.
(** The state of the Azure DevOps server behind the SDK. *)
Context {Remote : Type}.

(** An awaited SDK call: it resolves or rejects, and may change the
    server. *)
Definition Sdk (A : Type) : Type := Remote -> result A * Remote.

(** The [GitApi] client. *)
Record GitApi := mkGitApi {
  sdk_getPullRequest :
    string -> Z -> string -> Sdk (option (GitPullRequest Z));
  sdk_getPullRequestById : Z -> Sdk (option (GitPullRequest Z));
  sdk_createPullRequestReviewer :
    Z -> string -> Z -> string -> string -> Sdk Json;
  sdk_updatePullRequest :
    PullRequestUpdate -> string -> Z -> option string -> Sdk Json;
  sdk_createComment : Comment -> string -> Z -> Z -> string -> Sdk Json;
  sdk_createThread : Thread -> string -> Z -> string -> Sdk Json
}.

(** What a service method runs in: the server, the SDK calls made so
    far (oldest first) and what was written with [console.error]. *)
Record World := mkWorld {
  remote : Remote;
  calls : list SdkCall;
  console : list (string * JsError)
}.

(** The world after one more recorded SDK call. *)
Definition after_call (w : World) (c : SdkCall) (remote' : Remote) : World :=
  mkWorld remote' (calls w ++ [c]) (console w).

(** An [async] computation. *)
Definition Async (A : Type) : Type := World -> result A * World.

Definition ret {A} (a : A) : Async A := fun w => (Ok a, w).

Definition throw {A} (e : JsError) : Async A := fun w => (Throw e, w).

Definition bind {A B} (m : Async A) (k : A -> Async B) : Async B :=
  fun w =>
    match m w with
    | (Ok a, w') => k a w'
    | (Throw e, w') => (Throw e, w')
    end.

(** [try { m } catch (error) { handler(error) }] *)
Definition try_catch {A} (m : Async A) (handler : JsError -> Async A)
    : Async A :=
  fun w =>
    match m w with
    | (Ok a, w') => (Ok a, w')
    | (Throw e, w') => handler e w'
    end.

(** [await] of one SDK call, recorded in [calls]. *)
Definition await {A} (c : SdkCall) (f : Sdk A) : Async A :=
  fun w =>
    let (r, remote') := f (remote w) in
    (r, after_call w c remote').

(** [console.error(label, error)] *)
Definition console_error (label : string) (error : JsError) : Async unit :=
  fun w => (Ok tt, mkWorld (remote w) (calls w) (console w ++ [(label, error)])).

End Remote.
Arguments GitApi Remote : clear implicits.
Arguments World Remote : clear implicits.
Arguments Async Remote A : clear implicits.
Arguments Sdk Remote A : clear implicits.

Declare Scope async_scope.
Delimit Scope async_scope with async.
Notation "x <- m ;; k" := (bind m (fun x => k))
  (at level 100, m at next level, right associativity) : async_scope.
Notation "m ;;; k" := (bind m (fun _ => k))
  (at level 100, right associativity) : async_scope.

End Git.
Export Git.

Module GitService.

Local Open Scope async_scope.
Local Open Scope Z_scope.

(** Truthiness of a [number | undefined] holding an integer. *)
Definition truthy_num (v : option Z) : bool :=
  match v with
  | Some n => negb (n =? 0)
  | None => false
  end.

Definition not_found_message (pullRequestId : Z) (repositoryId : string) : string :=
  "Pull request " +:+ number_to_string pullRequestId
  +:+ " not found in repository " +:+ repositoryId.

Definition mismatch_message (pullRequestId : Z) (actual : option string)
    (repositoryId : string) : string :=
  "Pull request " +:+ number_to_string pullRequestId
  +:+ " belongs to repository " +:+ template_opt actual
  +:+ ", not " +:+ repositoryId.

(** [getPullRequestStatusText] *)
Definition getPullRequestStatusText (status : Z) : string :=
  match status with
  | 0 => "notSet"
  | 1 => "active"
  | 2 => "abandoned"
  | 3 => "completed"
  | _ => "unknown(" +:+ number_to_string status +:+ ")"
  end.

(** [getMergeStatusText] *)
Definition getMergeStatusText (mergeStatus : Z) : string :=
  match mergeStatus with
  | 1 => "conflicts"
  | 2 => "failure"
  | 3 => "notSet"
  | 4 => "queued"
  | 5 => "rejectedByPolicy"
  | 6 => "succeeded"
  | _ => "unknown(" +:+ number_to_string mergeStatus +:+ ")"
  end.

(** The conversion of [params.mergeStrategy] written out in both
    [mergePullRequest] and [completePullRequest]. *)
Definition mergeStrategyNumber (mergeStrategy : option string) : Z :=
  if bool_decide (mergeStrategy = Some "rebase") then 2
  else if bool_decide (mergeStrategy = Some "rebaseMerge") then 3
  else if bool_decide (mergeStrategy = Some "squash") then 4
  else 1.

Record GetPullRequestParams := mkGetParams {
  get_repositoryId : string;
  get_pullRequestId : Z
}.

Record ApprovePullRequestParams := mkApproveParams {
  approve_repositoryId : string;
  approve_pullRequestId : Z
}.

Record MergePullRequestParams := mkMergeParams {
  merge_repositoryId : string;
  merge_pullRequestId : Z;
  merge_mergeStrategy : option string
}.

Record AddPullRequestCommentParams := mkCommentParams {
  comment_repositoryId : string;
  comment_pullRequestId : Z;
  comment_content : string;
  comment_threadId : option Z;
  comment_parentCommentId : option Z;
  comment_filePath : option string;
  comment_lineNumber : option Z;
  comment_threadContext : option Json
}.

Record CompletePullRequestParams := mkCompleteParams {
  complete_repositoryId : string;
  complete_pullRequestId : Z;
  complete_mergeStrategy : option string;
  complete_deleteSourceBranch : option bool
}.

Section Methods.
Context {Remote : Type}.

(** [validatePullRequestRepository] *)
Definition validatePullRequestRepository (gitApi : GitApi Remote)
    (repositoryId : string) (pullRequestId : Z) (projectId : string)
    : Async Remote unit :=
  pullRequest <- await (GetPullRequest repositoryId pullRequestId projectId)
                   (sdk_getPullRequest gitApi repositoryId pullRequestId projectId) ;;
  match pullRequest with
  | None => throw (Error (not_found_message pullRequestId repositoryId))
  | Some pullRequest =>
      match repository pullRequest with
      | Some repo =>
          if bool_decide (id repo ≠ Some repositoryId)
          then throw (Error (mismatch_message pullRequestId (id repo) repositoryId))
          else ret tt
      | None => ret tt
      end
  end.

(** [this.connection.getGitApi()] and [this.config.project] *)
Variable connection_getGitApi : Sdk Remote (GitApi Remote).
Variable project : string.

Definition getGitApi : Async Remote (GitApi Remote) :=
  await GetGitApi connection_getGitApi.

(** [catch (error) { console.error(label, error); throw error; }] *)
Definition rethrow {A} (label : string) (error : JsError) : Async Remote A :=
  console_error label error ;;; throw error.

(** Reading a property of [null]. *)
Definition null_property_error (property : string) : JsError :=
  mkError "TypeError"
    ("Cannot read properties of null (reading '" +:+ property +:+ "')") None.

(** [GitService.getPullRequest] *)
Definition getPullRequest (params : GetPullRequestParams)
    : Async Remote (GitPullRequest string) :=
  try_catch
    (gitApi <- getGitApi ;;
     pullRequest <- await (GetPullRequest (get_repositoryId params)
                             (get_pullRequestId params) project)
                      (sdk_getPullRequest gitApi (get_repositoryId params)
                         (get_pullRequestId params) project) ;;
     match pullRequest with
     | None => throw (null_property_error "status")
     | Some pullRequest =>
         let statusNumber := default 0 (status pullRequest) in
         let statusText := getPullRequestStatusText statusNumber in
         let mergeStatusNumber := default 3 (mergeStatus pullRequest) in
         let mergeStatusText := getMergeStatusText mergeStatusNumber in
         ret {| status := Some statusText;
                mergeStatus := Some mergeStatusText;
                repository := repository pullRequest;
                others := others pullRequest |}
     end)
    (rethrow ("Error getting pull request "
              +:+ number_to_string (get_pullRequestId params) +:+ ":")).

(** [GitService.approvePullRequest] *)
Definition approvePullRequest (params : ApprovePullRequestParams)
    : Async Remote Json :=
  try_catch
    (gitApi <- getGitApi ;;
     validatePullRequestRepository gitApi (approve_repositoryId params)
       (approve_pullRequestId params) project ;;;
     let vote := 10 in
     await (CreatePullRequestReviewer vote (approve_repositoryId params)
              (approve_pullRequestId params) "me" project)
       (sdk_createPullRequestReviewer gitApi vote (approve_repositoryId params)
          (approve_pullRequestId params) "me" project))
    (rethrow ("Error approving pull request "
              +:+ number_to_string (approve_pullRequestId params) +:+ ":")).

(** [GitService.mergePullRequest] *)
Definition mergePullRequest (params : MergePullRequestParams)
    : Async Remote Json :=
  try_catch
    (gitApi <- getGitApi ;;
     validatePullRequestRepository gitApi (merge_repositoryId params)
       (merge_pullRequestId params) project ;;;
     let mergeStrategy := mergeStrategyNumber (merge_mergeStrategy params) in
     let update := mkUpdate 3 (mkCompletionOptions mergeStrategy None) in
     await (UpdatePullRequest update (merge_repositoryId params)
              (merge_pullRequestId params) (Some project))
       (sdk_updatePullRequest gitApi update (merge_repositoryId params)
          (merge_pullRequestId params) (Some project)))
    (rethrow ("Error merging pull request "
              +:+ number_to_string (merge_pullRequestId params) +:+ ":")).

(** The [threadContext] built from [filePath] and [lineNumber]. *)
Definition lineContext (filePath : option string) (lineNumber : option Z) : Json :=
  JObj [("filePath", JOptStr filePath);
        ("rightFileStart",
         JObj [("line", from_option JNum JUndefined lineNumber); ("offset", JNum 1)]);
        ("rightFileEnd",
         JObj [("line", from_option JNum JUndefined lineNumber); ("offset", JNum 999)])].

(** [GitService.addPullRequestComment] *)
Definition addPullRequestComment (params : AddPullRequestCommentParams)
    : Async Remote Json :=
  try_catch
    (gitApi <- getGitApi ;;
     validatePullRequestRepository gitApi (comment_repositoryId params)
       (comment_pullRequestId params) project ;;;
     if truthy_num (comment_threadId params) then
       let comment :=
         mkComment (comment_content params)
           (default 0 (comment_parentCommentId params)) 1 in
       let threadId := default 0 (comment_threadId params) in
       await (CreateComment comment (comment_repositoryId params)
                (comment_pullRequestId params) threadId project)
         (sdk_createComment gitApi comment (comment_repositoryId params)
            (comment_pullRequestId params) threadId project)
     else
       let context :=
         match comment_threadContext params with
         | Some c => Some c
         | None =>
             if truthy (comment_filePath params)
                && truthy_num (comment_lineNumber params)
             then Some (lineContext (comment_filePath params)
                          (comment_lineNumber params))
             else None
         end in
       let thread :=
         mkThread [mkComment (comment_content params) 0 1] 1 context in
       await (CreateThread thread (comment_repositoryId params)
                (comment_pullRequestId params) project)
         (sdk_createThread gitApi thread (comment_repositoryId params)
            (comment_pullRequestId params) project))
    (rethrow ("Error adding comment to pull request "
              +:+ number_to_string (comment_pullRequestId params) +:+ ":")).

(** [GitService.completePullRequest] *)
Definition completePullRequest (params : CompletePullRequestParams)
    : Async Remote Json :=
  try_catch
    (gitApi <- getGitApi ;;
     validatePullRequestRepository gitApi (complete_repositoryId params)
       (complete_pullRequestId params) project ;;;
     _ <- await (GetPullRequestById (complete_pullRequestId params))
            (sdk_getPullRequestById gitApi (complete_pullRequestId params)) ;;
     let mergeStrategy := mergeStrategyNumber (complete_mergeStrategy params) in
     let update :=
       mkUpdate 3 (mkCompletionOptions mergeStrategy
                     (complete_deleteSourceBranch params)) in
     await (UpdatePullRequest update (complete_repositoryId params)
              (complete_pullRequestId params) None)
       (sdk_updatePullRequest gitApi update (complete_repositoryId params)
          (complete_pullRequestId params) None))
    (rethrow ("Error completing pull request "
              +:+ number_to_string (complete_pullRequestId params) +:+ ":")).

(** The four mutating pull-request operations, with their parameters. *)
Inductive MutatingOperation : Type :=
| Approve (params : ApprovePullRequestParams)
| Merge (params : MergePullRequestParams)
| AddComment (params : AddPullRequestCommentParams)
| Complete (params : CompletePullRequestParams).

Definition run (op : MutatingOperation) : Async Remote Json :=
  match op with
  | Approve params => approvePullRequest params
  | Merge params => mergePullRequest params
  | AddComment params => addPullRequestComment params
  | Complete params => completePullRequest params
  end.

Definition op_repositoryId (op : MutatingOperation) : string :=
  match op with
  | Approve params => approve_repositoryId params
  | Merge params => merge_repositoryId params
  | AddComment params => comment_repositoryId params
  | Complete params => complete_repositoryId params
  end.

Definition op_pullRequestId (op : MutatingOperation) : Z :=
  match op with
  | Approve params => approve_pullRequestId params
  | Merge params => merge_pullRequestId params
  | AddComment params => comment_pullRequestId params
  | Complete params => complete_pullRequestId params
  end.

(** The world a method leaves when it fails right after the read of
    the validation: two SDK calls made, one console line written. *)
Definition rejected_world (w : World Remote) (label : string) (e : JsError)
    (repositoryId : string) (pullRequestId : Z) (remote' : Remote)
    : World Remote :=
  mkWorld remote'
    (calls w ++ [GetGitApi; GetPullRequest repositoryId pullRequestId project])
    (console w ++ [(label, e)]).

End Methods.

End GitService.
Export GitService.

(** ** The words of the specification *)

Module Specification.

(** The rows of the decision table marked never valid: entra with
    on-premises hosting, ntlm or basic with cloud hosting. *)
Definition never_valid (t : AuthType) (onPremises : bool) : bool :=
  match t, onPremises with
  | entra, true => true
  | ntlm, false => true
  | basic, false => true
  | _, _ => false
  end.

(** The unsupported-auth errors: the one [getAzureDevOpsConfig] throws on
    such a row, and the one the constructor throws. *)
Definition resolution_unsupported (t : AuthType) (onPremises : bool) : JsError :=
  if onPremises then Error entra_onprem_message
  else Error (cloud_unsupported_message t).

Definition construction_unsupported (t : AuthType) (onPremises : bool) : JsError :=
  if onPremises then Error entra_onprem_message
  else Error (service_cloud_unsupported_message (Some t)).

(** [s] contains the character [c]. *)
Fixpoint has_char (c : ascii) (s : string) : bool :=
  match s with
  | EmptyString => false
  | String c' rest => Ascii.eqb c' c || has_char c rest
  end.

(** A tool name: not empty, no comma in it. *)
Definition is_tool_name (s : string) : Prop :=
  s <> EmptyString /\ has_char "," s = false.

(** [o[k]] for an object literal. *)
Fixpoint assoc (k : string) (fields : list (string * Json)) : option Json :=
  match fields with
  | [] => None
  | (k', v) :: rest => if String.eqb k k' then Some v else assoc k rest
  end.

Definition property (k : string) (o : Json) : option Json :=
  match o with
  | JObj fields => assoc k fields
  | _ => None
  end.

(** The configuration [config] with another token and another password,
    everything else kept. *)
Definition with_secrets {H : Type} (config : AzureDevOpsConfig H)
    (token : string) (pass : option string) : AzureDevOpsConfig H :=
  {| orgUrl := orgUrl config;
     project := project config;
     personalAccessToken := token;
     isOnPremises := isOnPremises config;
     collection := collection config;
     apiVersion := apiVersion config;
     auth := (fun a => mkAuth (auth_type a) (username a) pass (domain a))
               <$> auth config;
     entraAuthHandler := entraAuthHandler config |}.

(** The property names of an object, in the order of the literal. *)
Definition keys (o : Json) : list string :=
  match o with
  | JObj fields => fst <$> fields
  | _ => []
  end.

(** Two configurations that differ at most in their credentials: the
    token, the user name, the password, the domain and the Entra handler. *)
Definition same_but_credentials {H : Type} (c1 c2 : AzureDevOpsConfig H) : Prop :=
  orgUrl c1 = orgUrl c2
  /\ project c1 = project c2
  /\ isOnPremises c1 = isOnPremises c2
  /\ collection c1 = collection c2
  /\ apiVersion c1 = apiVersion c2
  /\ (auth_type <$> auth c1) = (auth_type <$> auth c2).

(** The configuration [config] with another organization URL, everything
    else kept. *)
Definition with_orgUrl {H : Type} (config : AzureDevOpsConfig H)
    (url : string) : AzureDevOpsConfig H :=
  {| orgUrl := url;
     project := project config;
     personalAccessToken := personalAccessToken config;
     isOnPremises := isOnPremises config;
     collection := collection config;
     apiVersion := apiVersion config;
     auth := auth config;
     entraAuthHandler := entraAuthHandler config |}.

End Specification.
Export Specification.

(** ** Concrete inputs used to exercise the code *)

Module Fixtures.

(** A server that counts the mutations applied to it; every read answers
    [answer]. *)
Definition countingGitApi (answer : result (option (GitPullRequest Z)))
    : GitApi nat :=
  {| sdk_getPullRequest := fun _ _ _ n => (answer, n);
     sdk_getPullRequestById := fun _ n => (answer, n);
     sdk_createPullRequestReviewer := fun _ _ _ _ _ n => (Ok (JStr "voted"), S n);
     sdk_updatePullRequest := fun _ _ _ _ n => (Ok (JStr "updated"), S n);
     sdk_createComment := fun _ _ _ _ _ n => (Ok (JStr "commented"), S n);
     sdk_createThread := fun _ _ _ _ n => (Ok (JStr "threaded"), S n) |}.

Definition countingConnection (answer : result (option (GitPullRequest Z)))
    : Sdk nat (GitApi nat) :=
  fun n => (Ok (countingGitApi answer), n).

Definition freshWorld : World nat := mkWorld 0%nat [] [].

Definition prOfRepository (repo : option GitRepository) : GitPullRequest Z :=
  mkPullRequest (Some 1%Z) (Some 6%Z) repo (<["title" := JStr "Fix build"]> ∅).

Definition prWithoutRepository : GitPullRequest Z := prOfRepository None.

Definition prOfRepoB : GitPullRequest Z :=
  prOfRepository (Some (mkRepository (Some "repo-B") ∅)).

Definition prOfRepoA : GitPullRequest Z :=
  prOfRepository (Some (mkRepository (Some "repo-A") ∅)).

Definition prWithoutStatus : GitPullRequest Z :=
  mkPullRequest None None (Some (mkRepository (Some "repo-A") ∅))
    (<["title" := JStr "Fix build"]> ∅).

(** Environments and configurations. *)
Definition envEntraOnPremises (extra : Env) : Env :=
  <["AZURE_DEVOPS_AUTH_TYPE" := "entra"]>
    (<["AZURE_DEVOPS_IS_ON_PREMISES" := "true"]> extra).

Definition envContoso : Env :=
  <["AZURE_DEVOPS_ORG_URL" := "https://dev.azure.com/contoso"]>
    (<["AZURE_DEVOPS_PROJECT" := "Contoso"]> ∅).

Definition envContosoPat : Env :=
  <["AZURE_DEVOPS_PERSONAL_ACCESS_TOKEN" := "s3cr3t"]> envContoso.

Definition onPremisesConfig (collection : option string) : AzureDevOpsConfig unit :=
  {| orgUrl := "https://ado.example.com";
     project := "Contoso";
     personalAccessToken := "s3cr3t";
     isOnPremises := true;
     collection := collection;
     apiVersion := None;
     auth := Some (mkAuth pat None None None);
     entraAuthHandler := None |}.

(** A [WebApi] that records what it was constructed with. *)
Definition recordingWebApi (baseUrl : string) (handler : RequestHandler unit)
    (options : RequestOptions)
    : result (string * RequestHandler unit * RequestOptions) :=
  Ok (baseUrl, handler, options).

Definition sampleTools : ToolGroups :=
  {| AIAssistedDevelopmentToolMethods := [];
     ArtifactManagementToolMethods := [];
     BoardsSprintsToolMethods := [];
     DevSecOpsToolMethods := [];
     GitToolMethods := ["listRepositories"; "getPullRequest"; "mergePullRequest"];
     ProjectToolMethods := [];
     TestingCapabilitiesToolMethods := [];
     WorkItemToolMethods := ["listWorkItems"] |}.

End Fixtures.

(** ** More of JavaScript: array slices and string tests *)

Module JsArray.

Local Open Scope Z_scope.

(** What [slice] makes of an integer argument: counted from the end when
    negative, and kept within the array. *)
Definition relativeIndex (len i : Z) : Z :=
  if i <? 0 then Z.max (len + i) 0 else Z.min i len.

(** [l.slice(start, end)] on integer arguments; [end] may be left out. *)
Definition slice {A} (l : list A) (start : Z) (end_ : option Z) : list A :=
  let len := Z.of_nat (length l) in
  let k := relativeIndex len start in
  let final := relativeIndex len (default len end_) in
  take (Z.to_nat (final - k)) (drop (Z.to_nat k) l).

(** [s.includes(t)] *)
Fixpoint includes (s t : string) : bool :=
  String.prefix t s
  || match s with
     | EmptyString => false
     | String _ rest => includes rest t
     end.

(** [s.endsWith(t)] *)
Fixpoint endsWith (s t : string) : bool :=
  String.eqb s t
  || match s with
     | EmptyString => false
     | String _ rest => endsWith rest t
     end.

End JsArray.
Export JsArray.

(** ** [GitService]: the listing and search methods *)

Module GitQueries.

Local Open Scope async_scope.
Local Open Scope Z_scope.

(** [GitItem] and [GitCommitRef]: the property the filters read, and the
    others. *)
Record GitItem := mkItem {
  item_path : option string;
  item_others : gmap string Json
}.

Record GitCommitRef := mkCommit {
  commit_comment : option string;
  commit_others : gmap string Json
}.

(** The [searchCriteria] object of [getPullRequests]. *)
Record SearchCriteria := mkCriteria {
  criteria_repositoryId : string;
  criteria_creatorId : option string;
  criteria_reviewerId : option string;
  criteria_sourceRefName : option string;
  criteria_targetRefName : option string;
  criteria_status : option Z
}.

Record ListBranchesParams := mkBranchesParams {
  branches_repositoryId : string;
  branches_filter : option string;
  branches_top : option Z
}.

Record SearchCodeParams := mkSearchParams {
  search_repositoryId : option string;
  search_searchText : option string;
  search_fileExtension : option string;
  search_top : option Z
}.

Record GetCommitHistoryParams := mkHistoryParams {
  history_repositoryId : string;
  history_itemPath : option string;
  history_skip : option Z;
  history_top : option Z
}.

Record GetCommitsParams := mkCommitsParams {
  commits_repositoryId : string;
  commits_path : option string
}.

Record GetPullRequestsParams := mkPullRequestsParams {
  prs_repositoryId : string;
  prs_status : option string;
  prs_creatorId : option string;
  prs_reviewerId : option string;
  prs_sourceRefName : option string;
  prs_targetRefName : option string
}.

(** The limit written out in [listBranches] and in [searchCode]:
    [if (top && l.length > top) l = l.slice(0, top)]. *)
Definition limitTop {A} (top : option Z) (l : list A) : list A :=
  if truthy_num top && (Z.of_nat (length l) >? default 0 top)
  then slice l 0 top
  else l.

(** The commit filter written out in [getCommitHistory] and in
    [getCommits]: the commits whose comment includes the path. *)
Definition commitsMentioning (path : option string) (commits : list GitCommitRef)
    : list GitCommitRef :=
  if truthy path then
    List.filter (fun commit =>
                   truthy (commit_comment commit)
                   && includes (default EmptyString (commit_comment commit))
                        (or_default path EmptyString))
      commits
  else commits.

(** The pagination of [getCommitHistory]. *)
Definition paginate {A} (skip top : option Z) (l : list A) : list A :=
  let skipped :=
    if truthy_num skip && (default 0 skip >? 0) then slice l (default 0 skip) None
    else l in
  if truthy_num top && (default 0 top >? 0) then slice skipped 0 top
  else skipped.

(** The status of the search criteria of [getPullRequests]: set for the
    four names, left out for anything else. *)
Definition statusCriterion (status : option string) : option Z :=
  if truthy status then
    if bool_decide (status = Some "active") then Some 1
    else if bool_decide (status = Some "abandoned") then Some 2
    else if bool_decide (status = Some "completed") then Some 3
    else if bool_decide (status = Some "notSet") then Some 0
    else None
  else None.

Section Methods.
Context {Remote Branch : Type}.

(** [await] of a listing endpoint; [calls] keeps the pull-request
    endpoints only. *)
Definition query {A} (f : Sdk Remote A) : Async Remote A :=
  fun w =>
    let (r, remote') := f (remote w) in
    (r, mkWorld remote' (calls w) (console w)).

(** [this.connection.getGitApi()], and the endpoints of the client that
    these methods call, with the arguments that are not constant
    [undefined]. *)
Variable connection_getGitApi : Sdk Remote (GitApi Remote).
Variable sdk_getBranches :
  GitApi Remote -> string -> option string -> Sdk Remote (list Branch).
Variable sdk_getItems :
  GitApi Remote -> string -> option string -> bool -> Sdk Remote (list GitItem).
Variable sdk_getCommits :
  GitApi Remote -> string -> Sdk Remote (list GitCommitRef).
Variable sdk_getPullRequests :
  GitApi Remote -> string -> SearchCriteria -> Sdk Remote (list (GitPullRequest Z)).

(** [String.prototype.toLowerCase] *)
Variable toLowerCase : string -> string.

(** [GitService.listBranches] *)
Definition listBranches (params : ListBranchesParams) : Async Remote (list Branch) :=
  try_catch
    (gitApi <- getGitApi connection_getGitApi ;;
     branches <- query (sdk_getBranches gitApi (branches_repositoryId params)
                          (branches_filter params)) ;;
     ret (limitTop (branches_top params) branches))
    (rethrow ("Error listing branches for repository "
              +:+ branches_repositoryId params +:+ ":")).

(** The two filters of [searchCode]. *)
Definition searchFilter (params : SearchCodeParams) (items : list GitItem)
    : list GitItem :=
  let byText :=
    if truthy (search_searchText params) then
      List.filter (fun item =>
                     truthy (item_path item)
                     && includes (toLowerCase (default EmptyString (item_path item)))
                          (toLowerCase (default EmptyString (search_searchText params))))
        items
    else items in
  if truthy (search_fileExtension params) then
    List.filter (fun item =>
                   truthy (item_path item)
                   && endsWith (default EmptyString (item_path item))
                        (or_default (search_fileExtension params) EmptyString))
      byText
  else byText.

(** [GitService.searchCode] *)
Definition searchCode (params : SearchCodeParams) : Async Remote (list GitItem) :=
  try_catch
    (gitApi <- getGitApi connection_getGitApi ;;
     items <- query (sdk_getItems gitApi
                       (or_default (search_repositoryId params) EmptyString)
                       None true) ;;
     ret (limitTop (search_top params) (searchFilter params items)))
    (rethrow ("Error searching code in repository "
              +:+ template_opt (search_repositoryId params) +:+ ":")).

(** [GitService.getCommitHistory] *)
Definition getCommitHistory (params : GetCommitHistoryParams)
    : Async Remote (list GitCommitRef) :=
  try_catch
    (gitApi <- getGitApi connection_getGitApi ;;
     commits <- query (sdk_getCommits gitApi (history_repositoryId params)) ;;
     ret (paginate (history_skip params) (history_top params)
            (commitsMentioning (history_itemPath params) commits)))
    (rethrow ("Error getting commit history for repository "
              +:+ history_repositoryId params +:+ ":")).

(** [GitService.getCommits] *)
Definition getCommits (params : GetCommitsParams)
    : Async Remote (list GitCommitRef) :=
  try_catch
    (gitApi <- getGitApi connection_getGitApi ;;
     commits <- query (sdk_getCommits gitApi (commits_repositoryId params)) ;;
     ret (commitsMentioning (commits_path params) commits))
    (rethrow ("Error getting commits for repository "
              +:+ commits_repositoryId params +:+ ":")).

(** [GitService.getPullRequests] *)
Definition getPullRequests (params : GetPullRequestsParams)
    : Async Remote (list (GitPullRequest Z)) :=
  try_catch
    (gitApi <- getGitApi connection_getGitApi ;;
     let searchCriteria :=
       mkCriteria (prs_repositoryId params) (prs_creatorId params)
         (prs_reviewerId params) (prs_sourceRefName params)
         (prs_targetRefName params) (statusCriterion (prs_status params)) in
     query (sdk_getPullRequests gitApi (prs_repositoryId params) searchCriteria))
    (rethrow ("Error getting pull requests for repository "
              +:+ prs_repositoryId params +:+ ":")).

End Methods.

End GitQueries.
Export GitQueries.

(** ** Concrete inputs for the listing methods *)

Module Samples.

Definition theApi : GitApi nat := Fixtures.countingGitApi (Ok None).

Definition theConnection : Sdk nat (GitApi nat) := fun n => (Ok theApi, n).

Definition branchesEndpoint (branches : list string)
    : GitApi nat -> string -> option string -> Sdk nat (list string) :=
  fun _ _ _ n => (Ok branches, n).

Definition itemsEndpoint (items : list GitItem)
    : GitApi nat -> string -> option string -> bool -> Sdk nat (list GitItem) :=
  fun _ _ _ _ n => (Ok items, n).

Definition commitsEndpoint (commits : list GitCommitRef)
    : GitApi nat -> string -> Sdk nat (list GitCommitRef) :=
  fun _ _ n => (Ok commits, n).

Definition commitOf (text : string) : GitCommitRef := mkCommit (Some text) ∅.

Definition itemAt (path : string) : GitItem := mkItem (Some path) ∅.

Definition fiveCommits : list GitCommitRef :=
  [commitOf "a: src/app.ts"; commitOf "b: docs"; commitOf "c: src/app.ts";
   commitOf "d: src/app.ts"; commitOf "e: src/app.ts"].

Definition threeItems : list GitItem :=
  [itemAt "/src/App.ts"; mkItem None ∅; itemAt "/README.md"].

(** Lower case on the letters A to Z. *)
Definition lowerAscii (c : ascii) : ascii :=
  let n := nat_of_ascii c in
  if (65 <=? n)%nat && (n <=? 90)%nat then ascii_of_nat (n + 32) else c.

Fixpoint lower (s : string) : string :=
  match s with
  | EmptyString => EmptyString
  | String c rest => String (lowerAscii c) (lower rest)
  end.

End Samples.

(** ** [AzureDevOpsService.listWorkItems] *)

Module WorkItems.

Local Open Scope Z_scope.

(** [WorkItemQueryResult], of which the method reads [workItems], and the
    [RawWorkItemResponse] it returns; [Ref] is the type of a work-item
    reference. *)
Record WorkItemQueryResult (Ref : Type) := mkQueryResult {
  workItems : option (list Ref)
}.
Arguments mkQueryResult {Ref}.
Arguments workItems {Ref}.

Record RawWorkItemResponse (Ref : Type) := mkResponse {
  response_workItems : list Ref;
  count : Z
}.
Arguments mkResponse {Ref}.
Arguments response_workItems {Ref}.
Arguments count {Ref}.

Section Methods.
Context {Remote WitApi Ref : Type}.

(** [this.connection.getWorkItemTrackingApi()] and
    [witApi.queryByWiql({ query }, { project })] *)
Variable connection_getWorkItemTrackingApi : Remote -> result WitApi * Remote.
Variable sdk_queryByWiql :
  WitApi -> string -> string -> Remote -> result (option (WorkItemQueryResult Ref)) * Remote.

(** The [catch] of [listWorkItems]: one entry for the logger, and the
    error thrown again. *)
Definition listWorkItems_failed (project wiqlQuery : string) (e : JsError)
    (remote' : Remote)
    : list LogEntry * result (RawWorkItemResponse Ref) * Remote :=
  ([log_error "AzureDevOpsService" "Error listing work items" (Some e)
      (Some (JObj [("wiqlQuery", JStr wiqlQuery); ("project", JStr project)]))],
   Throw e, remote').

(** [listWorkItems]: the entries logged, the response or the error, and
    the server afterwards. *)
Definition listWorkItems (project wiqlQuery : string) (remote0 : Remote)
    : list LogEntry * result (RawWorkItemResponse Ref) * Remote :=
  match connection_getWorkItemTrackingApi remote0 with
  | (Throw e, remote1) => listWorkItems_failed project wiqlQuery e remote1
  | (Ok witApi, remote1) =>
      match sdk_queryByWiql witApi wiqlQuery project remote1 with
      | (Throw e, remote2) => listWorkItems_failed project wiqlQuery e remote2
      | (Ok None, remote2) =>
          listWorkItems_failed project wiqlQuery
            (mkError "TypeError"
               "Cannot read properties of null (reading 'workItems')" None)
            remote2
      | (Ok (Some queryResult), remote2) =>
          ([],
           Ok {| response_workItems := default [] (workItems queryResult);
                 count := from_option (fun items => Z.of_nat (length items)) 0
                            (workItems queryResult) |},
           remote2)
      end
  end.

End Methods.

End WorkItems.
Export WorkItems.

(** ** [Logger]: formatting and writing an entry *)

Module LoggerCore.

Local Open Scope Z_scope.

Definition LogLevel_name (l : LogLevel) : string :=
  match l with
  | ERROR => "ERROR"
  | WARN => "WARN"
  | INFO => "INFO"
  | DEBUG => "DEBUG"
  end.

(** The line feed, as a one-character string. *)
Definition newline : string := String (ascii_of_nat 10) EmptyString.

(** Truthiness of a context value. *)
Definition json_truthy (j : Json) : bool :=
  match j with
  | JUndefined => false
  | JBool b => b
  | JNum n => negb (n =? 0)
  | JStr s => negb (String.eqb s EmptyString)
  | JObj _ => true
  end.

(** The fields of a [Logger] that [log] reads. *)
Record LoggerState := mkLogger {
  currentLogFile : string;
  isMcpMode : bool
}.

(** [this.isMcpMode = process.env.MCP_MODE === 'true'] *)
Definition mcpModeOf (env : Env) : bool :=
  bool_decide (env !! "MCP_MODE" = Some "true").

(** What one call of [log] does: the data appended to files, and the
    lines written to the console with the method used ([console.error]
    for [ERROR], and so on) and the error printed after the line. *)
Record LogOutput := mkLogOutput {
  appended : list (string * string);
  printed : list (LogLevel * string * option JsError)
}.

Section Log.

(** [JSON.stringify(context, null, 2)], [error.stack] and
    [fs.appendFileSync(path, data, 'utf8')], which may throw. *)
Variable stringify : Json -> string.
Variable stack : JsError -> option string.
Variable appendFileSync : string -> string -> option JsError.

(** [formatLogEntry], for the entry stamped [timestamp]. *)
Definition formatLogEntry (timestamp : string) (entry : LogEntry) : string :=
  let baseLog :=
    timestamp +:+ " [" +:+ LogLevel_name (level entry) +:+ "] ["
    +:+ component entry +:+ "] " +:+ message entry in
  let additionalInfo := EmptyString in
  let additionalInfo :=
    match context entry with
    | Some c =>
        if json_truthy c
        then additionalInfo +:+ newline +:+ "Context: " +:+ stringify c
        else additionalInfo
    | None => additionalInfo
    end in
  let additionalInfo :=
    match error entry with
    | Some e =>
        let withMessage := additionalInfo +:+ newline +:+ "Error: " +:+ err_message e in
        if truthy (stack e)
        then withMessage +:+ newline +:+ "Stack: " +:+ default EmptyString (stack e)
        else withMessage
    | None => additionalInfo
    end in
  baseLog +:+ additionalInfo.

(** [writeToFile] *)
Definition writeToFile (logger : LoggerState) (logEntry : string) : LogOutput :=
  match appendFileSync (currentLogFile logger) (logEntry +:+ newline +:+ newline) with
  | None =>
      mkLogOutput [(currentLogFile logger, logEntry +:+ newline +:+ newline)] []
  | Some e =>
      if negb (isMcpMode logger)
      then mkLogOutput [] [(ERROR, "Failed to write to log file:", Some e)]
      else mkLogOutput [] []
  end.

(** [log], for the entry stamped [timestamp]. *)
Definition log (logger : LoggerState) (timestamp : string) (entry : LogEntry)
    : LogOutput :=
  let formattedEntry := formatLogEntry timestamp entry in
  let written := writeToFile logger formattedEntry in
  if negb (isMcpMode logger)
  then mkLogOutput (appended written)
         (printed written ++ [(level entry, formattedEntry, None)])
  else written.

End Log.

End LoggerCore.
Export LoggerCore.

(** ** Concrete inputs for the work items and the logger *)

Module MoreSamples.

Definition witEndpoint (answer : result (option (WorkItemQueryResult nat)))
    : unit -> string -> string -> nat -> result (option (WorkItemQueryResult nat)) * nat :=
  fun _ _ _ n => (answer, n).

Definition witConnection : nat -> result unit * nat := fun n => (Ok tt, n).


Definition diskFine : string -> string -> option JsError := fun _ _ => None.

Definition showJson (j : Json) : string := "{...}".

Definition noStack (e : JsError) : option string := None.


Definition plainLogger : LoggerState := mkLogger "logs/mcp-azure-devops-2026-01-01.log" false.

Definition ntlmConfig : AzureDevOpsConfig unit :=
  {| orgUrl := "https://ado.example.com";
     project := "Contoso";
     personalAccessToken := "s3cr3t";
     isOnPremises := true;
     collection := None;
     apiVersion := Some "6.0";
     auth := Some (mkAuth ntlm (Some "alice") (Some "hunter2") (Some "CORP"));
     entraAuthHandler := None |}.

(** [ntlmConfig] with the credentials of somebody else. *)
Definition ntlmConfigOfBob : AzureDevOpsConfig unit :=
  {| orgUrl := "https://ado.example.com";
     project := "Contoso";
     personalAccessToken := "another-token";
     isOnPremises := true;
     collection := None;
     apiVersion := Some "6.0";
     auth := Some (mkAuth ntlm (Some "bob") (Some "correct horse") None);
     entraAuthHandler := None |}.

(** An organization URL written without its scheme. *)
Definition schemelessConfig : AzureDevOpsConfig unit :=
  {| orgUrl := "ado.example.com/tfs";
     project := "Contoso";
     personalAccessToken := "s3cr3t";
     isOnPremises := true;
     collection := None;
     apiVersion := None;
     auth := Some (mkAuth pat None None None);
     entraAuthHandler := None |}.

(** A [WebApi] whose construction fails. *)
Definition refusingWebApi (baseUrl : string) (handler : RequestHandler unit)
    (options : RequestOptions) : result unit :=
  Throw (Error "connect ECONNREFUSED").

Definition envOnPremisesPat : Env :=
  <["AZURE_DEVOPS_IS_ON_PREMISES" := "true"]>
    (<["AZURE_DEVOPS_PERSONAL_ACCESS_TOKEN" := "s3cr3t"]>
       (<["AZURE_DEVOPS_ORG_URL" := "https://ado.example.com"]>
          (<["AZURE_DEVOPS_PROJECT" := "Contoso"]> ∅))).

Definition envOnPremisesNtlm : Env :=
  <["AZURE_DEVOPS_AUTH_TYPE" := "ntlm"]>
    (<["AZURE_DEVOPS_USERNAME" := "alice"]>
       (<["AZURE_DEVOPS_PASSWORD" := "hunter2"]>
          (<["AZURE_DEVOPS_DOMAIN" := "CORP"]>
             (<["AZURE_DEVOPS_IS_ON_PREMISES" := "true"]>
                (<["AZURE_DEVOPS_ORG_URL" := "https://ado.example.com"]>
                   (<["AZURE_DEVOPS_PROJECT" := "Contoso"]> ∅)))))).

End MoreSamples.

(** ** More words for the properties *)

Module Outcomes.

(** The error of a completion, if it is one. *)
Definition thrown {A} (r : result A) : option JsError :=
  match r with
  | Ok _ => None
  | Throw e => Some e
  end.

End Outcomes.
Export Outcomes.

(** ** Words for the properties of the mutating operations *)

Module Guard.

Section Guard.
Context {Remote : Type}.
Variable connection_getGitApi : Sdk Remote (GitApi Remote).
Variable project : string.

(** The validation of [op] would pass in world [w]: the client is
    obtained, the pull request is found, and it names no repository or
    the requested one. *)
Definition validation_passes (op : MutatingOperation) (w : World Remote) : Prop :=
  exists gitApi remote1 pr remote2,
    connection_getGitApi (remote w) = (Ok gitApi, remote1)
    /\ sdk_getPullRequest gitApi (op_repositoryId op) (op_pullRequestId op)
         project remote1 = (Ok (Some pr), remote2)
    /\ (repository pr = None
        \/ exists repo, repository pr = Some repo
                        /\ id repo = Some (op_repositoryId op)).

(** The shape that the four operations share: the client, then the
    validation, then the rest. *)
Definition guarded {A} (repositoryId : string) (pullRequestId : Z)
    (rest : GitApi Remote -> Async Remote A) : Async Remote A :=
  (gitApi <- getGitApi connection_getGitApi ;;
   validatePullRequestRepository gitApi repositoryId pullRequestId project ;;;
   rest gitApi)%async.

(** What each operation does once the validation has passed. *)
Definition op_rest (op : MutatingOperation) (gitApi : GitApi Remote)
    : Async Remote Json :=
  match op with
  | Approve params =>
      let vote := 10%Z in
      await (CreatePullRequestReviewer vote (approve_repositoryId params)
               (approve_pullRequestId params) "me" project)
        (sdk_createPullRequestReviewer gitApi vote (approve_repositoryId params)
           (approve_pullRequestId params) "me" project)
  | Merge params =>
      let mergeStrategy := mergeStrategyNumber (merge_mergeStrategy params) in
      let update := mkUpdate 3 (mkCompletionOptions mergeStrategy None) in
      await (UpdatePullRequest update (merge_repositoryId params)
               (merge_pullRequestId params) (Some project))
        (sdk_updatePullRequest gitApi update (merge_repositoryId params)
           (merge_pullRequestId params) (Some project))
  | AddComment params =>
      if truthy_num (comment_threadId params) then
        let comment :=
          mkComment (comment_content params)
            (default 0%Z (comment_parentCommentId params)) 1 in
        let threadId := default 0%Z (comment_threadId params) in
        await (CreateComment comment (comment_repositoryId params)
                 (comment_pullRequestId params) threadId project)
          (sdk_createComment gitApi comment (comment_repositoryId params)
             (comment_pullRequestId params) threadId project)
      else
        let context :=
          match comment_threadContext params with
          | Some c => Some c
          | None =>
              if truthy (comment_filePath params)
                 && truthy_num (comment_lineNumber params)
              then Some (lineContext (comment_filePath params)
                           (comment_lineNumber params))
              else None
          end in
        let thread :=
          mkThread [mkComment (comment_content params) 0 1] 1 context in
        await (CreateThread thread (comment_repositoryId params)
                 (comment_pullRequestId params) project)
          (sdk_createThread gitApi thread (comment_repositoryId params)
             (comment_pullRequestId params) project)
  | Complete params =>
      (_ <- await (GetPullRequestById (complete_pullRequestId params))
             (sdk_getPullRequestById gitApi (complete_pullRequestId params)) ;;
       let mergeStrategy := mergeStrategyNumber (complete_mergeStrategy params) in
       let update :=
         mkUpdate 3 (mkCompletionOptions mergeStrategy
                       (complete_deleteSourceBranch params)) in
       await (UpdatePullRequest update (complete_repositoryId params)
                (complete_pullRequestId params) None)
         (sdk_updatePullRequest gitApi update (complete_repositoryId params)
            (complete_pullRequestId params) None))%async
  end.

(** The label of the line that the operation writes when it fails. *)
Definition op_label (op : MutatingOperation) : string :=
  match op with
  | Approve params =>
      "Error approving pull request "
      +:+ number_to_string (approve_pullRequestId params) +:+ ":"
  | Merge params =>
      "Error merging pull request "
      +:+ number_to_string (merge_pullRequestId params) +:+ ":"
  | AddComment params =>
      "Error adding comment to pull request "
      +:+ number_to_string (comment_pullRequestId params) +:+ ":"
  | Complete params =>
      "Error completing pull request "
      +:+ number_to_string (complete_pullRequestId params) +:+ ":"
  end.

End Guard.

(** The update that a call sends, if it is an update. *)
Definition update_of (c : SdkCall) : option PullRequestUpdate :=
  match c with
  | UpdatePullRequest update _ _ _ => Some update
  | _ => None
  end.

(** [params.mergeStrategy] of the operations that take one. *)
Definition op_mergeStrategy (op : MutatingOperation) : option string :=
  match op with
  | Merge params => merge_mergeStrategy params
  | Complete params => complete_mergeStrategy params
  | Approve _ | AddComment _ => None
  end.

End Guard.
Export Guard.

(** ** [src/config.ts]: the search for the [.env] file *)

Module EnvFile.

(** What [loadEnvFile] reads of the process. *)
Record ProcessInfo := mkProcess {
  cwd : string;
  dirname : string;
  filename : string;
  mainFilename : option string;
  execPath : string;
  argv : list string;
  HOME : option string
}.

(** [debugInfo.push(line, ...)] *)
Definition push (debugInfo lines : list string) : list string :=
  app debugInfo lines.

(** [`${b}`] for a boolean. *)
Definition bool_text (b : bool) : string := if b then "true" else "false".

Section Load.

(** [path.join], [path.resolve] and [fs.existsSync]. *)
Variable path_join : list string -> string.
Variable path_resolve : string -> string.
Variable existsSync : string -> bool.

(** The loop of [loadEnvFile] over [possiblePaths]: the path handed to
    [dotenv.config], if any, and the lines of [debugInfo]. *)
Fixpoint tryPaths (possiblePaths : list string) (debugInfo : list string)
    : option string * list string :=
  match possiblePaths with
  | [] =>
      (None,
       push debugInfo
          [newline +:+ "❌ No .env file found. Using environment variables if available.";
           "Please ensure .env file is in one of the checked locations."])
  | p :: rest =>
      let resolvedPath := path_resolve p in
      let exists_ := existsSync p in
      let debugInfo :=
        push debugInfo ["  - " +:+ p;
                      "    Resolved: " +:+ resolvedPath;
                      "    Exists: " +:+ bool_text exists_] in
      if exists_
      then (Some p, push debugInfo ["    ✓ Found .env at: " +:+ p])
      else tryPaths rest debugInfo
  end.

(** [loadEnvFile]: the path handed to [dotenv.config], if any, and the
    message handed to [writeEnvDebugLog]. *)
Definition loadEnvFile (process : ProcessInfo) : option string * string :=
  let debugInfo :=
    ["=== Environment Configuration Loading ===";
     "Process details:";
     "  - Current directory (process.cwd()): " +:+ cwd process;
     "  - Script directory (__dirname): " +:+ dirname process;
     "  - Script filename (__filename): " +:+ filename process;
     "  - Main module: " +:+ template_opt (mainFilename process);
     "  - Node executable: " +:+ execPath process;
     "  - Command line args: " +:+ join " " (argv process)] in
  let scriptDir := dirname process in
  let projectRootEnv := path_join [scriptDir; ".."; ".env"] in
  let debugInfo :=
    push debugInfo
       [newline +:+ "Checking project root (relative to script): " +:+ projectRootEnv;
        "  - Resolved path: " +:+ path_resolve projectRootEnv;
        "  - File exists: " +:+ bool_text (existsSync projectRootEnv)] in
  if existsSync projectRootEnv then
    (Some projectRootEnv,
     join newline
       (push debugInfo ["  ✓ Found .env at project root: " +:+ projectRootEnv]))
  else
    let cwdEnvPath := path_join [cwd process; ".env"] in
    let debugInfo :=
      push debugInfo
         [newline +:+ "Checking current directory: " +:+ cwdEnvPath;
          "  - File exists: " +:+ bool_text (existsSync cwdEnvPath)] in
    let debugInfo :=
      if existsSync ".env" then
        push debugInfo
           ["  ⚠️  Found .env in current directory - this might be the wrong project!";
            "  ⚠️  Current dir: " +:+ cwd process;
            "  ⚠️  Expected project: /mnt/c/Users/Jordan.HHHC/Documents/MCP/AzureDevOps-MCP"]
      else debugInfo in
    let possiblePaths :=
      [path_join [cwd process; ".env"];
       path_join [scriptDir; ".."; ".."; ".env"];
       path_join [or_default (HOME process) EmptyString; ".azuredevops.env"]] in
    let debugInfo := push debugInfo [newline +:+ "Checking additional paths:"] in
    let (loaded, debugInfo) := tryPaths possiblePaths debugInfo in
    (loaded, join newline debugInfo).

End Load.

End EnvFile.
Export EnvFile.

(** * Properties *)

Local Open Scope Z_scope.

(** ** Evaluation of the code on small inputs *)

Example number_to_string_42 : number_to_string 42 = "42".
Proof. reflexivity. Qed.

Example number_to_string_neg : number_to_string (-7) = "-7".
Proof. reflexivity. Qed.

Example split_keeps_empty_pieces : split "," "a,,b" = ["a"; ""; "b"].
Proof. reflexivity. Qed.

Example maskHost_cloud :
  maskHost "https://dev.azure.com/contoso" = "https://***/contoso".
Proof. reflexivity. Qed.

Example maskHost_no_scheme :
  maskHost "dev.azure.com/contoso" = "dev.azure.com/contoso".
Proof. reflexivity. Qed.

Example maskHost_triple_slash :
  maskHost "file:///etc//x/y" = "file:///***//x/y".
Proof. reflexivity. Qed.

Example status_text_7 : getPullRequestStatusText 7 = "unknown(7)".
Proof. reflexivity. Qed.

Example merge_status_text_0 : getMergeStatusText 0 = "unknown(0)".
Proof. reflexivity. Qed.

Example resolve_pat_cloud :
  snd (getAzureDevOpsConfig (H:=unit) Fixtures.envContosoPat)
  = Ok {| orgUrl := "https://dev.azure.com/contoso";
          project := "Contoso";
          personalAccessToken := "s3cr3t";
          isOnPremises := false;
          collection := None;
          apiVersion := None;
          auth := Some (mkAuth pat None None None);
          entraAuthHandler := None |}.
Proof. reflexivity. Qed.

Example resolve_ntlm_cloud :
  snd (getAzureDevOpsConfig (H:=unit)
         (<["AZURE_DEVOPS_AUTH_TYPE" := "ntlm"]> Fixtures.envContosoPat))
  = Throw (Error (cloud_unsupported_message ntlm)).
Proof. reflexivity. Qed.

Example resolve_missing_token :
  snd (getAzureDevOpsConfig (H:=unit) Fixtures.envContoso)
  = Throw (Error "PAT authentication requires a personal access token for Azure DevOps cloud unless AZURE_DEVOPS_AUTH_TYPE is set to entra.").
Proof. reflexivity. Qed.

Example base_url_empty_collection :
  computeBaseUrl (Fixtures.onPremisesConfig (Some EmptyString))
  = "https://ado.example.com".
Proof. reflexivity. Qed.

(** With the pull request in the requested repository the vote is cast. *)
Example approve_same_repository :
  approvePullRequest (Fixtures.countingConnection (Ok (Some Fixtures.prOfRepoA)))
    "Contoso" (mkApproveParams "repo-A" 42) Fixtures.freshWorld
  = (Ok (JStr "voted"),
     mkWorld 1%nat
       [GetGitApi; GetPullRequest "repo-A" 42 "Contoso";
        CreatePullRequestReviewer 10 "repo-A" 42 "me" "Contoso"] []).
Proof. reflexivity. Qed.

(** With the pull request in another repository nothing is changed. *)
Example complete_other_repository :
  completePullRequest (Fixtures.countingConnection (Ok (Some Fixtures.prOfRepoB)))
    "Contoso" (mkCompleteParams "repo-A" 42 (Some "squash") (Some true))
    Fixtures.freshWorld
  = (Throw (Error "Pull request 42 belongs to repository repo-B, not repo-A"),
     mkWorld 0%nat [GetGitApi; GetPullRequest "repo-A" 42 "Contoso"]
       [("Error completing pull request 42:",
         Error "Pull request 42 belongs to repository repo-B, not repo-A")]).
Proof. reflexivity. Qed.

(** A repository object without identifier is rejected as well. *)
Example validate_repository_without_id :
  fst (validatePullRequestRepository
         (Fixtures.countingGitApi
            (Ok (Some (Fixtures.prOfRepository (Some (mkRepository None ∅))))))
         "repo-A" 42 "Contoso" Fixtures.freshWorld)
  = Throw (Error "Pull request 42 belongs to repository undefined, not repo-A").
Proof. reflexivity. Qed.

Example get_pull_request_texts :
  fst (getPullRequest (Fixtures.countingConnection (Ok (Some Fixtures.prOfRepoA)))
         "Contoso" (mkGetParams "repo-A" 42) Fixtures.freshWorld)
  = Ok (mkPullRequest (Some "active") (Some "succeeded")
          (Some (mkRepository (Some "repo-A") ∅))
          (<["title" := JStr "Fix build"]> ∅)).
Proof. reflexivity. Qed.

Example allowed_tools_with_spaces :
  getAllowedTools Fixtures.sampleTools (<["ALLOWED_TOOLS" := "a, b"]> ∅)
  = list_to_set ["a"; " b"].
Proof. reflexivity. Qed.

(** ** Status mappings *)

(** C6: the pull-request status mapping sends 0, 1, 2 and 3 to notSet,
    active, abandoned and completed, and every other integer [n] to
    unknown(n) with [n] in decimal; the merge-status mapping sends 1 to 6
    to conflicts, failure, notSet, queued, rejectedByPolicy and
    succeeded. *)
Theorem C6_status_mappings (n : Z) :
  getPullRequestStatusText 0 = "notSet"
  /\ getPullRequestStatusText 1 = "active"
  /\ getPullRequestStatusText 2 = "abandoned"
  /\ getPullRequestStatusText 3 = "completed"
  /\ (n < 0 \/ 3 < n ->
      getPullRequestStatusText n = "unknown(" +:+ number_to_string n +:+ ")")
  /\ getMergeStatusText 1 = "conflicts"
  /\ getMergeStatusText 2 = "failure"
  /\ getMergeStatusText 3 = "notSet"
  /\ getMergeStatusText 4 = "queued"
  /\ getMergeStatusText 5 = "rejectedByPolicy"
  /\ getMergeStatusText 6 = "succeeded".
Proof.
  repeat split; try reflexivity.
  intros Hout. unfold getPullRequestStatusText.
  destruct n as [|p|p]; [lia| |reflexivity].
  destruct p as [[q|q|]|[q|q|]|]; try reflexivity; lia.
Qed.

Lemma C6_status_mappings_witness :
  (7 < 0 \/ 3 < 7) /\ getPullRequestStatusText 7 = "unknown(7)".
Proof.
  split; [right; lia|].
  apply (proj1 (proj2 (proj2 (proj2 (proj2 (C6_status_mappings 7)))))).
  right; lia.
Defined.

(** ** Pull-request validation and the mutating operations *)

Section GitProperties.
Context {Remote : Type}.
Implicit Types (gitApi : GitApi Remote) (w : World Remote).

(** [validatePullRequestRepository], one case per answer of the SDK. *)
Lemma validate_rejected gitApi repositoryId pullRequestId projectId w e remote' :
  sdk_getPullRequest gitApi repositoryId pullRequestId projectId (remote w)
    = (Throw e, remote') ->
  validatePullRequestRepository gitApi repositoryId pullRequestId projectId w
    = (Throw e, after_call w (GetPullRequest repositoryId pullRequestId projectId) remote').
Proof.
  intros Hsdk. unfold validatePullRequestRepository, bind, await.
  by rewrite Hsdk.
Qed.

Lemma validate_not_found gitApi repositoryId pullRequestId projectId w remote' :
  sdk_getPullRequest gitApi repositoryId pullRequestId projectId (remote w)
    = (Ok None, remote') ->
  validatePullRequestRepository gitApi repositoryId pullRequestId projectId w
    = (Throw (Error (not_found_message pullRequestId repositoryId)),
       after_call w (GetPullRequest repositoryId pullRequestId projectId) remote').
Proof.
  intros Hsdk. unfold validatePullRequestRepository, bind, await.
  by rewrite Hsdk.
Qed.

Lemma validate_no_repository gitApi repositoryId pullRequestId projectId w pr remote' :
  sdk_getPullRequest gitApi repositoryId pullRequestId projectId (remote w)
    = (Ok (Some pr), remote') ->
  repository pr = None ->
  validatePullRequestRepository gitApi repositoryId pullRequestId projectId w
    = (Ok tt, after_call w (GetPullRequest repositoryId pullRequestId projectId) remote').
Proof.
  intros Hsdk Hrepo. unfold validatePullRequestRepository, bind, await.
  rewrite Hsdk. cbn. rewrite Hrepo. reflexivity.
Qed.

Lemma validate_same gitApi repositoryId pullRequestId projectId w pr repo remote' :
  sdk_getPullRequest gitApi repositoryId pullRequestId projectId (remote w)
    = (Ok (Some pr), remote') ->
  repository pr = Some repo ->
  id repo = Some repositoryId ->
  validatePullRequestRepository gitApi repositoryId pullRequestId projectId w
    = (Ok tt, after_call w (GetPullRequest repositoryId pullRequestId projectId) remote').
Proof.
  intros Hsdk Hrepo Hid. unfold validatePullRequestRepository, bind, await.
  rewrite Hsdk. cbn. rewrite Hrepo.
  rewrite bool_decide_eq_false_2 by (intros Hne; apply Hne, Hid).
  reflexivity.
Qed.

Lemma validate_mismatch gitApi repositoryId pullRequestId projectId w pr repo remote' :
  sdk_getPullRequest gitApi repositoryId pullRequestId projectId (remote w)
    = (Ok (Some pr), remote') ->
  repository pr = Some repo ->
  id repo <> Some repositoryId ->
  validatePullRequestRepository gitApi repositoryId pullRequestId projectId w
    = (Throw (Error (mismatch_message pullRequestId (id repo) repositoryId)),
       after_call w (GetPullRequest repositoryId pullRequestId projectId) remote').
Proof.
  intros Hsdk Hrepo Hid. unfold validatePullRequestRepository, bind, await.
  rewrite Hsdk. cbn. rewrite Hrepo.
  rewrite bool_decide_eq_true_2 by exact Hid.
  reflexivity.
Qed.

(** C9: when the pull request fetched for validation exists but has no
    repository property, [validatePullRequestRepository] returns without
    error; and, whenever the SDK call itself returns, the validation
    throws exactly when the pull request is missing or its repository is
    present with an identifier that is not the requested one (a
    repository object without identifier is compared as undefined). *)
Theorem C9_validation_skipped_without_repository
    gitApi repositoryId pullRequestId projectId w answer remote' :
  sdk_getPullRequest gitApi repositoryId pullRequestId projectId (remote w)
    = (Ok answer, remote') ->
  (forall pr, answer = Some pr -> repository pr = None ->
     validatePullRequestRepository gitApi repositoryId pullRequestId projectId w
     = (Ok tt, after_call w (GetPullRequest repositoryId pullRequestId projectId) remote'))
  /\ ((exists e w',
         validatePullRequestRepository gitApi repositoryId pullRequestId projectId w
         = (Throw e, w'))
      <-> (answer = None
           \/ exists pr repo, answer = Some pr /\ repository pr = Some repo
                              /\ id repo <> Some repositoryId)).
Proof.
  intros Hsdk. split.
  - intros pr -> Hrepo. by apply validate_no_repository with pr.
  - split.
    + intros (e & w' & Hrun).
      destruct answer as [pr|]; [right|by left].
      destruct (repository pr) as [repo|] eqn:Hrepo.
      * destruct (decide (id repo = Some repositoryId)) as [Hid|Hid].
        -- rewrite (validate_same _ _ _ _ _ _ _ _ Hsdk Hrepo Hid) in Hrun.
           discriminate.
        -- by exists pr, repo.
      * rewrite (validate_no_repository _ _ _ _ _ _ _ Hsdk Hrepo) in Hrun.
        discriminate.
    + intros [-> | (pr & repo & -> & Hrepo & Hid)].
      * eexists _, _. by apply validate_not_found.
      * eexists _, _. by eapply validate_mismatch.
Qed.

(** The methods of one [GitService] instance. *)
Variable connection_getGitApi : Sdk Remote (GitApi Remote).
Variable project : string.

(** C10: when the SDK returns a pull request, [getPullRequest] returns
    it with [status] replaced by the text of its number, an absent
    status counting as 0 and so reported as notSet, and [mergeStatus]
    replaced likewise, an absent merge status counting as 3 and so
    reported as notSet; the repository and every other property are
    those of the SDK's answer. *)
Theorem C10_absent_status_defaults params w gitApi remote1 pr remote2 :
  connection_getGitApi (remote w) = (Ok gitApi, remote1) ->
  sdk_getPullRequest gitApi (get_repositoryId params) (get_pullRequestId params)
    project remote1 = (Ok (Some pr), remote2) ->
  exists r w',
    getPullRequest connection_getGitApi project params w = (Ok r, w')
    /\ (status pr = None -> status r = Some "notSet")
    /\ (mergeStatus pr = None -> mergeStatus r = Some "notSet")
    /\ status r = Some (getPullRequestStatusText (default 0 (status pr)))
    /\ mergeStatus r = Some (getMergeStatusText (default 3 (mergeStatus pr)))
    /\ repository r = repository pr
    /\ others r = others pr.
Proof.
  intros Hapi Hsdk.
  unfold getPullRequest, try_catch, bind, getGitApi, await.
  rewrite Hapi. cbn. rewrite Hsdk. cbn.
  eexists _, _. split; [reflexivity|]. cbn.
  repeat split; by intros ->.
Qed.

(** What a mutating operation does when the validation finds the pull
    request in another repository: the error of the validation is
    written to the console and thrown again, after two SDK calls. *)
Lemma run_mismatch op w gitApi remote1 pr repo remote2 :
  connection_getGitApi (remote w) = (Ok gitApi, remote1) ->
  sdk_getPullRequest gitApi (op_repositoryId op) (op_pullRequestId op)
    project remote1 = (Ok (Some pr), remote2) ->
  repository pr = Some repo ->
  id repo <> Some (op_repositoryId op) ->
  let e := Error (mismatch_message (op_pullRequestId op) (id repo) (op_repositoryId op)) in
  exists label,
    run connection_getGitApi project op w
    = (Throw e,
       rejected_world project w label e (op_repositoryId op) (op_pullRequestId op)
         remote2).
Proof.
  intros Hapi Hsdk Hrepo Hid e.
  pose (w1 := after_call w GetGitApi remote1).
  assert (Hval :
    validatePullRequestRepository gitApi (op_repositoryId op)
      (op_pullRequestId op) project w1
    = (Throw e, after_call w1 (GetPullRequest (op_repositoryId op)
                                 (op_pullRequestId op) project) remote2)).
  { by apply validate_mismatch with pr. }
  destruct op as [params|params|params|params]; cbn in *;
    unfold approvePullRequest, mergePullRequest, addPullRequestComment,
      completePullRequest, try_catch, bind, getGitApi, await;
    rewrite Hapi; fold w1; cbn; rewrite Hval;
    unfold rethrow, bind, console_error, throw, rejected_world, after_call; cbn;
    rewrite <- app_assoc; eexists; reflexivity.
Qed.

(** C1: for each of approvePullRequest, mergePullRequest,
    addPullRequestComment and completePullRequest, when the pull request
    fetched for validation carries a repository identifier other than
    the requested one, the operation throws the repository-mismatch
    error; the only SDK calls it has made are getGitApi and
    getPullRequest, so no vote, update, comment or thread call is
    reached, and the server is left as the read left it. *)
Theorem C1_mismatch_blocks_mutation op w gitApi remote1 pr repo actual remote2 :
  connection_getGitApi (remote w) = (Ok gitApi, remote1) ->
  sdk_getPullRequest gitApi (op_repositoryId op) (op_pullRequestId op)
    project remote1 = (Ok (Some pr), remote2) ->
  repository pr = Some repo ->
  id repo = Some actual ->
  actual <> op_repositoryId op ->
  exists w',
    run connection_getGitApi project op w
    = (Throw (Error (mismatch_message (op_pullRequestId op) (Some actual)
                       (op_repositoryId op))), w')
    /\ calls w' = (calls w ++ [GetGitApi;
                               GetPullRequest (op_repositoryId op)
                                 (op_pullRequestId op) project])%list
    /\ (forall c, c ∈ calls w' -> is_mutating c = true -> c ∈ calls w)
    /\ remote w' = remote2.
Proof.
  intros Hapi Hsdk Hrepo Hid Hne.
  destruct (run_mismatch op w gitApi remote1 pr repo remote2 Hapi Hsdk Hrepo)
    as [label Hrun].
  { rewrite Hid. congruence. }
  rewrite Hid in Hrun. eexists. split; [exact Hrun|].
  cbn. repeat split.
  intros c Hin Hmut. apply elem_of_app in Hin as [Hin|Hin]; [done|].
  apply elem_of_cons in Hin as [->|Hin]; [discriminate|].
  apply elem_of_cons in Hin as [->|Hin]; [discriminate|].
  by apply elem_of_nil in Hin.
Qed.

End GitProperties.

Lemma C9_validation_skipped_without_repository_witness :
  validatePullRequestRepository
    (Fixtures.countingGitApi (Ok (Some Fixtures.prWithoutRepository)))
    "repo-A" 42 "Contoso" Fixtures.freshWorld
  = (Ok tt, mkWorld 0%nat [GetPullRequest "repo-A" 42 "Contoso"] []).
Proof.
  refine (proj1 (C9_validation_skipped_without_repository
                   (Fixtures.countingGitApi (Ok (Some Fixtures.prWithoutRepository)))
                   "repo-A" 42 "Contoso" Fixtures.freshWorld
                   (Some Fixtures.prWithoutRepository) 0%nat _) _ _ _);
    reflexivity.
Defined.

Lemma C10_absent_status_defaults_witness :
  exists r w',
    getPullRequest (Fixtures.countingConnection (Ok (Some Fixtures.prWithoutStatus)))
      "Contoso" (mkGetParams "repo-A" 42) Fixtures.freshWorld = (Ok r, w')
    /\ status r = Some "notSet" /\ mergeStatus r = Some "notSet"
    /\ others r = others Fixtures.prWithoutStatus.
Proof.
  destruct (C10_absent_status_defaults
              (Fixtures.countingConnection (Ok (Some Fixtures.prWithoutStatus)))
              "Contoso" (mkGetParams "repo-A" 42) Fixtures.freshWorld
              (Fixtures.countingGitApi (Ok (Some Fixtures.prWithoutStatus)))
              0%nat Fixtures.prWithoutStatus 0%nat eq_refl eq_refl)
    as (r & w' & Hrun & Hstatus & Hmerge & _ & _ & _ & Hothers).
  exists r, w'. repeat split; auto.
Defined.

Lemma C1_mismatch_blocks_mutation_witness :
  exists w',
    run (Fixtures.countingConnection (Ok (Some Fixtures.prOfRepoB))) "Contoso"
      (Merge (mkMergeParams "repo-A" 42 (Some "squash"))) Fixtures.freshWorld
    = (Throw (Error "Pull request 42 belongs to repository repo-B, not repo-A"), w')
    /\ calls w' = [GetGitApi; GetPullRequest "repo-A" 42 "Contoso"]
    /\ remote w' = 0%nat.
Proof.
  destruct (C1_mismatch_blocks_mutation
              (Fixtures.countingConnection (Ok (Some Fixtures.prOfRepoB))) "Contoso"
              (Merge (mkMergeParams "repo-A" 42 (Some "squash"))) Fixtures.freshWorld
              (Fixtures.countingGitApi (Ok (Some Fixtures.prOfRepoB))) 0%nat
              Fixtures.prOfRepoB (mkRepository (Some "repo-B") ∅) "repo-B" 0%nat
              eq_refl eq_refl eq_refl eq_refl ltac:(discriminate))
    as (w' & Hrun & Hcalls & _ & Hremote).
  exists w'. repeat split; assumption.
Defined.

(** ** Configuration resolution *)

Section ConfigProperties.
Context {H : Type}.
Implicit Types (env : Env).

Lemma missingVars_spec env :
  missingVars env
  = filter (fun v => truthy (env !! v) = false)
      ["AZURE_DEVOPS_ORG_URL"; "AZURE_DEVOPS_PROJECT"].
Proof.
  unfold missingVars. rewrite !filter_cons, filter_nil.
  destruct (truthy (env !! "AZURE_DEVOPS_ORG_URL")) eqn:Horg,
           (truthy (env !! "AZURE_DEVOPS_PROJECT")) eqn:Hproj;
    repeat case_decide; try done.
Qed.

(** C3: when the organization URL or the project is absent or empty,
    [getAzureDevOpsConfig] throws, and so produces no configuration; the
    message of the error lists, between its fixed opening and closing
    words and separated by a comma, exactly those of
    AZURE_DEVOPS_ORG_URL and AZURE_DEVOPS_PROJECT that are missing, in
    that order. *)
Theorem C3_missing_required_fields env :
  truthy (env !! "AZURE_DEVOPS_ORG_URL") = false
  \/ truthy (env !! "AZURE_DEVOPS_PROJECT") = false ->
  exists missing,
    snd (getAzureDevOpsConfig (H:=H) env)
    = Throw (Error ("Missing required Azure DevOps configuration: "
                    +:+ join ", " missing
                    +:+ ". Please check .env file or environment variables."))
    /\ missing = filter (fun v => truthy (env !! v) = false)
                   ["AZURE_DEVOPS_ORG_URL"; "AZURE_DEVOPS_PROJECT"]
    /\ missing <> []
    /\ (forall v, v ∈ missing
          <-> (v = "AZURE_DEVOPS_ORG_URL" \/ v = "AZURE_DEVOPS_PROJECT")
              /\ truthy (env !! v) = false).
Proof.
  intros Hmissing. exists (missingVars env).
  split; [|split; [apply missingVars_spec|split]].
  - unfold getAzureDevOpsConfig.
    destruct Hmissing as [-> | ->]; cbn; [done|].
    by rewrite orb_true_r.
  - unfold missingVars.
    destruct Hmissing as [-> | ->]; [done|].
    by destruct (truthy (env !! "AZURE_DEVOPS_ORG_URL")).
  - intros v. rewrite missingVars_spec, list_elem_of_filter.
    rewrite !elem_of_cons, elem_of_nil. split.
    + intros [Hfalsy [->|[->|[]]]]; split; auto.
    + intros [[->| ->] Hfalsy]; split; auto.
Qed.

Lemma normalizeAuthType_unrecognized (s : string) :
  s ∉ ["pat"; "ntlm"; "basic"; "entra"] ->
  normalizeAuthType (or_default (Some s) "pat") = pat.
Proof.
  intros Hs. unfold or_default.
  destruct (String.eqb_spec s EmptyString) as [->|_]; [reflexivity|].
  unfold normalizeAuthType.
  repeat match goal with
         | |- context [String.eqb s ?lit] =>
             destruct (String.eqb_spec s lit) as [->|_]
         end; try reflexivity; exfalso; apply Hs; set_solver.
Qed.

Lemma resolveAuth_ignores_auth_type env (v : string) t onPrem token :
  resolveAuth (<["AZURE_DEVOPS_AUTH_TYPE" := v]> env) t onPrem token
  = resolveAuth env t onPrem token.
Proof.
  unfold resolveAuth. by rewrite !lookup_insert_ne by done.
Qed.

(** C4: when AZURE_DEVOPS_AUTH_TYPE holds a string other than pat, ntlm,
    basic and entra, [getAzureDevOpsConfig] gives exactly what it gives
    on the same environment with AZURE_DEVOPS_AUTH_TYPE set to pat: the
    same configuration or the same error, and the same console lines. *)
Theorem C4_unrecognized_auth_type_is_pat env (s : string) :
  env !! "AZURE_DEVOPS_AUTH_TYPE" = Some s ->
  s ∉ ["pat"; "ntlm"; "basic"; "entra"] ->
  getAzureDevOpsConfig (H:=H) env
  = getAzureDevOpsConfig (H:=H) (<["AZURE_DEVOPS_AUTH_TYPE" := "pat"]> env).
Proof.
  intros Henv Hs. unfold getAzureDevOpsConfig, missingVars.
  rewrite resolveAuth_ignores_auth_type.
  rewrite lookup_insert_eq, !lookup_insert_ne by done.
  rewrite Henv, (normalizeAuthType_unrecognized s Hs).
  reflexivity.
Qed.

End ConfigProperties.

Lemma C3_missing_required_fields_witness :
  snd (getAzureDevOpsConfig (H:=unit)
         (<["AZURE_DEVOPS_ORG_URL" := "https://dev.azure.com/contoso"]> ∅))
  = Throw (Error "Missing required Azure DevOps configuration: AZURE_DEVOPS_PROJECT. Please check .env file or environment variables.").
Proof.
  destruct (C3_missing_required_fields (H:=unit)
              (<["AZURE_DEVOPS_ORG_URL" := "https://dev.azure.com/contoso"]> ∅))
    as (missing & Hthrow & -> & _).
  - right. reflexivity.
  - exact Hthrow.
Defined.

Lemma C4_unrecognized_auth_type_is_pat_witness :
  getAzureDevOpsConfig (H:=unit)
    (<["AZURE_DEVOPS_AUTH_TYPE" := "kerberos"]>
       (<["AZURE_DEVOPS_ORG_URL" := "https://dev.azure.com/contoso"]>
          (<["AZURE_DEVOPS_PROJECT" := "Contoso"]> ∅)))
  = getAzureDevOpsConfig (H:=unit)
      (<["AZURE_DEVOPS_AUTH_TYPE" := "pat"]>
         (<["AZURE_DEVOPS_AUTH_TYPE" := "kerberos"]>
            (<["AZURE_DEVOPS_ORG_URL" := "https://dev.azure.com/contoso"]>
               (<["AZURE_DEVOPS_PROJECT" := "Contoso"]> ∅)))).
Proof.
  apply (C4_unrecognized_auth_type_is_pat _ "kerberos").
  - reflexivity.
  - rewrite !not_elem_of_cons. repeat split; try discriminate. apply not_elem_of_nil.
Defined.

(** ** Combinations of authentication and hosting that are never valid *)

Lemma resolveAuth_never_valid env t onPremises token :
  never_valid t onPremises = true ->
  resolveAuth env t onPremises token = Throw (resolution_unsupported t onPremises).
Proof.
  by destruct t, onPremises.
Qed.

Lemma normalizeAuthType_name t :
  normalizeAuthType (or_default (Some (AuthType_name t)) "pat") = t.
Proof.
  by destruct t.
Qed.

Lemma selectAuthHandler_never_valid {H : Type} (config : AzureDevOpsConfig H) a :
  auth config = Some a ->
  never_valid (auth_type a) (isOnPremises config) = true ->
  snd (selectAuthHandler config)
  = Throw (construction_unsupported (auth_type a) (isOnPremises config)).
Proof.
  intros Hauth Hrow. unfold selectAuthHandler. rewrite Hauth. cbn.
  by destruct (auth_type a), (isOnPremises config).
Qed.

(** C2, as the code has it: on a row of the decision table marked never
    valid, whatever the other fields, the constructor of the service throws
    the unsupported-auth error, and [getAzureDevOpsConfig] throws: the
    unsupported-auth error when the organization URL and the project are
    both set, the missing-required-field error otherwise. *)
Theorem C2_never_valid_combinations_fail (t : AuthType) (onPremises : bool) :
  never_valid t onPremises = true ->
  (forall (H : Type) (env : Env),
     env !! "AZURE_DEVOPS_AUTH_TYPE" = Some (AuthType_name t) ->
     bool_decide (env !! "AZURE_DEVOPS_IS_ON_PREMISES" = Some "true") = onPremises ->
     snd (getAzureDevOpsConfig (H:=H) env)
     = if truthy (env !! "AZURE_DEVOPS_ORG_URL")
          && truthy (env !! "AZURE_DEVOPS_PROJECT")
       then Throw (resolution_unsupported t onPremises)
       else Throw (Error (missing_message (missingVars env))))
  /\ (forall (H W : Type) (newWebApi : string -> RequestHandler H -> RequestOptions -> result W)
        (config : AzureDevOpsConfig H) (a : AuthConfig),
        auth config = Some a -> auth_type a = t -> isOnPremises config = onPremises ->
        snd (constructor newWebApi config)
        = Throw (construction_unsupported t onPremises)).
Proof.
  intros Hrow. split.
  - intros H env Htype Hprem. unfold getAzureDevOpsConfig.
    rewrite Htype, Hprem, normalizeAuthType_name.
    rewrite (resolveAuth_never_valid _ _ _ _ Hrow).
    by destruct (truthy (env !! "AZURE_DEVOPS_ORG_URL")),
                (truthy (env !! "AZURE_DEVOPS_PROJECT")).
  - intros H W newWebApi config a Hauth <- <-.
    pose proof (selectAuthHandler_never_valid config a Hauth Hrow) as Hsel.
    unfold constructor.
    destruct (selectAuthHandler config) as [logs [handler|e]]; cbn in *;
      [discriminate|by injection Hsel as ->].
Qed.

Lemma C2_never_valid_combinations_fail_witness :
  snd (getAzureDevOpsConfig (H:=unit) (Fixtures.envEntraOnPremises Fixtures.envContoso))
  = Throw (Error "Azure Identity (DefaultAzureCredential) authentication is not supported for on-premises Azure DevOps.").
Proof.
  exact (proj1 (C2_never_valid_combinations_fail entra true eq_refl) unit
           (Fixtures.envEntraOnPremises Fixtures.envContoso) eq_refl eq_refl).
Defined.

(** C2, as written, fails: with AZURE_DEVOPS_AUTH_TYPE set to entra and
    on-premises hosting but neither organization URL nor project,
    [getAzureDevOpsConfig] throws the missing-required-field error, not the
    unsupported-auth error. *)
Lemma C2_resolution_counterexample :
  Fixtures.envEntraOnPremises ∅ !! "AZURE_DEVOPS_AUTH_TYPE" = Some "entra"
  /\ Fixtures.envEntraOnPremises ∅ !! "AZURE_DEVOPS_IS_ON_PREMISES" = Some "true"
  /\ snd (getAzureDevOpsConfig (H:=unit) (Fixtures.envEntraOnPremises ∅))
     = Throw (Error "Missing required Azure DevOps configuration: AZURE_DEVOPS_ORG_URL, AZURE_DEVOPS_PROJECT. Please check .env file or environment variables.")
  /\ snd (getAzureDevOpsConfig (H:=unit) (Fixtures.envEntraOnPremises ∅))
     <> Throw (resolution_unsupported entra true).
Proof.
  repeat split; try reflexivity. discriminate.
Qed.

(** ** The base URL of the connection *)

Section ConnectionProperties.
Context {H W : Type}.
Variable newWebApi : string -> RequestHandler H -> RequestOptions -> result W.
Implicit Types (config : AzureDevOpsConfig H).

(** Once the authentication handler is chosen, the constructor builds the
    client from [computeBaseUrl], that handler and [buildRequestOptions]. *)
Lemma constructor_connects config logs handler :
  selectAuthHandler config = (logs, Ok handler) ->
  snd (constructor newWebApi config)
  = match newWebApi (computeBaseUrl config) handler (buildRequestOptions config) with
    | Ok conn => Ok (mkService conn config handler)
    | Throw e => Throw e
    end.
Proof.
  intros Hsel. unfold constructor. rewrite Hsel.
  by destruct (newWebApi _ _ _).
Qed.

(** C5: the base URL handed to the client is the organization URL as it
    is when hosting is cloud, whatever the collection, and the
    organization URL, a slash and the collection when hosting is
    on-premises and a collection (a string that is not empty) is
    present; so https://ado.example.com with DefaultCollection gives
    https://ado.example.com/DefaultCollection. *)
Theorem C5_base_url config :
  (isOnPremises config = false -> computeBaseUrl config = orgUrl config)
  /\ (forall c, isOnPremises config = true -> collection config = Some c ->
        c <> EmptyString ->
        computeBaseUrl config = orgUrl config +:+ "/" +:+ c)
  /\ (isOnPremises config = true -> truthy (collection config) = false ->
      computeBaseUrl config = orgUrl config)
  /\ (isOnPremises config = true -> collection config = Some "DefaultCollection" ->
      orgUrl config = "https://ado.example.com" ->
      computeBaseUrl config = "https://ado.example.com/DefaultCollection")
  /\ (forall logs handler,
        selectAuthHandler config = (logs, Ok handler) ->
        snd (constructor newWebApi config)
        = match newWebApi (computeBaseUrl config) handler
                  (buildRequestOptions config) with
          | Ok conn => Ok (mkService conn config handler)
          | Throw e => Throw e
          end).
Proof.
  unfold computeBaseUrl. repeat split.
  - by intros ->.
  - intros c -> -> Hc. cbn.
    by destruct (String.eqb_spec c EmptyString).
  - by intros -> ->.
  - by intros -> -> ->.
  - apply constructor_connects.
Qed.

End ConnectionProperties.

Lemma C5_base_url_witness :
  computeBaseUrl (Fixtures.onPremisesConfig (Some "DefaultCollection"))
    = "https://ado.example.com/DefaultCollection"
  /\ snd (constructor Fixtures.recordingWebApi
            (Fixtures.onPremisesConfig (Some "DefaultCollection")))
     = Ok (mkService
             ("https://ado.example.com/DefaultCollection",
              PersonalAccessTokenHandler "s3cr3t", mkRequestOptions None)
             (Fixtures.onPremisesConfig (Some "DefaultCollection"))
             (PersonalAccessTokenHandler "s3cr3t")).
Proof.
  pose proof (C5_base_url Fixtures.recordingWebApi
                (Fixtures.onPremisesConfig (Some "DefaultCollection")))
    as (_ & Hcollection & _ & _ & Hconstructor).
  split.
  - apply (Hcollection "DefaultCollection"); [reflexivity|reflexivity|discriminate].
  - rewrite (Hconstructor _ _ eq_refl). reflexivity.
Defined.

(** ** The allow-list of tools *)

Section SplitJoin.
Variable sep : ascii.

Lemma split_not_nil s : split sep s <> [].
Proof.
  destruct s as [|c s]; cbn [split]; [done|].
  destruct (Ascii.eqb c sep); [done|].
  by destruct (split sep s).
Qed.

Lemma split_no_separator s : has_char sep s = false -> split sep s = [s].
Proof.
  induction s as [|c s IH]; cbn [has_char split]; [done|].
  intros [Hc Hs]%orb_false_elim. rewrite Hc. by rewrite (IH Hs).
Qed.

Lemma split_first_piece s rest :
  has_char sep s = false ->
  split sep (s +:+ String sep rest) = s :: split sep rest.
Proof.
  induction s as [|c s IH].
  - intros _. change (split sep (String sep rest) = [EmptyString] ++ split sep rest)%list.
    cbn [split]. by rewrite Ascii.eqb_refl.
  - change (String c s +:+ String sep rest) with (String c (s +:+ String sep rest)).
    cbn [has_char split].
    intros [Hc Hs]%orb_false_elim. rewrite Hc. by rewrite (IH Hs).
Qed.

(** Splitting the join of pieces that hold no separator gives the pieces
    back, unless there is no piece at all. *)
Lemma split_join pieces :
  pieces <> [] ->
  Forall (fun s => has_char sep s = false) pieces ->
  split sep (join (String sep EmptyString) pieces) = pieces.
Proof.
  induction pieces as [|s [|s' pieces] IH]; intros Hne Hall; [done| |].
  - cbn. apply split_no_separator. by inversion Hall.
  - inversion Hall as [|? ? Hs Hrest]; subst.
    change (join (String sep EmptyString) (s :: s' :: pieces))
      with (s +:+ String sep (join (String sep EmptyString) (s' :: pieces))).
    rewrite (split_first_piece _ _ Hs). f_equal. by apply IH.
Qed.

End SplitJoin.

Lemma join_tool_names_not_empty names :
  names <> [] -> Forall is_tool_name names -> truthy (Some (join "," names)) = true.
Proof.
  intros Hne Hall. destruct names as [|s names]; [done|].
  inversion Hall as [|? ? [Hs _] _]; subst.
  destruct s as [|c s]; [done|].
  by destruct names.
Qed.

(** C7, as the code has it: with ALLOWED_TOOLS unset, or set to the empty
    string, [getAllowedTools] returns the names of all eight tool groups;
    with ALLOWED_TOOLS set to one or more tool names joined by commas, it
    returns the set of exactly those names, whatever their order and
    however often each is repeated. *)
Theorem C7_allowed_tools (g : ToolGroups) (env : Env) :
  (env !! "ALLOWED_TOOLS" = None \/ env !! "ALLOWED_TOOLS" = Some EmptyString ->
   getAllowedTools g env = list_to_set (ALL_ALLOWED_TOOLS g)
   /\ forall t, t ∈ getAllowedTools g env
        <-> t ∈ AIAssistedDevelopmentToolMethods g
            \/ t ∈ ArtifactManagementToolMethods g
            \/ t ∈ BoardsSprintsToolMethods g
            \/ t ∈ DevSecOpsToolMethods g
            \/ t ∈ GitToolMethods g
            \/ t ∈ ProjectToolMethods g
            \/ t ∈ TestingCapabilitiesToolMethods g
            \/ t ∈ WorkItemToolMethods g)
  /\ (forall names,
        names <> [] -> Forall is_tool_name names ->
        env !! "ALLOWED_TOOLS" = Some (join "," names) ->
        getAllowedTools g env = list_to_set names
        /\ (forall t, t ∈ getAllowedTools g env <-> t ∈ names)
        /\ (forall names', (forall t, t ∈ names' <-> t ∈ names) ->
              getAllowedTools g env = list_to_set names')).
Proof.
  split.
  - intros Hunset.
    assert (getAllowedTools g env = list_to_set (ALL_ALLOWED_TOOLS g)) as Hall.
    { unfold getAllowedTools. by destruct Hunset as [-> | ->]. }
    split; [exact Hall|]. intros t. rewrite Hall, elem_of_list_to_set.
    unfold ALL_ALLOWED_TOOLS. by rewrite !elem_of_app.
  - intros names Hne Hnames Hset.
    assert (getAllowedTools g env = list_to_set names) as Hres.
    { unfold getAllowedTools. rewrite Hset.
      rewrite (join_tool_names_not_empty names Hne Hnames). cbn.
      rewrite split_join; [done|done|].
      eapply Forall_impl; [exact Hnames|]. by intros s [_ Hs]. }
    split; [exact Hres|]. split.
    + intros t. by rewrite Hres, elem_of_list_to_set.
    + intros names' Hsame. rewrite Hres. apply set_eq. intros t.
      by rewrite !elem_of_list_to_set, Hsame.
Qed.

Lemma C7_allowed_tools_witness :
  getAllowedTools Fixtures.sampleTools
    (<["ALLOWED_TOOLS" := "mergePullRequest,listWorkItems,mergePullRequest"]> ∅)
  = list_to_set ["listWorkItems"; "mergePullRequest"].
Proof.
  apply (proj2 (C7_allowed_tools Fixtures.sampleTools
                  (<["ALLOWED_TOOLS" := "mergePullRequest,listWorkItems,mergePullRequest"]> ∅))
           ["mergePullRequest"; "listWorkItems"; "mergePullRequest"]).
  - discriminate.
  - repeat constructor; discriminate.
  - reflexivity.
  - intros t. rewrite !elem_of_cons, !elem_of_nil. tauto.
Defined.

(** C7, as written, fails on the empty subset: its comma-separated form is
    the empty string, for which [getAllowedTools] returns every tool, not
    none. *)
Lemma C7_empty_subset_counterexample :
  join "," [] = EmptyString
  /\ "listRepositories" ∈ getAllowedTools Fixtures.sampleTools
                             (<["ALLOWED_TOOLS" := join "," []]> ∅)
  /\ getAllowedTools Fixtures.sampleTools (<["ALLOWED_TOOLS" := join "," []]> ∅)
     <> list_to_set [].
Proof.
  assert ("listRepositories" ∈ getAllowedTools Fixtures.sampleTools
                                 (<["ALLOWED_TOOLS" := join "," []]> ∅)) as Hin.
  { unfold getAllowedTools. rewrite lookup_insert_eq. cbn. set_solver. }
  split; [reflexivity|]. split; [exact Hin|].
  intros Heq. rewrite Heq in Hin. by apply not_elem_of_empty in Hin.
Qed.

(** ** Sanitized logging of connection failures *)

Lemma maskHost_skip c s :
  is_slash c = false -> maskHost (String c s) = String c (maskHost s).
Proof.
  intros Hc. destruct s as [|c1 [|c2 s]]; cbn [maskHost]; try reflexivity.
  by rewrite Hc.
Qed.

Lemma skipNonSlash_host host rest :
  has_char "/" host = false ->
  rest = EmptyString \/ (exists r, rest = String "/" r) ->
  skipNonSlash (host +:+ rest) = rest.
Proof.
  intros Hhost Hrest. induction host as [|c host IH].
  - change (EmptyString +:+ rest) with rest.
    by destruct Hrest as [-> | [r ->]].
  - change (String c host +:+ rest) with (String c (host +:+ rest)).
    cbn [has_char] in Hhost. apply orb_false_elim in Hhost as [Hc Hhost].
    cbn [skipNonSlash]. unfold is_slash. rewrite Hc. by apply IH.
Qed.

(** On [scheme//host/path], with no slash in [scheme] nor in [host],
    [maskHost] replaces [host], and nothing else, by three stars. *)
Lemma maskHost_url scheme host rest :
  has_char "/" scheme = false ->
  host <> EmptyString ->
  has_char "/" host = false ->
  rest = EmptyString \/ (exists r, rest = String "/" r) ->
  maskHost (scheme +:+ "//" +:+ host +:+ rest) = scheme +:+ "//***" +:+ rest.
Proof.
  intros Hscheme Hne Hhost Hrest. induction scheme as [|c scheme IH].
  - destruct host as [|h host]; [done|].
    cbn [has_char] in Hhost. apply orb_false_elim in Hhost as [Hh Hhost].
    change (maskHost (String "/" (String "/" (String h (host +:+ rest))))
            = "//***" +:+ rest).
    cbn [maskHost]. unfold is_slash at 3. rewrite Hh. cbn.
    by rewrite skipNonSlash_host.
  - cbn [has_char] in Hscheme. apply orb_false_elim in Hscheme as [Hc Hscheme].
    change (maskHost (String c (scheme +:+ "//" +:+ host +:+ rest))
            = String c (scheme +:+ "//***" +:+ rest)).
    rewrite maskHost_skip by exact Hc. by rewrite IH.
Qed.

Lemma sanitizedConfig_with_secrets {H : Type} (config : AzureDevOpsConfig H)
    (token : string) (pass : option string) :
  truthy (Some token) = truthy (Some (personalAccessToken config)) ->
  sanitizedConfig (with_secrets config token pass) = sanitizedConfig config.
Proof.
  intros Htoken. unfold sanitizedConfig, with_secrets. cbn in *. rewrite Htoken.
  by destruct (auth config).
Qed.


(** * Further properties of the code *)

(** ** Array slices *)

Section SliceFacts.
Context {A : Type}.
Implicit Types (l : list A).

Lemma take_beyond l (n : nat) :
  (length l <= n)%nat -> take n l = l.
Proof. intros Hn. by apply take_ge. Qed.

Lemma relativeIndex_nonneg (len i : Z) :
  0 <= i -> relativeIndex len i = Z.min i len.
Proof.
  intros Hi. unfold relativeIndex. by destruct (Z.ltb_spec i 0); [lia|].
Qed.

Lemma relativeIndex_negative (len i : Z) :
  i < 0 -> relativeIndex len i = Z.max (len + i) 0.
Proof.
  intros Hi. unfold relativeIndex. by destruct (Z.ltb_spec i 0); [|lia].
Qed.

Lemma slice_front l (n : Z) :
  0 <= n -> slice l 0 (Some n) = take (Z.to_nat n) l.
Proof.
  intros Hn. unfold slice. change (default _ (Some n)) with n.
  rewrite !relativeIndex_nonneg by lia.
  rewrite (Z.min_l 0) by lia. rewrite Z.sub_0_r.
  change (Z.to_nat 0) with 0%nat. rewrite drop_0.
  destruct (Z.le_ge_cases n (Z.of_nat (length l))) as [Hle|Hge].
  - by rewrite Z.min_l by lia.
  - rewrite Z.min_r by lia. rewrite Nat2Z.id.
    rewrite !take_beyond; [done|lia|lia].
Qed.

Lemma slice_front_negative l (n : Z) :
  n < 0 -> slice l 0 (Some n) = take (length l - Z.to_nat (- n)) l.
Proof.
  intros Hn. unfold slice. change (default _ (Some n)) with n.
  rewrite (relativeIndex_nonneg _ 0), (relativeIndex_negative _ n) by lia.
  rewrite (Z.min_l 0) by lia. rewrite Z.sub_0_r.
  change (Z.to_nat 0) with 0%nat. rewrite drop_0.
  f_equal. lia.
Qed.

Lemma slice_from l (k : Z) :
  0 <= k -> slice l k None = drop (Z.to_nat k) l.
Proof.
  intros Hk. unfold slice. change (default ?d None) with d.
  rewrite !relativeIndex_nonneg by lia.
  rewrite (Z.min_id (Z.of_nat (length l))).
  destruct (Z.le_ge_cases k (Z.of_nat (length l))) as [Hle|Hge].
  - rewrite Z.min_l by lia. apply take_beyond. rewrite length_drop. lia.
  - rewrite Z.min_r by lia. rewrite Z.sub_diag, Nat2Z.id. cbn [Z.to_nat take].
    rewrite !drop_ge; [done|lia|lia].
Qed.

Lemma take_take_drop l (a b : nat) :
  (take a l ++ take b (drop a l))%list = take (a + b) l.
Proof.
  revert l. induction a as [|a IH]; intros l; [done|].
  destruct l as [|x l]; cbn; [by rewrite take_nil|].
  by rewrite IH.
Qed.

End SliceFacts.

(** ** String tests *)

Lemma string_app_cons (c : ascii) (s t : string) :
  String c s +:+ t = String c (s +:+ t).
Proof. reflexivity. Qed.

Lemma string_app_empty (t : string) : EmptyString +:+ t = t.
Proof. reflexivity. Qed.

Lemma prefix_spec (t s : string) :
  String.prefix t s = true <-> exists post, s = t +:+ post.
Proof.
  revert s. induction t as [|a t IH]; intros s.
  - split; [intros _; by exists s|]. by destruct s.
  - destruct s as [|b s].
    + split; [done|]. intros [post Hpost]. by rewrite string_app_cons in Hpost.
    + cbn [String.prefix]. destruct (ascii_dec a b) as [->|Hne].
      * rewrite IH. split; intros [post Hpost]; exists post.
        -- by rewrite string_app_cons, Hpost.
        -- rewrite string_app_cons in Hpost. by injection Hpost.
      * split; [done|]. intros [post Hpost].
        rewrite string_app_cons in Hpost. injection Hpost as Hab _. by destruct Hne.
Qed.

(** [s.includes(t)] holds exactly when [t] occurs somewhere in [s]. *)
Lemma includes_spec (s t : string) :
  includes s t = true <-> exists pre post, s = pre +:+ t +:+ post.
Proof.
  induction s as [|c s IH].
  - cbn [includes]. rewrite orb_false_r, prefix_spec. split.
    + intros [post Hpost]. by exists EmptyString, post.
    + intros (pre & post & Hs). destruct pre as [|c pre]; [by exists post|].
      by rewrite string_app_cons in Hs.
  - cbn [includes]. rewrite orb_true_iff, prefix_spec, IH. split.
    + intros [[post Hpost]|(pre & post & Hs)].
      * by exists EmptyString, post.
      * exists (String c pre), post. by rewrite string_app_cons, Hs.
    + intros (pre & post & Hs). destruct pre as [|c' pre].
      * left. by exists post.
      * right. exists pre, post. rewrite string_app_cons in Hs. by injection Hs.
Qed.

(** [s.endsWith(t)] holds exactly when [s] is something followed by [t]. *)
Lemma endsWith_spec (s t : string) :
  endsWith s t = true <-> exists pre, s = pre +:+ t.
Proof.
  induction s as [|c s IH].
  - cbn [endsWith]. rewrite orb_false_r, String.eqb_eq. split.
    + intros <-. by exists EmptyString.
    + intros [pre Hs]. destruct pre as [|c pre]; [done|].
      by rewrite string_app_cons in Hs.
  - cbn [endsWith]. rewrite orb_true_iff, String.eqb_eq, IH. split.
    + intros [<-|[pre Hs]].
      * by exists EmptyString.
      * exists (String c pre). by rewrite string_app_cons, Hs.
    + intros [pre Hs]. destruct pre as [|c' pre].
      * by left.
      * right. exists pre. rewrite string_app_cons in Hs. by injection Hs.
Qed.

(** ** The listing methods of [GitService] *)

Lemma filter_sublist {A} (f : A -> bool) (l : list A) :
  List.filter f l `sublist_of` l.
Proof.
  induction l as [|x l IH]; cbn; [done|].
  destruct (f x); by constructor.
Qed.

Lemma limitTop_unlimited {A} (top : option Z) (l : list A) :
  top = None \/ top = Some 0 -> limitTop top l = l.
Proof. by intros [-> | ->]. Qed.

Lemma limitTop_positive {A} (n : Z) (l : list A) :
  0 < n -> limitTop (Some n) l = take (Z.to_nat n) l.
Proof.
  intros Hn. unfold limitTop, truthy_num. change (default 0 (Some n)) with n.
  destruct (Z.eqb_spec n 0) as [|_]; [lia|]. cbn [negb andb].
  destruct (Z.gtb_spec (Z.of_nat (length l)) n) as [Hgt|Hle].
  - apply slice_front. lia.
  - symmetry. apply take_beyond. lia.
Qed.

Lemma limitTop_negative {A} (n : Z) (l : list A) :
  n < 0 -> limitTop (Some n) l = take (length l - Z.to_nat (- n)) l.
Proof.
  intros Hn. unfold limitTop, truthy_num. change (default 0 (Some n)) with n.
  destruct (Z.eqb_spec n 0) as [|_]; [lia|]. cbn [negb andb].
  destruct (Z.gtb_spec (Z.of_nat (length l)) n) as [Hgt|Hle]; [|lia].
  by apply slice_front_negative.
Qed.

Lemma limitTop_sublist {A} (top : option Z) (l : list A) :
  limitTop top l `sublist_of` l.
Proof.
  destruct top as [n|]; [|done].
  destruct (Z.lt_trichotomy n 0) as [Hn|[->|Hn]].
  - rewrite limitTop_negative by done. apply sublist_take.
  - done.
  - rewrite limitTop_positive by done. apply sublist_take.
Qed.

Lemma paginate_spec {A} (skip top : option Z) (l : list A) :
  paginate skip top l
  = let rest := drop (Z.to_nat (default 0 skip)) l in
    if 0 <? default 0 top then take (Z.to_nat (default 0 top)) rest else rest.
Proof.
  unfold paginate, truthy_num.
  assert ((if match skip with
              | Some n => negb (n =? 0)
              | None => false
              end && (default 0 skip >? 0)
           then slice l (default 0 skip) None else l)
          = drop (Z.to_nat (default 0 skip)) l) as ->.
  { destruct skip as [s|]; [change (default 0 (Some s)) with s|done].
    destruct (Z.eqb_spec s 0) as [->|Hs]; [done|]. cbn [negb andb].
    destruct (Z.gtb_spec s 0) as [Hpos|Hneg].
    - apply slice_from. lia.
    - by replace (Z.to_nat s) with 0%nat by lia. }
  cbn zeta. destruct top as [t|]; [change (default 0 (Some t)) with t|done].
  destruct (Z.eqb_spec t 0) as [->|Ht]; [done|]. cbn [negb andb].
  rewrite Z.gtb_ltb. destruct (Z.ltb_spec 0 t) as [Hpos|Hneg]; [|done].
  apply slice_front. lia.
Qed.

Section GitQueriesProperties.
Context {Remote Branch : Type}.
Variable connection_getGitApi : Sdk Remote (GitApi Remote).
Variable sdk_getBranches :
  GitApi Remote -> string -> option string -> Sdk Remote (list Branch).
Variable sdk_getItems :
  GitApi Remote -> string -> option string -> bool -> Sdk Remote (list GitItem).
Variable sdk_getCommits :
  GitApi Remote -> string -> Sdk Remote (list GitCommitRef).
Variable toLowerCase : string -> string.
Implicit Types (w : World Remote) (gitApi : GitApi Remote).

Lemma listBranches_run params w gitApi remote1 branches remote2 :
  connection_getGitApi (remote w) = (Ok gitApi, remote1) ->
  sdk_getBranches gitApi (branches_repositoryId params) (branches_filter params)
    remote1 = (Ok branches, remote2) ->
  listBranches connection_getGitApi sdk_getBranches params w
  = (Ok (limitTop (branches_top params) branches),
     mkWorld remote2 (calls w ++ [GetGitApi]) (console w)).
Proof.
  intros Hapi Hsdk.
  unfold listBranches, try_catch, bind, getGitApi, await, query.
  rewrite Hapi. cbn. by rewrite Hsdk.
Qed.

(** X1: when the SDK returns the branches, [listBranches] returns a prefix
    of them: the first [top] when [top] is positive, all of them when
    [top] is absent or zero, and all but the last [-top] when [top] is
    negative. *)
Theorem X1_listBranches_top params w gitApi remote1 branches remote2 :
  connection_getGitApi (remote w) = (Ok gitApi, remote1) ->
  sdk_getBranches gitApi (branches_repositoryId params) (branches_filter params)
    remote1 = (Ok branches, remote2) ->
  exists result,
    fst (listBranches connection_getGitApi sdk_getBranches params w) = Ok result
    /\ result `prefix_of` branches
    /\ (branches_top params = None \/ branches_top params = Some 0 ->
        result = branches)
    /\ (forall n, branches_top params = Some n -> 0 < n ->
          result = take (Z.to_nat n) branches
          /\ Z.of_nat (length result) <= n)
    /\ (forall n, branches_top params = Some n -> n < 0 ->
          result = take (length branches - Z.to_nat (- n)) branches).
Proof.
  intros Hapi Hsdk. rewrite (listBranches_run _ _ _ _ _ _ Hapi Hsdk).
  eexists. split; [reflexivity|]. split; [|split; [|split]].
  - destruct (branches_top params) as [n|]; [|done].
    destruct (Z.lt_trichotomy n 0) as [Hn|[->|Hn]].
    + rewrite limitTop_negative by done. apply prefix_take.
    + done.
    + rewrite limitTop_positive by done. apply prefix_take.
  - apply limitTop_unlimited.
  - intros n -> Hn. rewrite limitTop_positive by done.
    split; [done|]. rewrite length_take. lia.
  - intros n -> Hn. by apply limitTop_negative.
Qed.

Lemma searchCode_run params w gitApi remote1 items remote2 :
  connection_getGitApi (remote w) = (Ok gitApi, remote1) ->
  sdk_getItems gitApi (or_default (search_repositoryId params) EmptyString)
    None true remote1 = (Ok items, remote2) ->
  searchCode connection_getGitApi sdk_getItems toLowerCase params w
  = (Ok (limitTop (search_top params) (searchFilter toLowerCase params items)),
     mkWorld remote2 (calls w ++ [GetGitApi]) (console w)).
Proof.
  intros Hapi Hsdk.
  unfold searchCode, try_catch, bind, getGitApi, await, query.
  rewrite Hapi. cbn. by rewrite Hsdk.
Qed.

Lemma searchFilter_sublist params items :
  searchFilter toLowerCase params items `sublist_of` items.
Proof.
  unfold searchFilter.
  destruct (truthy (search_searchText params)), (truthy (search_fileExtension params));
    repeat (etrans; [apply filter_sublist|]); done.
Qed.

Lemma searchFilter_text params items text item :
  search_searchText params = Some text -> text <> EmptyString ->
  item ∈ searchFilter toLowerCase params items ->
  exists path pre post,
    item_path item = Some path
    /\ toLowerCase path = pre +:+ toLowerCase text +:+ post.
Proof.
  intros Htext Hne Hin.
  assert (item ∈ List.filter
            (fun item =>
               truthy (item_path item)
               && includes (toLowerCase (default EmptyString (item_path item)))
                    (toLowerCase text)) items) as Hfiltered.
  { unfold searchFilter in Hin. rewrite Htext in Hin. cbn in Hin.
    destruct (String.eqb_spec text EmptyString) as [|_]; [done|]. cbn in Hin.
    destruct (truthy (search_fileExtension params)); [|done].
    eapply elem_of_sublist; [exact Hin|apply filter_sublist]. }
  apply list_elem_of_In, filter_In in Hfiltered as [_ Hcond].
  apply andb_true_iff in Hcond as [Hpath Hincl].
  destruct (item_path item) as [path|]; [|done].
  apply includes_spec in Hincl as (pre & post & Hincl).
  by exists path, pre, post.
Qed.

Lemma searchFilter_extension params items ext item :
  search_fileExtension params = Some ext -> ext <> EmptyString ->
  item ∈ searchFilter toLowerCase params items ->
  exists path pre, item_path item = Some path /\ path = pre +:+ ext.
Proof.
  intros Hext Hne Hin. unfold searchFilter in Hin. rewrite Hext in Hin.
  cbn in Hin. destruct (String.eqb_spec ext EmptyString) as [|_]; [done|].
  cbn in Hin. apply list_elem_of_In, filter_In in Hin as [_ Hcond].
  apply andb_true_iff in Hcond as [Hpath Hends].
  destruct (item_path item) as [path|]; [|done].
  apply endsWith_spec in Hends as [pre Hends].
  by exists path, pre.
Qed.

(** X2: when the SDK returns the items, [searchCode] returns some of them,
    in their order; with a search text every item returned has a path
    whose lower case contains the lower case of the text; with a file
    extension every item returned has a path that ends with it; with a
    positive [top] at most [top] items are returned; and with neither
    text nor extension nor [top] every item is returned, those without
    path too. *)
Theorem X2_searchCode_results params w gitApi remote1 items remote2 :
  connection_getGitApi (remote w) = (Ok gitApi, remote1) ->
  sdk_getItems gitApi (or_default (search_repositoryId params) EmptyString)
    None true remote1 = (Ok items, remote2) ->
  exists result,
    fst (searchCode connection_getGitApi sdk_getItems toLowerCase params w)
      = Ok result
    /\ result `sublist_of` items
    /\ (forall text item,
          search_searchText params = Some text -> text <> EmptyString ->
          item ∈ result ->
          exists path pre post,
            item_path item = Some path
            /\ toLowerCase path = pre +:+ toLowerCase text +:+ post)
    /\ (forall ext item,
          search_fileExtension params = Some ext -> ext <> EmptyString ->
          item ∈ result ->
          exists path pre, item_path item = Some path /\ path = pre +:+ ext)
    /\ (forall n, search_top params = Some n -> 0 < n ->
          Z.of_nat (length result) <= n)
    /\ (truthy (search_searchText params) = false ->
        truthy (search_fileExtension params) = false ->
        search_top params = None -> result = items).
Proof.
  intros Hapi Hsdk. rewrite (searchCode_run _ _ _ _ _ _ Hapi Hsdk).
  eexists. split; [reflexivity|]. cbn [fst].
  pose proof (limitTop_sublist (search_top params)
                (searchFilter toLowerCase params items)) as Hsub.
  split; [|split; [|split; [|split]]].
  - etrans; [exact Hsub|]. apply searchFilter_sublist.
  - intros text item Htext Hne Hin.
    eapply searchFilter_text; [exact Htext|exact Hne|].
    eapply elem_of_sublist; [exact Hin|exact Hsub].
  - intros ext item Hext Hne Hin.
    eapply searchFilter_extension; [exact Hext|exact Hne|].
    eapply elem_of_sublist; [exact Hin|exact Hsub].
  - intros n -> Hn. rewrite limitTop_positive by done. rewrite length_take. lia.
  - intros Htext Hext ->. unfold searchFilter. by rewrite Htext, Hext.
Qed.

Lemma getCommitHistory_run params w gitApi remote1 commits remote2 :
  connection_getGitApi (remote w) = (Ok gitApi, remote1) ->
  sdk_getCommits gitApi (history_repositoryId params) remote1
    = (Ok commits, remote2) ->
  getCommitHistory connection_getGitApi sdk_getCommits params w
  = (Ok (paginate (history_skip params) (history_top params)
           (commitsMentioning (history_itemPath params) commits)),
     mkWorld remote2 (calls w ++ [GetGitApi]) (console w)).
Proof.
  intros Hapi Hsdk.
  unfold getCommitHistory, try_catch, bind, getGitApi, await, query.
  rewrite Hapi. cbn. by rewrite Hsdk.
Qed.

(** X3: the pages of [getCommitHistory] fit together: for the same answer
    of the SDK, the page of [a] commits after [skip] followed by the page
    of [b] commits after [skip + a] is the page of [a + b] commits after
    [skip]. *)
Theorem X3_getCommitHistory_pages repositoryId itemPath (skip a b : Z)
    w gitApi remote1 commits remote2 :
  connection_getGitApi (remote w) = (Ok gitApi, remote1) ->
  sdk_getCommits gitApi repositoryId remote1 = (Ok commits, remote2) ->
  0 <= skip -> 0 < a -> 0 < b ->
  exists first second both,
    fst (getCommitHistory connection_getGitApi sdk_getCommits
           (mkHistoryParams repositoryId itemPath (Some skip) (Some a)) w)
      = Ok first
    /\ fst (getCommitHistory connection_getGitApi sdk_getCommits
              (mkHistoryParams repositoryId itemPath (Some (skip + a)) (Some b)) w)
       = Ok second
    /\ fst (getCommitHistory connection_getGitApi sdk_getCommits
              (mkHistoryParams repositoryId itemPath (Some skip) (Some (a + b))) w)
       = Ok both
    /\ (first ++ second)%list = both
    /\ Z.of_nat (length first) <= a.
Proof.
  intros Hapi Hsdk Hskip Ha Hb.
  rewrite !(getCommitHistory_run _ _ gitApi remote1 commits remote2 Hapi)
    by exact Hsdk.
  eexists _, _, _. repeat (split; [reflexivity|]). cbn [fst].
  cbn [history_skip history_top history_itemPath].
  rewrite !paginate_spec. cbn [default from_option]. cbn zeta.
  unfold Datatypes.id.
  destruct (Z.ltb_spec 0 a) as [_|]; [|lia].
  destruct (Z.ltb_spec 0 b) as [_|]; [|lia].
  destruct (Z.ltb_spec 0 (a + b)) as [_|]; [|lia].
  split; [|rewrite length_take; lia].
  rewrite !Z2Nat.inj_add by lia.
  rewrite <- drop_drop. apply take_take_drop.
Qed.

(** X4: [getCommitHistory] ignores a [skip] and a [top] that are absent,
    zero or negative, so that [top] zero does not mean no commit: it then
    returns, or throws, what [getCommits] does for the same path. *)
Theorem X4_getCommitHistory_unpaged repositoryId itemPath (skip top : option Z) w :
  default 0 skip <= 0 -> default 0 top <= 0 ->
  fst (getCommitHistory connection_getGitApi sdk_getCommits
         (mkHistoryParams repositoryId itemPath skip top) w)
  = fst (getCommits connection_getGitApi sdk_getCommits
           (mkCommitsParams repositoryId itemPath) w).
Proof.
  intros Hskip Htop.
  unfold getCommitHistory, getCommits, try_catch, bind, getGitApi, await, query.
  destruct (connection_getGitApi (remote w)) as [[gitApi|e] remote1]; cbn; [|done].
  destruct (sdk_getCommits gitApi repositoryId remote1) as [[commits|e] remote2];
    cbn; [|done].
  rewrite paginate_spec. cbn zeta.
  destruct (Z.ltb_spec 0 (default 0 top)) as [|_]; [lia|].
  by replace (Z.to_nat (default 0 skip)) with 0%nat by lia.
Qed.

End GitQueriesProperties.

Lemma X1_listBranches_top_witness :
  exists result,
    fst (listBranches Samples.theConnection
           (Samples.branchesEndpoint ["main"; "dev"; "feature"])
           (mkBranchesParams "repo-A" None (Some 2)) Fixtures.freshWorld)
      = Ok result
    /\ result = ["main"; "dev"].
Proof.
  destruct (X1_listBranches_top Samples.theConnection
              (Samples.branchesEndpoint ["main"; "dev"; "feature"])
              (mkBranchesParams "repo-A" None (Some 2)) Fixtures.freshWorld
              Samples.theApi 0%nat ["main"; "dev"; "feature"] 0%nat
              eq_refl eq_refl)
    as (result & Hrun & _ & _ & Hpositive & _).
  exists result. split; [exact Hrun|].
  apply (Hpositive 2); [reflexivity|lia].
Defined.

Lemma X2_searchCode_results_witness :
  exists result,
    fst (searchCode Samples.theConnection (Samples.itemsEndpoint Samples.threeItems)
           Samples.lower
           (mkSearchParams (Some "repo-A") (Some "APP") (Some ".ts") (Some 5))
           Fixtures.freshWorld)
      = Ok result
    /\ result `sublist_of` Samples.threeItems
    /\ Z.of_nat (length result) <= 5.
Proof.
  destruct (X2_searchCode_results Samples.theConnection
              (Samples.itemsEndpoint Samples.threeItems) Samples.lower
              (mkSearchParams (Some "repo-A") (Some "APP") (Some ".ts") (Some 5))
              Fixtures.freshWorld Samples.theApi 0%nat Samples.threeItems 0%nat
              eq_refl eq_refl)
    as (result & Hrun & Hsub & _ & _ & Htop & _).
  exists result. split; [exact Hrun|]. split; [exact Hsub|].
  apply (Htop 5); [reflexivity|lia].
Defined.

Lemma X3_getCommitHistory_pages_witness :
  exists first second both,
    fst (getCommitHistory Samples.theConnection
           (Samples.commitsEndpoint Samples.fiveCommits)
           (mkHistoryParams "repo-A" (Some "src/app.ts") (Some 1) (Some 1))
           Fixtures.freshWorld) = Ok first
    /\ fst (getCommitHistory Samples.theConnection
              (Samples.commitsEndpoint Samples.fiveCommits)
              (mkHistoryParams "repo-A" (Some "src/app.ts") (Some (1 + 1)) (Some 2))
              Fixtures.freshWorld) = Ok second
    /\ fst (getCommitHistory Samples.theConnection
              (Samples.commitsEndpoint Samples.fiveCommits)
              (mkHistoryParams "repo-A" (Some "src/app.ts") (Some 1) (Some (1 + 2)))
              Fixtures.freshWorld) = Ok both
    /\ (first ++ second)%list = both.
Proof.
  destruct (X3_getCommitHistory_pages Samples.theConnection
              (Samples.commitsEndpoint Samples.fiveCommits)
              "repo-A" (Some "src/app.ts") 1 1 2 Fixtures.freshWorld
              Samples.theApi 0%nat Samples.fiveCommits 0%nat eq_refl eq_refl
              ltac:(lia) ltac:(lia) ltac:(lia))
    as (first & second & both & H1 & H2 & H12 & Happ & _).
  exists first, second, both. repeat split; assumption.
Defined.

Lemma X4_getCommitHistory_unpaged_witness :
  fst (getCommitHistory Samples.theConnection
         (Samples.commitsEndpoint Samples.fiveCommits)
         (mkHistoryParams "repo-A" (Some "src/app.ts") (Some 0) (Some 0))
         Fixtures.freshWorld)
  = fst (getCommits Samples.theConnection
           (Samples.commitsEndpoint Samples.fiveCommits)
           (mkCommitsParams "repo-A" (Some "src/app.ts")) Fixtures.freshWorld).
Proof.
  apply (X4_getCommitHistory_unpaged Samples.theConnection
           (Samples.commitsEndpoint Samples.fiveCommits)
           "repo-A" (Some "src/app.ts") (Some 0) (Some 0) Fixtures.freshWorld);
    cbn; lia.
Defined.

Example getCommitHistory_second_page :
  fst (getCommitHistory Samples.theConnection
         (Samples.commitsEndpoint Samples.fiveCommits)
         (mkHistoryParams "repo-A" (Some "src/app.ts") (Some 1) (Some 2))
         Fixtures.freshWorld)
  = Ok [Samples.commitOf "c: src/app.ts"; Samples.commitOf "d: src/app.ts"].
Proof. reflexivity. Qed.

Example searchCode_case_insensitive :
  fst (searchCode Samples.theConnection (Samples.itemsEndpoint Samples.threeItems)
         Samples.lower
         (mkSearchParams (Some "repo-A") (Some "APP") (Some ".ts") None)
         Fixtures.freshWorld)
  = Ok [Samples.itemAt "/src/App.ts"].
Proof. reflexivity. Qed.

Example listBranches_negative_top :
  fst (listBranches Samples.theConnection
         (Samples.branchesEndpoint ["main"; "dev"; "feature"])
         (mkBranchesParams "repo-A" None (Some (-1))) Fixtures.freshWorld)
  = Ok ["main"; "dev"].
Proof. reflexivity. Qed.

(** ** Status texts and status filters *)

Lemma append_char_inj (c : ascii) (s t : string) :
  s +:+ String c EmptyString = t +:+ String c EmptyString -> s = t.
Proof.
  revert t. induction s as [|a s IH]; intros [|b t] Heq;
    rewrite ?string_app_cons, ?string_app_empty in Heq.
  - done.
  - injection Heq as _ Heq. by destruct t.
  - injection Heq as _ Heq. by destruct s.
  - injection Heq as -> Heq. by rewrite (IH t Heq).
Qed.

Lemma statusText_cases (n : Z) :
  (0 <= n <= 3
   /\ getPullRequestStatusText n
      = nth (Z.to_nat n) ["notSet"; "active"; "abandoned"; "completed"] EmptyString)
  \/ ((n < 0 \/ 3 < n)
      /\ getPullRequestStatusText n
         = String "u" ("nknown(" +:+ number_to_string n +:+ ")")).
Proof.
  destruct n as [|p|p]; [left; by split|..|right; split; [lia|done]].
  destruct p as [[q|q|]|[q|q|]|];
    first [left; split; [lia|reflexivity] | right; split; [lia|reflexivity]].
Qed.

Lemma mergeStatusText_cases (n : Z) :
  (1 <= n <= 6
   /\ getMergeStatusText n
      = nth (Z.to_nat n)
          [EmptyString; "conflicts"; "failure"; "notSet"; "queued";
           "rejectedByPolicy"; "succeeded"] EmptyString)
  \/ ((n < 1 \/ 6 < n)
      /\ getMergeStatusText n
         = String "u" ("nknown(" +:+ number_to_string n +:+ ")")).
Proof.
  destruct n as [|p|p]; [right; split; [lia|done]|..|right; split; [lia|done]].
  destruct p as [[[q|q|]|[q|q|]|]|[[q|q|]|[q|q|]|]|];
    first [left; split; [lia|reflexivity] | right; split; [lia|reflexivity]].
Qed.

Lemma unknown_text_inj (n m : Z) :
  String "u" ("nknown(" +:+ number_to_string n +:+ ")")
  = String "u" ("nknown(" +:+ number_to_string m +:+ ")") ->
  n = m.
Proof.
  intros Heq. injection Heq as Heq. rewrite !string_app_empty in Heq.
  apply append_char_inj in Heq. by apply (inj pretty) in Heq.
Qed.

(** X5: the texts that [getPullRequest] reports lose nothing: two
    pull-request statuses with the same text are the same number, and so
    are two merge statuses. *)
Theorem X5_status_texts_injective (n m : Z) :
  (getPullRequestStatusText n = getPullRequestStatusText m -> n = m)
  /\ (getMergeStatusText n = getMergeStatusText m -> n = m).
Proof.
  split; intros Heq.
  - destruct (statusText_cases n) as [[Hn Htn]|[Hn Htn]],
             (statusText_cases m) as [[Hm Htm]|[Hm Htm]];
      rewrite Htn, Htm in Heq.
    + assert (n = 0 \/ n = 1 \/ n = 2 \/ n = 3) as Hns by lia.
      assert (m = 0 \/ m = 1 \/ m = 2 \/ m = 3) as Hms by lia.
      destruct Hns as [->|[->|[->| ->]]], Hms as [->|[->|[->| ->]]];
        first [reflexivity | discriminate].
    + assert (n = 0 \/ n = 1 \/ n = 2 \/ n = 3) as Hns by lia.
      destruct Hns as [->|[->|[->| ->]]]; discriminate.
    + assert (m = 0 \/ m = 1 \/ m = 2 \/ m = 3) as Hms by lia.
      destruct Hms as [->|[->|[->| ->]]]; discriminate.
    + by apply unknown_text_inj.
  - destruct (mergeStatusText_cases n) as [[Hn Htn]|[Hn Htn]],
             (mergeStatusText_cases m) as [[Hm Htm]|[Hm Htm]];
      rewrite Htn, Htm in Heq.
    + assert (n = 1 \/ n = 2 \/ n = 3 \/ n = 4 \/ n = 5 \/ n = 6) as Hns by lia.
      assert (m = 1 \/ m = 2 \/ m = 3 \/ m = 4 \/ m = 5 \/ m = 6) as Hms by lia.
      destruct Hns as [->|[->|[->|[->|[->| ->]]]]],
               Hms as [->|[->|[->|[->|[->| ->]]]]];
        first [reflexivity | discriminate].
    + assert (n = 1 \/ n = 2 \/ n = 3 \/ n = 4 \/ n = 5 \/ n = 6) as Hns by lia.
      destruct Hns as [->|[->|[->|[->|[->| ->]]]]]; discriminate.
    + assert (m = 1 \/ m = 2 \/ m = 3 \/ m = 4 \/ m = 5 \/ m = 6) as Hms by lia.
      destruct Hms as [->|[->|[->|[->|[->| ->]]]]]; discriminate.
    + by apply unknown_text_inj.
Qed.

Lemma X5_status_texts_injective_witness :
  getPullRequestStatusText (1 + 1) = getPullRequestStatusText 2 /\ 1 + 1 = 2.
Proof.
  split; [reflexivity|].
  apply (proj1 (X5_status_texts_injective (1 + 1) 2)). reflexivity.
Defined.

(** X6: the status text that [getPullRequest] reports can be given back to
    [getPullRequests] as its status filter: the texts of 0 to 3 select
    that very number, and every other text, the unknown ones and all
    included, selects no status at all; conversely a filter that selects
    a number is the text of that number. *)
Theorem X6_status_filter_round_trip (n : Z) :
  statusCriterion (Some (getPullRequestStatusText n))
    = (if (0 <=? n) && (n <=? 3) then Some n else None)
  /\ statusCriterion (Some "all") = None
  /\ statusCriterion None = None
  /\ (forall s, statusCriterion (Some s) = Some n ->
        getPullRequestStatusText n = s).
Proof.
  split; [|split; [done|split; [done|]]].
  - destruct (statusText_cases n) as [[Hn Htn]|[Hn Htn]]; rewrite Htn.
    + assert (n = 0 \/ n = 1 \/ n = 2 \/ n = 3) as Hns by lia.
      by destruct Hns as [->|[->|[->| ->]]].
    + destruct (Z.leb_spec 0 n), (Z.leb_spec n 3); try lia; reflexivity.
  - intros s. unfold statusCriterion.
    destruct (truthy (Some s)); [|done].
    repeat case_bool_decide; intros Hsome; simplify_eq; reflexivity.
Qed.

Lemma X6_status_filter_round_trip_witness :
  statusCriterion (Some "completed") = Some 3
  /\ getPullRequestStatusText 3 = "completed".
Proof.
  split; [reflexivity|].
  apply (proj2 (proj2 (proj2 (X6_status_filter_round_trip 3))) "completed").
  reflexivity.
Defined.

(** ** Work items *)

Section WorkItemsProperties.
Context {Remote WitApi Ref : Type}.
Variable connection_getWorkItemTrackingApi : Remote -> result WitApi * Remote.
Variable sdk_queryByWiql :
  WitApi -> string -> string -> Remote -> result (option (WorkItemQueryResult Ref)) * Remote.

(** X7: whatever the SDK answers, when [listWorkItems] returns a response
    its [count] is the number of its work items and nothing was logged;
    when it throws, exactly one entry was logged, of level ERROR, carrying
    the error thrown and the query and project as context. *)
Theorem X7_listWorkItems_count project wiqlQuery remote0 logs outcome remote' :
  listWorkItems connection_getWorkItemTrackingApi sdk_queryByWiql
    project wiqlQuery remote0 = (logs, outcome, remote') ->
  match outcome with
  | Ok response =>
      count response = Z.of_nat (length (response_workItems response))
      /\ logs = []
  | Throw e =>
      logs = [mkLogEntry ERROR "AzureDevOpsService" "Error listing work items"
                (Some (JObj [("wiqlQuery", JStr wiqlQuery); ("project", JStr project)]))
                (Some e)]
  end.
Proof.
  unfold listWorkItems, listWorkItems_failed. intros Hrun.
  destruct (connection_getWorkItemTrackingApi remote0) as [[witApi|e] remote1];
    [|by simplify_eq].
  destruct (sdk_queryByWiql witApi wiqlQuery project remote1)
    as [[[queryResult|]|e] remote2]; simplify_eq; [|done|done].
  cbn. by destruct (workItems queryResult).
Qed.

End WorkItemsProperties.

Lemma X7_listWorkItems_count_witness :
  exists response,
    listWorkItems MoreSamples.witConnection
      (MoreSamples.witEndpoint (Ok (Some (mkQueryResult (Some [7%nat; 9%nat])))))
      "Contoso" "SELECT [System.Id] FROM WorkItems" 0%nat
    = ([], Ok response, 0%nat)
    /\ count response = 2.
Proof.
  eexists. split; [reflexivity|].
  exact (proj1 (X7_listWorkItems_count MoreSamples.witConnection
                  (MoreSamples.witEndpoint (Ok (Some (mkQueryResult (Some [7%nat; 9%nat])))))
                  "Contoso" "SELECT [System.Id] FROM WorkItems" 0%nat
                  [] (Ok _) 0%nat eq_refl)).
Defined.

Example listWorkItems_without_items :
  listWorkItems MoreSamples.witConnection
    (MoreSamples.witEndpoint (Ok (Some (mkQueryResult None))))
    "Contoso" "SELECT [System.Id] FROM WorkItems" 0%nat
  = ([], Ok (mkResponse [] 0), 0%nat).
Proof. reflexivity. Qed.

(** ** The logger *)

Section LoggerProperties.
Variable stringify : Json -> string.
Variable stack : JsError -> option string.
Variable appendFileSync : string -> string -> option JsError.


End LoggerProperties.


Example log_outside_mcp_mode :
  log MoreSamples.showJson MoreSamples.noStack MoreSamples.diskFine
    MoreSamples.plainLogger "2026-01-01T00:00:00.000Z"
    (log_info "GitService" "ready" (Some (JObj [])))
  = mkLogOutput
      [("logs/mcp-azure-devops-2026-01-01.log",
        "2026-01-01T00:00:00.000Z [INFO] [GitService] ready" +:+ newline
        +:+ "Context: {...}" +:+ newline +:+ newline)]
      [(INFO,
        "2026-01-01T00:00:00.000Z [INFO] [GitService] ready" +:+ newline
        +:+ "Context: {...}", None)].
Proof. reflexivity. Qed.

(** ** What a resolved configuration holds, and what the constructor makes
    of it *)

Lemma or_default_empty (v : option string) :
  or_default v EmptyString = default EmptyString v.
Proof.
  destruct v as [s|]; [|done]. cbn.
  by destruct (String.eqb_spec s EmptyString) as [->|].
Qed.

Lemma truthy_Some (v : option string) :
  truthy v = true -> exists s, v = Some s /\ s <> EmptyString.
Proof.
  destruct v as [s|]; [|done]. cbn. intros Hs. exists s. split; [done|].
  intros ->. done.
Qed.

(** What [getAzureDevOpsConfig] has established when it returns. *)
Lemma getAzureDevOpsConfig_Ok_inv {H : Type} (env : Env) lines
    (c : AzureDevOpsConfig H) :
  getAzureDevOpsConfig env = (lines, Ok c) ->
  exists a,
    lines = []
    /\ truthy (env !! "AZURE_DEVOPS_ORG_URL") = true
    /\ truthy (env !! "AZURE_DEVOPS_PROJECT") = true
    /\ resolveAuth env
         (normalizeAuthType (or_default (env !! "AZURE_DEVOPS_AUTH_TYPE") "pat"))
         (bool_decide (env !! "AZURE_DEVOPS_IS_ON_PREMISES" = Some "true"))
         (or_default (env !! "AZURE_DEVOPS_PERSONAL_ACCESS_TOKEN") EmptyString)
       = Ok a
    /\ c = {| orgUrl := default EmptyString (env !! "AZURE_DEVOPS_ORG_URL");
              project := default EmptyString (env !! "AZURE_DEVOPS_PROJECT");
              personalAccessToken :=
                or_default (env !! "AZURE_DEVOPS_PERSONAL_ACCESS_TOKEN") EmptyString;
              isOnPremises :=
                bool_decide (env !! "AZURE_DEVOPS_IS_ON_PREMISES" = Some "true");
              collection := env !! "AZURE_DEVOPS_COLLECTION";
              apiVersion := env !! "AZURE_DEVOPS_API_VERSION";
              auth := Some a;
              entraAuthHandler := None |}.
Proof.
  unfold getAzureDevOpsConfig. intros Hrun.
  destruct (truthy (env !! "AZURE_DEVOPS_ORG_URL")); [|done].
  destruct (truthy (env !! "AZURE_DEVOPS_PROJECT")); [|done].
  cbn in Hrun.
  destruct (resolveAuth _ _ _ _) as [a|e]; [|done].
  exists a. by simplify_eq.
Qed.

(** The rows of the decision table on which [resolveAuth] succeeds. *)
Lemma resolveAuth_Ok_inv (env : Env) t onPremises token a :
  resolveAuth env t onPremises token = Ok a ->
  auth_type a = t
  /\ never_valid t onPremises = false
  /\ match t with
     | pat =>
         token <> EmptyString /\ username a = None /\ password a = None
         /\ domain a = None
     | entra =>
         onPremises = false /\ username a = None /\ password a = None
         /\ domain a = None
     | ntlm =>
         onPremises = true
         /\ username a = env !! "AZURE_DEVOPS_USERNAME"
         /\ password a = env !! "AZURE_DEVOPS_PASSWORD"
         /\ truthy (username a) = true /\ truthy (password a) = true
         /\ domain a = env !! "AZURE_DEVOPS_DOMAIN"
     | basic =>
         onPremises = true
         /\ username a = env !! "AZURE_DEVOPS_USERNAME"
         /\ password a = env !! "AZURE_DEVOPS_PASSWORD"
         /\ truthy (username a) = true /\ truthy (password a) = true
         /\ domain a = None
     end.
Proof.
  unfold resolveAuth.
  destruct t, onPremises; repeat case_bool_decide; try done;
    intros Hres; cbn in Hres;
    repeat match type of Hres with
           | context [truthy ?v] => destruct (truthy v) eqn:?
           | context [String.eqb ?s EmptyString] =>
               destruct (String.eqb_spec s EmptyString)
           end; cbn in Hres; simplify_eq; cbn; repeat split; done.
Qed.

(** X9: a configuration that [getAzureDevOpsConfig] returns has a
    non-empty organization URL and project, taken from the environment;
    is on-premises exactly when AZURE_DEVOPS_IS_ON_PREMISES is the string
    true; carries no Entra handler; and has an authentication entry whose
    type suits the hosting (entra on cloud only, ntlm and basic
    on-premises only) and whose credentials are present: a non-empty
    token for pat, a non-empty user name and password for ntlm and
    basic. Nothing was written to the console. *)
Theorem X9_resolved_config_invariant {H : Type} (env : Env) lines
    (c : AzureDevOpsConfig H) :
  getAzureDevOpsConfig env = (lines, Ok c) ->
  lines = []
  /\ env !! "AZURE_DEVOPS_ORG_URL" = Some (orgUrl c) /\ orgUrl c <> EmptyString
  /\ env !! "AZURE_DEVOPS_PROJECT" = Some (project c) /\ project c <> EmptyString
  /\ (isOnPremises c = true <-> env !! "AZURE_DEVOPS_IS_ON_PREMISES" = Some "true")
  /\ personalAccessToken c
     = default EmptyString (env !! "AZURE_DEVOPS_PERSONAL_ACCESS_TOKEN")
  /\ entraAuthHandler c = None
  /\ exists a,
       auth c = Some a
       /\ never_valid (auth_type a) (isOnPremises c) = false
       /\ match auth_type a with
          | pat => personalAccessToken c <> EmptyString
          | entra => isOnPremises c = false
          | ntlm | basic =>
              isOnPremises c = true
              /\ truthy (username a) = true /\ truthy (password a) = true
              /\ username a = env !! "AZURE_DEVOPS_USERNAME"
              /\ password a = env !! "AZURE_DEVOPS_PASSWORD"
          end.
Proof.
  intros Hrun.
  apply getAzureDevOpsConfig_Ok_inv in Hrun
    as (a & -> & Horg & Hproject & Hauth & ->).
  apply truthy_Some in Horg as (org & Horg & Horg_ne).
  apply truthy_Some in Hproject as (proj & Hproject & Hproject_ne).
  apply resolveAuth_Ok_inv in Hauth as (Htype & Hrow & Hcred).
  cbn. rewrite Horg, Hproject. cbn.
  repeat (split; [done|]). split; [apply bool_decide_eq_true|].
  split; [apply or_default_empty|]. split; [done|].
  exists a. split; [done|]. rewrite Htype. split; [done|].
  destruct (normalizeAuthType _); tauto.
Qed.

Lemma X9_resolved_config_invariant_witness :
  exists a,
    auth (Fixtures.onPremisesConfig None) = Some a /\ auth_type a = pat.
Proof.
  assert (getAzureDevOpsConfig (H:=unit) MoreSamples.envOnPremisesPat
          = ([], Ok (Fixtures.onPremisesConfig None))) as Hrun
    by (vm_compute; reflexivity).
  destruct (X9_resolved_config_invariant MoreSamples.envOnPremisesPat
              [] (Fixtures.onPremisesConfig None) Hrun)
    as (_ & _ & _ & _ & _ & _ & _ & _ & a & Hauth & _ & _).
  exists a. split; [exact Hauth|]. cbn in Hauth. injection Hauth as <-. reflexivity.
Defined.

(** X10: a configuration resolved from the environment passes the
    authentication checks of the constructor whenever its type is pat,
    ntlm or basic, and the handler chosen holds the credentials of the
    environment; with type entra the constructor always throws, because
    the resolved configuration carries no Entra handler. *)
Theorem X10_resolved_config_connects {H W : Type}
    (newWebApi : string -> RequestHandler H -> RequestOptions -> result W)
    (env : Env) lines (c : AzureDevOpsConfig H) :
  getAzureDevOpsConfig env = (lines, Ok c) ->
  exists a,
    auth c = Some a
    /\ match auth_type a with
       | entra =>
           snd (constructor newWebApi c) = Throw (Error entra_handler_message)
       | pat =>
           snd (selectAuthHandler c)
           = Ok (PersonalAccessTokenHandler
                   (default EmptyString (env !! "AZURE_DEVOPS_PERSONAL_ACCESS_TOKEN")))
       | ntlm =>
           exists user pass,
             env !! "AZURE_DEVOPS_USERNAME" = Some user
             /\ env !! "AZURE_DEVOPS_PASSWORD" = Some pass
             /\ snd (selectAuthHandler c)
                = Ok (NtlmHandler user pass (env !! "AZURE_DEVOPS_DOMAIN"))
       | basic =>
           exists user pass,
             env !! "AZURE_DEVOPS_USERNAME" = Some user
             /\ env !! "AZURE_DEVOPS_PASSWORD" = Some pass
             /\ snd (selectAuthHandler c) = Ok (BasicHandler user pass)
       end.
Proof.
  intros Hrun.
  apply getAzureDevOpsConfig_Ok_inv in Hrun as (a & -> & _ & _ & Hauth & ->).
  apply resolveAuth_Ok_inv in Hauth as (Htype & Hrow & Hcred).
  exists a. split; [done|]. rewrite Htype.
  destruct a as [t user pass dom]. cbn in Htype. subst t.
  destruct (normalizeAuthType _); cbn in Hcred.
  - destruct Hcred as (Htoken & -> & -> & ->).
    rewrite <- (or_default_empty (env !! "AZURE_DEVOPS_PERSONAL_ACCESS_TOKEN")).
    set (token := or_default _ EmptyString) in *.
    assert (truthy (Some token) = true) as Htruthy.
    { cbn. by destruct (String.eqb_spec token EmptyString). }
    unfold selectAuthHandler. cbn -[truthy]. rewrite Htruthy.
    destruct (bool_decide (env !! "AZURE_DEVOPS_IS_ON_PREMISES" = Some "true"));
      repeat case_bool_decide; done.
  - destruct Hcred as (-> & -> & -> & Huser & Hpass & ->).
    destruct (truthy_Some _ Huser) as (u & Hu & _).
    destruct (truthy_Some _ Hpass) as (p & Hp & _).
    exists u, p. repeat (split; [done|]).
    unfold selectAuthHandler. cbn -[truthy]. rewrite Huser, Hpass.
    repeat case_bool_decide; try done; cbn; by rewrite Hu, Hp.
  - destruct Hcred as (-> & -> & -> & Huser & Hpass & ->).
    destruct (truthy_Some _ Huser) as (u & Hu & _).
    destruct (truthy_Some _ Hpass) as (p & Hp & _).
    exists u, p. repeat (split; [done|]).
    unfold selectAuthHandler. cbn -[truthy]. rewrite Huser, Hpass.
    repeat case_bool_decide; try done; cbn; by rewrite Hu, Hp.
  - destruct Hcred as (-> & -> & -> & ->).
    unfold constructor, selectAuthHandler. cbn.
    repeat case_bool_decide; done.
Qed.

Lemma X10_resolved_config_connects_witness :
  snd (selectAuthHandler (H:=unit)
         {| orgUrl := "https://ado.example.com";
            project := "Contoso";
            personalAccessToken := EmptyString;
            isOnPremises := true;
            collection := None;
            apiVersion := None;
            auth := Some (mkAuth ntlm (Some "alice") (Some "hunter2") (Some "CORP"));
            entraAuthHandler := None |})
  = Ok (NtlmHandler "alice" "hunter2" (Some "CORP")).
Proof.
  assert (getAzureDevOpsConfig (H:=unit) MoreSamples.envOnPremisesNtlm
          = ([], Ok {| orgUrl := "https://ado.example.com";
                       project := "Contoso";
                       personalAccessToken := EmptyString;
                       isOnPremises := true;
                       collection := None;
                       apiVersion := None;
                       auth := Some (mkAuth ntlm (Some "alice") (Some "hunter2")
                                       (Some "CORP"));
                       entraAuthHandler := None |})) as Hrun
    by (vm_compute; reflexivity).
  destruct (X10_resolved_config_connects Fixtures.recordingWebApi
              MoreSamples.envOnPremisesNtlm [] _ Hrun)
    as (a & Hauth & Hhandler).
  cbn in Hauth. injection Hauth as <-. cbn in Hhandler.
  destruct Hhandler as (user & pass & Huser & Hpass & Hsel).
  vm_compute in Huser, Hpass. injection Huser as <-. injection Hpass as <-.
  rewrite Hsel. f_equal.
Defined.

(** ** What the constructor logs *)

Section ConstructorLogs.
Context {H W : Type}.
Variable newWebApi : string -> RequestHandler H -> RequestOptions -> result W.
Implicit Types (config : AzureDevOpsConfig H).

(** The choice of the handler logs one entry: an error entry carrying the
    error thrown, or an information entry. *)
Lemma selectAuthHandler_one_entry config :
  exists entry,
    fst (selectAuthHandler config) = [entry]
    /\ match snd (selectAuthHandler config) with
       | Throw e => level entry = ERROR /\ error entry = Some e
       | Ok _ => level entry = INFO /\ error entry = None
       end.
Proof.
  unfold selectAuthHandler.
  destruct (auth config) as [[t user pass dom]|], (isOnPremises config),
    (entraAuthHandler config); cbn -[truthy];
    repeat case_bool_decide; try destruct t; cbn -[truthy];
    repeat match goal with
           | |- context [truthy ?v] => destruct (truthy v)
           end; cbn; eexists; split; try reflexivity; done.
Qed.

(** X11: whenever the constructor throws, the error thrown is the one
    carried by the last entry it logged, an entry of level ERROR; and
    when it returns, the service holds the configuration given and the
    last entry logged reports the connection. *)
Theorem X11_constructor_logs_its_failure config :
  match snd (constructor newWebApi config) with
  | Throw e =>
      exists entry,
        last (fst (constructor newWebApi config)) = Some entry
        /\ level entry = ERROR /\ error entry = Some e
  | Ok service =>
      Service.config service = config
      /\ snd (selectAuthHandler config) = Ok (authHandler service)
      /\ last (fst (constructor newWebApi config))
         = Some (log_info svc "Successfully created Azure DevOps connection" None)
  end.
Proof.
  destruct (selectAuthHandler_one_entry config) as (entry & Hlogs & Hentry).
  unfold constructor.
  destruct (selectAuthHandler config) as [logs [handler|e]]; cbn in *; subst logs.
  - destruct (newWebApi _ _ _) as [conn|e]; cbn; [done|].
    eexists. split; [reflexivity|]. done.
  - by exists entry.
Qed.

Lemma selectAuthHandler_with_secrets config (token : string) (pass : option string) :
  truthy (Some token) = truthy (Some (personalAccessToken config)) ->
  (forall a, auth config = Some a -> truthy pass = truthy (password a)) ->
  fst (selectAuthHandler (with_secrets config token pass))
    = fst (selectAuthHandler config)
  /\ thrown (snd (selectAuthHandler (with_secrets config token pass)))
     = thrown (snd (selectAuthHandler config)).
Proof.
  intros Htoken Hpass. unfold selectAuthHandler, with_secrets.
  destruct (auth config) as [[t user pw dom]|] eqn:Hauth.
  - pose proof (Hpass _ eq_refl) as Hpw. cbn in Hpw.
    destruct (isOnPremises config), (entraAuthHandler config), t; cbn -[truthy];
      rewrite ?Hpw, ?Htoken; repeat case_bool_decide; try done;
      repeat match goal with
             | |- context [truthy ?v] => destruct (truthy v)
             end; done.
  - destruct (isOnPremises config), (entraAuthHandler config); cbn -[truthy];
      rewrite ?Htoken; repeat case_bool_decide; try done;
      repeat match goal with
             | |- context [truthy ?v] => destruct (truthy v)
             end; done.
Qed.

(** X12: the entries the constructor logs do not depend on the token nor
    on the password, only on whether each is empty: replacing both by
    others that are empty or not as before leaves every entry as it was,
    provided the client constructor fails, or not, in the same way
    whatever the handler. *)
Theorem X12_constructor_logs_hide_secrets config (token : string)
    (pass : option string) :
  truthy (Some token) = truthy (Some (personalAccessToken config)) ->
  (forall a, auth config = Some a -> truthy pass = truthy (password a)) ->
  (forall url handler handler' options,
     thrown (newWebApi url handler options)
     = thrown (newWebApi url handler' options)) ->
  fst (constructor newWebApi (with_secrets config token pass))
  = fst (constructor newWebApi config).
Proof.
  intros Htoken Hpass Hsame.
  destruct (selectAuthHandler_with_secrets config token pass Htoken Hpass)
    as [Hlogs Hthrown].
  unfold constructor.
  change (computeBaseUrl (with_secrets config token pass))
    with (computeBaseUrl config).
  change (buildRequestOptions (with_secrets config token pass))
    with (buildRequestOptions config).
  change (auth_type <$> auth (with_secrets config token pass))
    with (auth_type <$> ((fun a => mkAuth (auth_type a) (username a) pass (domain a))
                           <$> auth config)).
  assert (auth_type <$> ((fun a => mkAuth (auth_type a) (username a) pass (domain a))
                           <$> auth config) = auth_type <$> auth config) as ->
    by (by destruct (auth config)).
  change (isOnPremises (with_secrets config token pass)) with (isOnPremises config).
  change (orgUrl (with_secrets config token pass)) with (orgUrl config).
  change (collection (with_secrets config token pass)) with (collection config).
  destruct (selectAuthHandler (with_secrets config token pass))
    as [logs' [handler'|e']],
    (selectAuthHandler config) as [logs [handler|e]];
    cbn in Hlogs, Hthrown; subst; try done.
  specialize (Hsame (computeBaseUrl config) handler handler'
                (buildRequestOptions config)).
  destruct (newWebApi _ handler' _) as [conn'|e'],
           (newWebApi _ handler _) as [conn|e]; cbn in Hsame; try done.
  injection Hsame as ->. cbn. do 2 f_equal. f_equal. f_equal.
  unfold logConnectionFailure, connectionFailureContext.
  by rewrite sanitizedConfig_with_secrets.
Qed.

End ConstructorLogs.

Lemma X12_constructor_logs_hide_secrets_witness :
  fst (constructor Fixtures.recordingWebApi
         (with_secrets MoreSamples.ntlmConfig "another-token" (Some "correct horse")))
  = fst (constructor Fixtures.recordingWebApi MoreSamples.ntlmConfig).
Proof.
  apply (X12_constructor_logs_hide_secrets Fixtures.recordingWebApi
           MoreSamples.ntlmConfig "another-token" (Some "correct horse")).
  - reflexivity.
  - intros a Hauth. cbn in Hauth. by simplify_eq.
  - reflexivity.
Defined.

(** ** Every path of the mutating operations *)

Section EveryPath.
Context {Remote : Type}.
Variable connection_getGitApi : Sdk Remote (GitApi Remote).
Variable project : string.
Implicit Types (w : World Remote) (op : MutatingOperation) (gitApi : GitApi Remote).

(** Each operation is its guarded rest, inside its [try] and [catch]. *)
Lemma run_shape op :
  run connection_getGitApi project op
  = try_catch
      (guarded connection_getGitApi project (op_repositoryId op)
         (op_pullRequestId op) (op_rest project op))
      (rethrow (op_label op)).
Proof. by destruct op. Qed.

Lemma guarded_unfold {A} repositoryId pullRequestId
    (rest : GitApi Remote -> Async Remote A) w :
  guarded connection_getGitApi project repositoryId pullRequestId rest w
  = match connection_getGitApi (remote w) with
    | (Ok gitApi, remote1) =>
        match validatePullRequestRepository gitApi repositoryId pullRequestId
                project (after_call w GetGitApi remote1) with
        | (Ok _, w2) => rest gitApi w2
        | (Throw e, w2) => (Throw e, w2)
        end
    | (Throw e, remote1) => (Throw e, after_call w GetGitApi remote1)
    end.
Proof.
  unfold guarded, bind, getGitApi, await.
  by destruct (connection_getGitApi (remote w)) as [[gitApi|e] remote1].
Qed.

(** The guard either hands over to the rest, after two reads, or throws
    after one or two reads and nothing else. *)
Lemma guarded_cases {A} repositoryId pullRequestId
    (rest : GitApi Remote -> Async Remote A) w :
  (exists gitApi remote1 pr remote2,
     connection_getGitApi (remote w) = (Ok gitApi, remote1)
     /\ sdk_getPullRequest gitApi repositoryId pullRequestId project remote1
        = (Ok (Some pr), remote2)
     /\ (repository pr = None
         \/ exists repo, repository pr = Some repo /\ id repo = Some repositoryId)
     /\ guarded connection_getGitApi project repositoryId pullRequestId rest w
        = rest gitApi
            (mkWorld remote2
               (calls w ++ [GetGitApi;
                            GetPullRequest repositoryId pullRequestId project])
               (console w)))
  \/ (exists e remote' reads,
        guarded connection_getGitApi project repositoryId pullRequestId rest w
        = (Throw e, mkWorld remote' (calls w ++ reads) (console w))
        /\ (reads = [GetGitApi]
            \/ reads = [GetGitApi;
                        GetPullRequest repositoryId pullRequestId project])
        /\ ~ (exists gitApi remote1 pr remote2,
                connection_getGitApi (remote w) = (Ok gitApi, remote1)
                /\ sdk_getPullRequest gitApi repositoryId pullRequestId project
                     remote1 = (Ok (Some pr), remote2)
                /\ (repository pr = None
                    \/ exists repo, repository pr = Some repo
                                    /\ id repo = Some repositoryId))).
Proof.
  rewrite guarded_unfold.
  destruct (connection_getGitApi (remote w)) as [[gitApi|e] remote1] eqn:Hapi.
  - set (w1 := after_call w GetGitApi remote1).
    destruct (sdk_getPullRequest gitApi repositoryId pullRequestId project remote1)
      as [[[pr|]|e] remote2] eqn:Hsdk.
    + assert (sdk_getPullRequest gitApi repositoryId pullRequestId project
                (remote w1) = (Ok (Some pr), remote2)) as Hsdk1 by exact Hsdk.
      destruct (repository pr) as [repo|] eqn:Hrepo.
      * destruct (decide (id repo = Some repositoryId)) as [Hid|Hid].
        -- left. exists gitApi, remote1, pr, remote2.
           split; [done|]. split; [done|]. split; [right; by exists repo|].
           rewrite (validate_same gitApi _ _ _ w1 pr repo remote2 Hsdk1 Hrepo Hid).
           unfold w1, after_call. cbn. by rewrite <- app_assoc.
        -- right.
           rewrite (validate_mismatch gitApi _ _ _ w1 pr repo remote2 Hsdk1 Hrepo Hid).
           eexists _, remote2, _. unfold w1, after_call. cbn.
           rewrite <- app_assoc. split; [reflexivity|]. split; [by right|].
           intros (g & r1 & pr' & r2 & Hapi' & Hsdk' & Hok).
           injection Hapi' as <- <-. rewrite Hsdk in Hsdk'.
           injection Hsdk' as <- <-.
           destruct Hok as [Hnone|(repo' & Hsome & Hsame)]; congruence.
      * left. exists gitApi, remote1, pr, remote2.
        split; [done|]. split; [done|]. split; [by left|].
        rewrite (validate_no_repository gitApi _ _ _ w1 pr remote2 Hsdk1 Hrepo).
        unfold w1, after_call. cbn. by rewrite <- app_assoc.
    + assert (sdk_getPullRequest gitApi repositoryId pullRequestId project
                (remote w1) = (Ok None, remote2)) as Hsdk1 by exact Hsdk.
      right. rewrite (validate_not_found gitApi _ _ _ w1 remote2 Hsdk1).
      eexists _, remote2, _. unfold w1, after_call. cbn.
      rewrite <- app_assoc. split; [reflexivity|]. split; [by right|].
      intros (g & r1 & pr' & r2 & Hapi' & Hsdk' & Hok).
      injection Hapi' as <- <-. rewrite Hsdk in Hsdk'. discriminate.
    + assert (sdk_getPullRequest gitApi repositoryId pullRequestId project
                (remote w1) = (Throw e, remote2)) as Hsdk1 by exact Hsdk.
      right. rewrite (validate_rejected gitApi _ _ _ w1 e remote2 Hsdk1).
      eexists _, remote2, _. unfold w1, after_call. cbn.
      rewrite <- app_assoc. split; [reflexivity|]. split; [by right|].
      intros (g & r1 & pr' & r2 & Hapi' & Hsdk' & Hok).
      injection Hapi' as <- <-. rewrite Hsdk in Hsdk'. discriminate.
  - right. eexists e, remote1, _. unfold after_call.
    split; [reflexivity|]. split; [by left|].
    intros (g & r1 & pr' & r2 & Hapi' & Hsdk' & Hok). discriminate.
Qed.

(** The rest of each operation: the calls it adds, of which one at most
    is mutating, and nothing written to the console. *)
Lemma op_rest_effects op gitApi w outcome w' :
  op_rest project op gitApi w = (outcome, w') ->
  exists added,
    calls w' = (calls w ++ added)%list
    /\ console w' = console w
    /\ (length (List.filter is_mutating added) <= 1)%nat
    /\ (forall c update, c ∈ added -> update_of c = Some update ->
          update_status update = 3
          /\ mergeStrategy (completionOptions update)
             = mergeStrategyNumber (op_mergeStrategy op))
    /\ (forall result, outcome = Ok result ->
          (exists params, op = Merge params) \/ (exists params, op = Complete params) ->
          exists c update, last added = Some c /\ update_of c = Some update).
Proof.
  destruct op as [params|params|params|params]; cbn [op_rest];
    unfold bind, await, after_call.
  - destruct (sdk_createPullRequestReviewer _ _ _ _ _ _ _) as [r remote1].
    intros [= <- <-]. eexists. cbn. split; [done|]. split; [done|]. split; [cbn; lia|].
    split.
    + intros c update [->|[]%elem_of_nil]%elem_of_cons. done.
    + intros result _ [[p Hp]|[p Hp]]; discriminate.
  - destruct (sdk_updatePullRequest _ _ _ _ _ _) as [r remote1].
    intros [= <- <-]. eexists. cbn. split; [done|]. split; [done|]. split; [cbn; lia|].
    split.
    + intros c update [->|[]%elem_of_nil]%elem_of_cons [= <-]. cbn. split; reflexivity.
    + intros result _ _. eexists _, _. split; reflexivity.
  - destruct (truthy_num (comment_threadId params)).
    + destruct (sdk_createComment _ _ _ _ _ _ _) as [r remote1].
      intros [= <- <-]. eexists. cbn. split; [done|]. split; [done|]. split; [cbn; lia|].
      split.
      * intros c update [->|[]%elem_of_nil]%elem_of_cons. done.
      * intros result _ [[p Hp]|[p Hp]]; discriminate.
    + destruct (sdk_createThread _ _ _ _ _ _) as [r remote1].
      intros [= <- <-]. eexists. cbn. split; [done|]. split; [done|]. split; [cbn; lia|].
      split.
      * intros c update [->|[]%elem_of_nil]%elem_of_cons. done.
      * intros result _ [[p Hp]|[p Hp]]; discriminate.
  - destruct (sdk_getPullRequestById _ _ _) as [[r|e] remote1]; cbn.
    + destruct (sdk_updatePullRequest _ _ _ _ _ _) as [r' remote2].
      intros [= <- <-]. eexists. cbn. rewrite <- app_assoc.
      split; [done|]. split; [done|]. split; [cbn; lia|].
      split.
      * intros c update [->|[->|[]%elem_of_nil]%elem_of_cons]%elem_of_cons;
          [done|]. intros [= <-]. cbn. split; reflexivity.
      * intros result _ _. eexists _, _. split; reflexivity.
    + intros [= <- <-]. eexists. cbn. split; [done|]. split; [done|]. split; [cbn; lia|].
      split.
      * intros c update [->|[]%elem_of_nil]%elem_of_cons. done.
      * intros result Hok. discriminate.
Qed.

(** X13: whatever the SDK answers, a mutating operation makes at most one
    mutating call, and makes it only when the validation passes: when the
    client could not be obtained, the pull request was not found or could
    not be read, or it belongs to another repository, no vote, update,
    comment or thread call is made. *)
Theorem X13_mutation_only_after_validation op w outcome w' :
  run connection_getGitApi project op w = (outcome, w') ->
  exists added,
    calls w' = (calls w ++ added)%list
    /\ (length (List.filter is_mutating added) <= 1)%nat
    /\ (existsb is_mutating added = true ->
        validation_passes connection_getGitApi project op w).
Proof.
  rewrite run_shape. unfold try_catch.
  destruct (guarded_cases (op_repositoryId op) (op_pullRequestId op)
              (op_rest project op) w)
    as [(gitApi & remote1 & pr & remote2 & Hapi & Hsdk & Hok & ->)
       |(e & remote' & reads & -> & Hreads & _)].
  - destruct (op_rest project op gitApi _) as [result w3] eqn:Hrest.
    apply op_rest_effects in Hrest as (added & Hcalls & _ & Hone & _ & _).
    cbn [calls] in Hcalls.
    intros Hrun. assert (calls w' = calls w3) as ->.
    { unfold rethrow, bind, console_error, throw in Hrun.
      destruct result; by injection Hrun as <- <-. }
    eexists. rewrite Hcalls, <- app_assoc.
    split; [reflexivity|]. split; [exact Hone|].
    intros _. by exists gitApi, remote1, pr, remote2.
  - unfold rethrow, bind, console_error, throw. intros [= <- <-]. cbn [calls].
    exists reads. split; [done|].
    destruct Hreads as [-> | ->]; cbn; split; first [lia | discriminate].
Qed.

(** X14: a mutating operation that returns has written nothing to the
    console; one that throws has written exactly one line, its own label
    with the error it throws, whether the error came from the client, the
    validation or the mutating call. *)
Theorem X14_failure_written_once op w outcome w' :
  run connection_getGitApi project op w = (outcome, w') ->
  match outcome with
  | Ok _ => console w' = console w
  | Throw e => console w' = (console w ++ [(op_label op, e)])%list
  end.
Proof.
  rewrite run_shape. unfold try_catch.
  destruct (guarded_cases (op_repositoryId op) (op_pullRequestId op)
              (op_rest project op) w)
    as [(gitApi & remote1 & pr & remote2 & Hapi & Hsdk & Hok & ->)
       |(e & remote' & reads & -> & Hreads & _)].
  - destruct (op_rest project op gitApi _) as [result w3] eqn:Hrest.
    apply op_rest_effects in Hrest as (added & _ & Hconsole & _ & _ & _).
    cbn [console] in Hconsole.
    destruct result as [value|e].
    + intros [= <- <-]. exact Hconsole.
    + unfold rethrow, bind, console_error, throw. intros [= <- <-].
      cbn [console]. by rewrite Hconsole.
  - unfold rethrow, bind, console_error, throw. by intros [= <- <-].
Qed.

(** The number of a strategy name: 2, 3 and 4 for the three names the code
    knows, 1 for every other name and for none. *)
Lemma mergeStrategyNumber_cases (name : option string) :
  1 <= mergeStrategyNumber name <= 4
  /\ (name = Some "rebase" -> mergeStrategyNumber name = 2)
  /\ (name = Some "rebaseMerge" -> mergeStrategyNumber name = 3)
  /\ (name = Some "squash" -> mergeStrategyNumber name = 4)
  /\ (name <> Some "rebase" -> name <> Some "rebaseMerge" ->
      name <> Some "squash" -> mergeStrategyNumber name = 1).
Proof.
  unfold mergeStrategyNumber.
  split; [repeat case_bool_decide; lia|].
  split; [by intros ->|]. split; [by intros ->|]. split; [by intros ->|].
  intros Hrebase HrebaseMerge Hsquash. by repeat case_bool_decide.
Qed.

(** X15: every update that a mutating operation sends sets the status to
    3, completed, and a merge strategy from 1 to 4: 2 for the name rebase,
    3 for rebaseMerge, 4 for squash, and 1 for every other name,
    noFastForward and the unknown ones alike, and for an absent name. A
    merge or a completion that returns has sent such an update as its last
    call. *)
Theorem X15_updates_complete_with_known_strategy op w outcome w' :
  run connection_getGitApi project op w = (outcome, w') ->
  exists added,
    calls w' = (calls w ++ added)%list
    /\ (forall c update,
          c ∈ added -> update_of c = Some update ->
          update_status update = 3
          /\ 1 <= mergeStrategy (completionOptions update) <= 4
          /\ (op_mergeStrategy op = Some "rebase" ->
              mergeStrategy (completionOptions update) = 2)
          /\ (op_mergeStrategy op = Some "rebaseMerge" ->
              mergeStrategy (completionOptions update) = 3)
          /\ (op_mergeStrategy op = Some "squash" ->
              mergeStrategy (completionOptions update) = 4)
          /\ (op_mergeStrategy op <> Some "rebase" ->
              op_mergeStrategy op <> Some "rebaseMerge" ->
              op_mergeStrategy op <> Some "squash" ->
              mergeStrategy (completionOptions update) = 1))
    /\ (forall result, outcome = Ok result ->
          (exists params, op = Merge params) \/ (exists params, op = Complete params) ->
          exists c update, last added = Some c /\ update_of c = Some update).
Proof.
  rewrite run_shape. unfold try_catch.
  destruct (guarded_cases (op_repositoryId op) (op_pullRequestId op)
              (op_rest project op) w)
    as [(gitApi & remote1 & pr & remote2 & Hapi & Hsdk & Hok & ->)
       |(e & remote' & reads & -> & Hreads & _)].
  - destruct (op_rest project op gitApi _) as [result w3] eqn:Hrest.
    apply op_rest_effects in Hrest as (added & Hcalls & _ & _ & Hupdates & Hsent).
    cbn [calls] in Hcalls.
    intros Hrun. assert (calls w' = calls w3 /\ outcome = result) as [-> ->].
    { unfold rethrow, bind, console_error, throw in Hrun.
      destruct result; by injection Hrun as <- <-. }
    eexists. rewrite Hcalls, <- app_assoc.
    split; [reflexivity|]. split.
    + intros c update [->|[->|Hadded]%elem_of_cons]%elem_of_cons; [done|done|].
      intros Hupdate. destruct (Hupdates c update Hadded Hupdate) as [Hstatus ->].
      split; [exact Hstatus|]. apply mergeStrategyNumber_cases.
    + intros r Hr Hop. destruct (Hsent r Hr Hop) as (c & update & Hlast & Hupdate).
      exists c, update. split; [|exact Hupdate].
      destruct added as [|c0 added]; [discriminate|].
      cbn [app]. by rewrite !last_cons_cons.
  - unfold rethrow, bind, console_error, throw. intros [= <- <-]. cbn [calls].
    exists reads. split; [done|]. split; [|discriminate].
    intros c update Hin.
    destruct Hreads as [-> | ->];
      repeat (apply elem_of_cons in Hin as [->|Hin]; [done|]);
      by apply elem_of_nil in Hin.
Qed.

End EveryPath.

Lemma X13_mutation_only_after_validation_witness :
  exists added,
    calls (snd (run (Fixtures.countingConnection (Ok (Some Fixtures.prOfRepoA)))
                  "Contoso" (Approve (mkApproveParams "repo-A" 42))
                  Fixtures.freshWorld))
    = ([] ++ added)%list
    /\ (length (List.filter is_mutating added) <= 1)%nat.
Proof.
  destruct (X13_mutation_only_after_validation
              (Fixtures.countingConnection (Ok (Some Fixtures.prOfRepoA)))
              "Contoso" (Approve (mkApproveParams "repo-A" 42))
              Fixtures.freshWorld _ _ eq_refl)
    as (added & Hcalls & Hone & _).
  exists added. split; [exact Hcalls|exact Hone].
Defined.

Lemma X14_failure_written_once_witness :
  console (snd (run (Fixtures.countingConnection (Ok None)) "Contoso"
                  (Merge (mkMergeParams "repo-A" 42 None)) Fixtures.freshWorld))
  = [("Error merging pull request 42:",
      Error "Pull request 42 not found in repository repo-A")].
Proof.
  exact (X14_failure_written_once (Fixtures.countingConnection (Ok None)) "Contoso"
           (Merge (mkMergeParams "repo-A" 42 None)) Fixtures.freshWorld
           (Throw _) _ eq_refl).
Defined.

Lemma X15_updates_complete_with_known_strategy_witness :
  exists added,
    calls (snd (run (Fixtures.countingConnection (Ok (Some Fixtures.prOfRepoA)))
                  "Contoso"
                  (Complete (mkCompleteParams "repo-A" 42 (Some "fastest") None))
                  Fixtures.freshWorld))
    = ([] ++ added)%list
    /\ (forall c update,
          c ∈ added -> update_of c = Some update ->
          update_status update = 3
          /\ mergeStrategy (completionOptions update) = 1)
    /\ exists c update, last added = Some c /\ update_of c = Some update.
Proof.
  destruct (X15_updates_complete_with_known_strategy
              (Fixtures.countingConnection (Ok (Some Fixtures.prOfRepoA)))
              "Contoso"
              (Complete (mkCompleteParams "repo-A" 42 (Some "fastest") None))
              Fixtures.freshWorld _ _ eq_refl)
    as (added & Hcalls & Hupdates & Hsent).
  exists added. split; [exact Hcalls|]. split.
  - intros c update Hin Hupdate.
    destruct (Hupdates c update Hin Hupdate) as (Hstatus & _ & _ & _ & _ & Hother).
    split; [exact Hstatus|]. apply Hother; discriminate.
  - apply (Hsent _ eq_refl). right. by eexists.
Defined.

Example complete_unknown_strategy :
  calls (snd (completePullRequest
                (Fixtures.countingConnection (Ok (Some Fixtures.prOfRepoA)))
                "Contoso" (mkCompleteParams "repo-A" 42 (Some "fastest") None)
                Fixtures.freshWorld))
  = [GetGitApi; GetPullRequest "repo-A" 42 "Contoso"; GetPullRequestById 42;
     UpdatePullRequest (mkUpdate 3 (mkCompletionOptions 1 None)) "repo-A" 42 None].
Proof. reflexivity. Qed.

(** ** The search for the [.env] file *)

Section EnvFileProperties.
Variable path_join : list string -> string.
Variable path_resolve : string -> string.
Variable existsSync : string -> bool.

Lemma tryPaths_find (possiblePaths debugInfo : list string) :
  fst (tryPaths path_resolve existsSync possiblePaths debugInfo)
  = List.find existsSync possiblePaths.
Proof.
  revert debugInfo. induction possiblePaths as [|p rest IH]; intros debugInfo;
    cbn [tryPaths List.find]; [done|].
  destruct (existsSync p); [done|]. apply IH.
Qed.

(** X16: [loadEnvFile] hands to [dotenv.config] the first file that exists
    among, in this order, the [.env] next to the script directory, the
    [.env] of the current directory, the [.env] two levels above the
    script directory and [.azuredevops.env] in the home directory, and
    none when none exists. The [.env] of the current directory is thus
    loaded when the first is missing, whether or not the warning about it
    was written. *)
Theorem X16_loadEnvFile_first_existing (process : ProcessInfo) :
  fst (loadEnvFile path_join path_resolve existsSync process)
  = List.find existsSync
      [path_join [dirname process; ".."; ".env"];
       path_join [cwd process; ".env"];
       path_join [dirname process; ".."; ".."; ".env"];
       path_join [or_default (HOME process) EmptyString; ".azuredevops.env"]].
Proof.
  unfold loadEnvFile. cbn zeta. cbn [List.find].
  destruct (existsSync (path_join [dirname process; ".."; ".env"])); [done|].
  match goal with
  | |- fst (let (_, _) := tryPaths _ _ ?paths ?info in _) = _ =>
      pose proof (tryPaths_find paths info) as Hfind;
      destruct (tryPaths path_resolve existsSync paths info) as [loaded lines]
  end.
  exact Hfind.
Qed.

End EnvFileProperties.

Example loadEnvFile_current_directory :
  fst (loadEnvFile (join "/") (fun p => p)
         (fun p => String.eqb p "/work/.env" || String.eqb p ".env")
         (mkProcess "/work" "/opt/mcp/dist" "/opt/mcp/dist/config.js"
            (Some "/opt/mcp/dist/index.js") "/usr/bin/node" ["node"; "index.js"]
            (Some "/home/me")))
  = Some "/work/.env".
Proof. reflexivity. Qed.

(** ** The masking of a URL without double slash *)

Lemma includes_tail (c : ascii) (s t : string) :
  includes (String c s) t = false -> includes s t = false.
Proof. cbn [includes]. by intros [_ Hs]%orb_false_elim. Qed.

Lemma maskHost_skip_second (c c1 : ascii) (s : string) :
  is_slash c1 = false ->
  maskHost (String c (String c1 s)) = String c (maskHost (String c1 s)).
Proof.
  intros Hc1. destruct s as [|c2 s]; [done|].
  change (maskHost (String c (String c1 (String c2 s))))
    with (if is_slash c && is_slash c1 && negb (is_slash c2)
          then "//***" +:+ skipNonSlash s
          else String c (maskHost (String c1 (String c2 s)))).
  by rewrite Hc1, andb_false_r.
Qed.

Lemma maskHost_without_slashes (s : string) :
  includes s "//" = false -> maskHost s = s.
Proof.
  induction s as [|c s IH]; [done|]. intros Hs.
  pose proof (IH (includes_tail _ _ _ Hs)) as IHs.
  destruct (is_slash c) eqn:Hc.
  - destruct s as [|c1 s]; [done|].
    destruct (is_slash c1) eqn:Hc1.
    + unfold is_slash in Hc, Hc1. apply Ascii.eqb_eq in Hc. apply Ascii.eqb_eq in Hc1.
      subst c c1. cbn [includes] in Hs.
      apply orb_false_elim in Hs as [Hprefix _].
      assert (String.prefix "//" (String "/" (String "/" s)) = true) as Htrue
        by (apply prefix_spec; by exists s).
      congruence.
    + rewrite (maskHost_skip_second _ _ _ Hc1). by rewrite IHs.
  - rewrite (maskHost_skip _ _ Hc). by rewrite IHs.
Qed.

(** ** The entry logged for a connection failure *)

Lemma skipNonSlash_split (s : string) :
  exists host rest,
    s = host +:+ rest
    /\ has_char "/" host = false
    /\ (rest = EmptyString \/ exists r, rest = String "/" r)
    /\ skipNonSlash s = rest.
Proof.
  induction s as [|c s (host & rest & Hs & Hhost & Hrest & Hskip)].
  - exists EmptyString, EmptyString.
    split; [done|]. split; [done|]. split; [by left|done].
  - cbn [skipNonSlash]. destruct (is_slash c) eqn:Hc.
    + exists EmptyString, (String c s).
      unfold is_slash in Hc. apply Ascii.eqb_eq in Hc. subst c.
      split; [done|]. split; [done|]. split; [right; by exists s|done].
    + exists (String c host), rest. rewrite string_app_cons, <- Hs.
      split; [done|]. split; [|split; [exact Hrest|exact Hskip]].
      cbn [has_char]. unfold is_slash in Hc. by rewrite Hc, Hhost.
Qed.

(** What the replacement does to any string: nothing, or it puts three
    stars in place of one run of characters other than the slash that
    follows two slashes, and keeps everything before and after. *)
Lemma maskHost_cases (s : string) :
  maskHost s = s
  \/ exists pre host rest,
       s = pre +:+ "//" +:+ host +:+ rest
       /\ host <> EmptyString
       /\ has_char "/" host = false
       /\ (rest = EmptyString \/ exists r, rest = String "/" r)
       /\ maskHost s = pre +:+ "//***" +:+ rest.
Proof.
  induction s as [|c s IH]; [by left|].
  destruct s as [|c1 [|c2 s]]; [by left|by left|].
  change (maskHost (String c (String c1 (String c2 s))))
    with (if is_slash c && is_slash c1 && negb (is_slash c2)
          then "//***" +:+ skipNonSlash s
          else String c (maskHost (String c1 (String c2 s)))).
  destruct (is_slash c && is_slash c1 && negb (is_slash c2)) eqn:Hmatch.
  - right. apply andb_prop in Hmatch as [[Hc Hc1]%andb_prop Hc2].
    unfold is_slash in Hc, Hc1, Hc2.
    apply Ascii.eqb_eq in Hc. apply Ascii.eqb_eq in Hc1.
    apply negb_true_iff in Hc2. subst c c1.
    destruct (skipNonSlash_split s) as (host & rest & Hs & Hhost & Hrest & Hskip).
    exists EmptyString, (String c2 host), rest. rewrite Hskip.
    split; [by rewrite Hs|]. split; [done|].
    split; [cbn [has_char]; by rewrite Hc2, Hhost|]. split; [exact Hrest|done].
  - destruct IH as [IH|(pre & host & rest & Hs & Hne & Hhost & Hrest & Hmask)].
    + left. by rewrite IH.
    + right. exists (String c pre), host, rest. rewrite Hmask.
      split; [by rewrite Hs|]. split; [exact Hne|].
      split; [exact Hhost|]. split; [exact Hrest|done].
Qed.

Lemma url_not_empty (scheme tail : string) :
  truthy (Some (scheme +:+ "//" +:+ tail)) = true.
Proof. by destruct scheme. Qed.

(** The sanitized configuration is the same for two configurations that
    differ in their credentials only, with a token and a user name that
    are empty or not in both. *)
Lemma sanitizedConfig_credentials {H : Type} (c1 c2 : AzureDevOpsConfig H) :
  same_but_credentials c1 c2 ->
  truthy (Some (personalAccessToken c2)) = truthy (Some (personalAccessToken c1)) ->
  truthy (auth c2 ≫= username) = truthy (auth c1 ≫= username) ->
  sanitizedConfig c2 = sanitizedConfig c1.
Proof.
  intros (Hurl & Hproject & Hprem & Hcollection & Hversion & Htype) Htoken Huser.
  unfold sanitizedConfig.
  rewrite Htoken, Huser, <- Hurl, <- Hproject, <- Hprem, <- Hcollection, <- Hversion.
  destruct (auth c1) as [a1|], (auth c2) as [a2|]; cbn in Htype; try discriminate;
    [|reflexivity].
  injection Htype as ->. reflexivity.
Qed.

Lemma last_of_two {A : Type} (x : A) (l : list A) (a b : A) :
  last (x :: l ++ [a; b]) = Some b.
Proof.
  change (x :: l ++ [a; b])%list with ((x :: l) ++ ([a] ++ [b]))%list.
  rewrite app_assoc. apply last_snoc.
Qed.

(** C8: [logConnectionFailure] logs one ERROR entry, Connection failed,
    with the error and a context whose properties are config, errorCode
    and errorType; config is the sanitized configuration, whose
    properties are orgUrl, authType, isOnPremises, hasToken, hasUsername,
    collection, apiVersion and project; it is the last entry of a
    constructor whose client construction throws. The orgUrl logged is
    not provided for an empty URL; for a URL scheme//host/path the host is
    replaced by three stars; a URL without two slashes in a row is logged
    as it is, host included; in every case it is the URL or the URL with
    one run of characters after two slashes replaced by three stars. Of
    the credentials only the booleans hasToken and hasUsername remain:
    two configurations that differ in token, user name, password, domain
    or Entra handler have the same sanitized configuration but for those
    two booleans, and the same entry when the booleans agree; and two
    hosts in the same URL give the same entry. *)
Theorem C8_sanitized_context {H : Type} (component : string) (error : JsError)
    (config : AzureDevOpsConfig H) :
  (exists ctx,
     logConnectionFailure component error config
     = mkLogEntry ERROR component "Connection failed" (Some ctx) (Some error)
     /\ keys ctx = ["config"; "errorCode"; "errorType"]
     /\ property "config" ctx = Some (sanitizedConfig config)
     /\ property "errorCode" ctx = Some (JOptStr (err_code error))
     /\ property "errorType" ctx = Some (JStr (err_name error)))
  /\ keys (sanitizedConfig config)
     = ["orgUrl"; "authType"; "isOnPremises"; "hasToken"; "hasUsername";
        "collection"; "apiVersion"; "project"]
  /\ (forall (W : Type)
        (newWebApi : string -> RequestHandler H -> RequestOptions -> result W)
        logs handler,
        selectAuthHandler config = (logs, Ok handler) ->
        newWebApi (computeBaseUrl config) handler (buildRequestOptions config)
          = Throw error ->
        last (fst (constructor newWebApi config))
          = Some (logConnectionFailure svc error config)
        /\ snd (constructor newWebApi config) = Throw error)
  /\ (orgUrl config = EmptyString ->
      property "orgUrl" (sanitizedConfig config) = Some (JStr "not provided"))
  /\ (forall scheme host rest,
        has_char "/" scheme = false -> host <> EmptyString ->
        has_char "/" host = false ->
        rest = EmptyString \/ (exists r, rest = String "/" r) ->
        orgUrl config = scheme +:+ "//" +:+ host +:+ rest ->
        property "orgUrl" (sanitizedConfig config)
        = Some (JStr (scheme +:+ "//***" +:+ rest)))
  /\ (orgUrl config <> EmptyString ->
      includes (orgUrl config) "//" = false ->
      property "orgUrl" (sanitizedConfig config) = Some (JStr (orgUrl config)))
  /\ (orgUrl config <> EmptyString ->
      property "orgUrl" (sanitizedConfig config) = Some (JStr (orgUrl config))
      \/ exists pre host rest,
           orgUrl config = pre +:+ "//" +:+ host +:+ rest
           /\ host <> EmptyString
           /\ has_char "/" host = false
           /\ (rest = EmptyString \/ exists r, rest = String "/" r)
           /\ property "orgUrl" (sanitizedConfig config)
              = Some (JStr (pre +:+ "//***" +:+ rest)))
  /\ property "hasToken" (sanitizedConfig config)
     = Some (JBool (negb (String.eqb (personalAccessToken config) EmptyString)))
  /\ property "hasUsername" (sanitizedConfig config)
     = Some (JBool (truthy (auth config ≫= username)))
  /\ (forall config',
        same_but_credentials config config' ->
        (forall k, k <> "hasToken" -> k <> "hasUsername" ->
           property k (sanitizedConfig config') = property k (sanitizedConfig config))
        /\ (truthy (Some (personalAccessToken config'))
              = truthy (Some (personalAccessToken config)) ->
            truthy (auth config' ≫= username) = truthy (auth config ≫= username) ->
            logConnectionFailure component error config'
            = logConnectionFailure component error config))
  /\ (forall scheme host host' rest,
        has_char "/" scheme = false ->
        host <> EmptyString -> has_char "/" host = false ->
        host' <> EmptyString -> has_char "/" host' = false ->
        rest = EmptyString \/ (exists r, rest = String "/" r) ->
        orgUrl config = scheme +:+ "//" +:+ host +:+ rest ->
        logConnectionFailure component error
          (with_orgUrl config (scheme +:+ "//" +:+ host' +:+ rest))
        = logConnectionFailure component error config).
Proof.
  assert (forall url : string,
            url <> EmptyString -> truthy (Some url) = true) as Htruthy.
  { intros url Hne. cbn. by destruct (String.eqb_spec url EmptyString). }
  split; [by eexists|]. split; [reflexivity|]. split.
  { intros W newWebApi logs handler Hselect Hnew. unfold constructor.
    rewrite Hselect, Hnew. cbn [fst snd]. split; [apply last_of_two|done]. }
  split.
  { intros Hurl. unfold sanitizedConfig. by rewrite Hurl. }
  split.
  { intros scheme host rest Hscheme Hne Hhost Hrest Hurl.
    unfold sanitizedConfig. rewrite Hurl, url_not_empty, maskHost_url by done.
    reflexivity. }
  split.
  { intros Hne Hslashes. unfold sanitizedConfig.
    by rewrite (Htruthy _ Hne), (maskHost_without_slashes _ Hslashes). }
  split.
  { intros Hne. unfold sanitizedConfig. rewrite (Htruthy _ Hne).
    destruct (maskHost_cases (orgUrl config))
      as [Hsame|(pre & host & rest & Hurl & Hhostne & Hhost & Hrest & Hmask)].
    - left. by rewrite Hsame.
    - right. exists pre, host, rest. by rewrite Hmask. }
  split; [reflexivity|]. split; [reflexivity|]. split.
  - intros config' Hsame. split.
    + destruct Hsame as (Hurl & Hproject & Hprem & Hcollection & Hversion & Htype).
      intros k Htoken Huser. unfold sanitizedConfig.
      rewrite <- Hurl, <- Hproject, <- Hprem, <- Hcollection, <- Hversion.
      assert (match auth config' with
              | Some a => AuthType_name (auth_type a)
              | None => "not specified"
              end
              = match auth config with
                | Some a => AuthType_name (auth_type a)
                | None => "not specified"
                end) as ->.
      { destruct (auth config) as [a|], (auth config') as [a'|];
          cbn in Htype; try discriminate; [|reflexivity].
        by injection Htype as ->. }
      unfold property. cbn [assoc].
      repeat match goal with
             | |- context [String.eqb k ?lit] =>
                 destruct (String.eqb_spec k lit) as [->|_]; [done|]
             end.
      reflexivity.
    + intros Htoken Huser. unfold logConnectionFailure, connectionFailureContext.
      by rewrite (sanitizedConfig_credentials config config' Hsame Htoken Huser).
  - intros scheme host host' rest Hscheme Hne Hhost Hne' Hhost' Hrest Hurl.
    unfold logConnectionFailure, connectionFailureContext.
    do 4 f_equal. unfold sanitizedConfig, with_orgUrl. cbn [orgUrl project
      personalAccessToken isOnPremises collection apiVersion auth].
    rewrite Hurl, !url_not_empty, !maskHost_url by done. reflexivity.
Qed.

Lemma C8_sanitized_context_witness :
  property "orgUrl" (sanitizedConfig MoreSamples.ntlmConfig)
  = Some (JStr "https://***")
  /\ logConnectionFailure svc (Error "connect ECONNREFUSED")
       MoreSamples.ntlmConfigOfBob
     = logConnectionFailure svc (Error "connect ECONNREFUSED")
         MoreSamples.ntlmConfig
  /\ logConnectionFailure svc (Error "connect ECONNREFUSED")
       (with_orgUrl MoreSamples.ntlmConfig "https://tfs.internal")
     = logConnectionFailure svc (Error "connect ECONNREFUSED")
         MoreSamples.ntlmConfig.
Proof.
  pose proof (C8_sanitized_context svc (Error "connect ECONNREFUSED")
                MoreSamples.ntlmConfig)
    as (_ & _ & _ & _ & Hmask & _ & _ & _ & _ & Hcredentials & Hhost).
  split; [|split].
  - apply (Hmask "https:" "ado.example.com" EmptyString);
      [reflexivity|discriminate|reflexivity|by left|reflexivity].
  - apply (Hcredentials MoreSamples.ntlmConfigOfBob); [|reflexivity|reflexivity].
    unfold same_but_credentials. repeat split; reflexivity.
  - apply (Hhost "https:" "ado.example.com" "tfs.internal" EmptyString);
      [reflexivity|discriminate|reflexivity|discriminate|reflexivity
      |by left|reflexivity].
Defined.

(** A URL written without its scheme reaches the log with its host: the
    entry that the constructor logs when the client construction fails
    holds the URL as it was given, and no star. *)
Lemma C8_unmasked_host_counterexample :
  exists ctx sanitized,
    last (fst (constructor MoreSamples.refusingWebApi MoreSamples.schemelessConfig))
    = Some (logConnectionFailure svc (Error "connect ECONNREFUSED")
              MoreSamples.schemelessConfig)
    /\ context (logConnectionFailure svc (Error "connect ECONNREFUSED")
                  MoreSamples.schemelessConfig) = Some ctx
    /\ property "config" ctx = Some sanitized
    /\ property "orgUrl" sanitized = Some (JStr "ado.example.com/tfs")
    /\ includes "ado.example.com/tfs" "***" = false.
Proof.
  eexists _, _. split; [reflexivity|]. split; [reflexivity|].
  split; [reflexivity|]. split; reflexivity.
Qed.

(** X17: an organization URL in which no two slashes follow each other,
    such as one written without its scheme, is logged as it is, host
    included, by [logConnectionFailure]. *)
Theorem X17_url_without_scheme_is_logged {H : Type} (config : AzureDevOpsConfig H) :
  orgUrl config <> EmptyString ->
  includes (orgUrl config) "//" = false ->
  property "orgUrl" (sanitizedConfig config) = Some (JStr (orgUrl config)).
Proof.
  intros Hne Hslashes. cbn.
  rewrite (maskHost_without_slashes _ Hslashes).
  by destruct (String.eqb_spec (orgUrl config) EmptyString).
Qed.

Lemma X17_url_without_scheme_is_logged_witness :
  property "orgUrl"
    (sanitizedConfig
       (with_secrets (Fixtures.onPremisesConfig None) "s3cr3t" None))
  = property "orgUrl" (sanitizedConfig (Fixtures.onPremisesConfig None))
  /\ property "orgUrl"
       (sanitizedConfig
          {| orgUrl := "ado.example.com/tfs";
             project := "Contoso";
             personalAccessToken := "s3cr3t";
             isOnPremises := true;
             collection := None;
             apiVersion := None;
             auth := None;
             entraAuthHandler := @None unit |})
     = Some (JStr "ado.example.com/tfs").
Proof.
  split; [reflexivity|].
  apply (X17_url_without_scheme_is_logged
           {| orgUrl := "ado.example.com/tfs";
              project := "Contoso";
              personalAccessToken := "s3cr3t";
              isOnPremises := true;
              collection := None;
              apiVersion := None;
              auth := None;
              entraAuthHandler := @None unit |});
    [discriminate|reflexivity].
Defined.

(** ** The allow-list, when it is set *)

Lemma split_pieces_clean (sep : ascii) (s : string) :
  Forall (fun piece => has_char sep piece = false) (split sep s).
Proof.
  induction s as [|c s IH]; cbn [split].
  - by repeat constructor.
  - destruct (Ascii.eqb c sep) eqn:Hc.
    + by constructor.
    + destruct (split sep s) as [|piece pieces].
      { constructor; [|constructor]. cbn [has_char]. by rewrite Hc. }
      inversion IH as [|? ? Hpiece Hpieces]; subst.
      constructor; [|done]. cbn [has_char]. by rewrite Hc.
Qed.

(** X18: when ALLOWED_TOOLS is set and not empty, [getAllowedTools] does
    not look at the tool tables: it returns the same set whatever the
    tools that exist, so a name that is no tool is allowed as well; the
    set is never empty, and none of its names holds a comma. *)
Theorem X18_allowed_tools_not_checked (g g' : ToolGroups) (env : Env) :
  truthy (env !! "ALLOWED_TOOLS") = true ->
  getAllowedTools g env = getAllowedTools g' env
  /\ getAllowedTools g env <> ∅
  /\ forall t, t ∈ getAllowedTools g env -> has_char "," t = false.
Proof.
  intros Hset. unfold getAllowedTools. rewrite Hset. cbn [negb].
  split; [done|]. split.
  - pose proof (split_not_nil "," (default EmptyString (env !! "ALLOWED_TOOLS")))
      as Hne.
    destruct (split "," _) as [|piece pieces]; [done|].
    intros Hempty. assert (piece ∈ (∅ : gset string)) as Hin.
    { rewrite <- Hempty. rewrite elem_of_list_to_set. apply list_elem_of_here. }
    by apply not_elem_of_empty in Hin.
  - intros t Hin. rewrite elem_of_list_to_set in Hin.
    pose proof (split_pieces_clean "," (default EmptyString (env !! "ALLOWED_TOOLS")))
      as Hclean.
    rewrite Forall_forall in Hclean. by apply Hclean.
Qed.

Lemma X18_allowed_tools_not_checked_witness :
  getAllowedTools Fixtures.sampleTools
    (<["ALLOWED_TOOLS" := "noSuchTool,listWorkItems"]> ∅)
  = getAllowedTools (mkToolGroups [] [] [] [] [] [] [] [])
      (<["ALLOWED_TOOLS" := "noSuchTool,listWorkItems"]> ∅).
Proof.
  apply (X18_allowed_tools_not_checked Fixtures.sampleTools
           (mkToolGroups [] [] [] [] [] [] [] [])
           (<["ALLOWED_TOOLS" := "noSuchTool,listWorkItems"]> ∅)).
  reflexivity.
Defined.
